(** * The .NET project generator: workspace controller, generation client
      and project history store

    A shallow embedding of the TypeScript sources

      - [services/project-history.service.ts]  (module [ProjectHistoryService])
      - [services/gemini.service.ts]           (module [GeminiService])
      - [app.component.ts]                     (module [AppComponent])

    followed by the properties the specification states about them.

    Conventions of the embedding.

    - A JavaScript string is a [string]; one character of the model stands for
      one UTF-16 code unit (the model covers the code units below 256), so
      [String.length] is the [length] property.
    - A plain object used as a dictionary ([files]) is the list of its own
      properties in creation order, see [JsObject].
    - A function that can throw returns a [Completion]; [try]/[catch] is a
      [match] on it.
    - An [async] method is split at its [await]: the part that runs when the
      method is called, and the part that runs when the awaited promise
      settles.  What the generative model answers and the identifier drawn from
      the clock and the random generator are inputs of the second part.
    - Left out: the wording of the prompts sent to the model, and the computed
      views that only feed the template ([selectedFileContent],
      [safePreviewContent], [featureCategories]). *)

From Stdlib Require Import ZArith NArith Ascii String.
From stdpp Require Import base list strings sorting.

Local Open Scope string_scope.
Local Open Scope list_scope.
Local Open Scope nat_scope.

(** ** JavaScript strings *)

Module JsString.

(** White space as [String.prototype.trim] sees it, among the code units
    below 256: TAB, LF, VT, FF, CR, SP and NBSP. *)
Definition is_white_space (c : ascii) : bool :=
  match N_of_ascii c with
  | 9 | 10 | 11 | 12 | 13 | 32 | 160 => true
  | _ => false
  end%N.

Fixpoint trimStart (s : string) : string :=
  match s with
  | EmptyString => EmptyString
  | String c s' => if is_white_space c then trimStart s' else s
  end.

Fixpoint trimEnd (s : string) : string :=
  match s with
  | EmptyString => EmptyString
  | String c s' =>
      match trimEnd s' with
      | EmptyString => if is_white_space c then EmptyString else String c EmptyString
      | t => String c t
      end
  end.

(** [s.trim()] *)
Definition trim (s : string) : string := trimEnd (trimStart s).

(** [s.endsWith(suffix)] *)
Definition endsWith (s suffix : string) : bool :=
  let n := String.length s in
  let k := String.length suffix in
  bool_decide (k ≤ n)%nat && bool_decide (substring (n - k) k s = suffix).

(** Truthiness of a string value: every string but the empty one. *)
Definition truthy (s : string) : bool := bool_decide (s ≠ "").

(** The double quote character, as a string. *)
Definition dquote : string := String "034"%char EmptyString.

End JsString.

(** ** Plain objects used as dictionaries *)

Module JsObject.

(** The own properties of the object, oldest first.  Keys are unique. *)
Definition t : Type := list (string * string).

Definition empty : t := [].

Fixpoint get (o : t) (k : string) : option string :=
  match o with
  | [] => None
  | (k', v) :: o' => if decide (k' = k) then Some v else get o' k
  end.

(** Defining or overwriting an own property: an existing key keeps its
    place, a new key goes last. *)
Fixpoint put (o : t) (k v : string) : t :=
  match o with
  | [] => [(k, v)]
  | (k', v') :: o' =>
      if decide (k' = k) then (k', v) :: o' else (k', v') :: put o' k v
  end.

(** [o[k] = v] for a string [v] on an object whose prototype is
    [Object.prototype]: the key [__proto__] reaches the inherited setter,
    which ignores a value that is neither an object nor [null]; every other
    key becomes an own property. *)
Definition set (o : t) (k v : string) : t :=
  if decide (k = "__proto__") then o else put o k v.

Definition digit (c : ascii) : option N :=
  let n := N_of_ascii c in
  if ((48 <=? n) && (n <=? 57))%N then Some (n - 48)%N else None.

Fixpoint decimal (acc : N) (s : string) : option N :=
  match s with
  | EmptyString => Some acc
  | String c s' =>
      match digit c with
      | Some d => decimal (10 * acc + d)%N s'
      | None => None
      end
  end.

(** A key is an array index when it is the canonical decimal form of an
    integer below 2^32 - 1. *)
Definition array_index (k : string) : option N :=
  match k with
  | EmptyString => None
  | String c rest =>
      if decide (c = "0"%char) then
        if decide (rest = "") then Some 0%N else None
      else
        match decimal 0 k with
        | Some n => if (n <? 4294967295)%N then Some n else None
        | None => None
        end
  end.

Fixpoint insert_index (n : N) (k : string) (l : list (N * string))
  : list (N * string) :=
  match l with
  | [] => [(n, k)]
  | (m, k') :: l' =>
      if (n <? m)%N then (n, k) :: l else (m, k') :: insert_index n k l'
  end.

Fixpoint index_keys (o : t) : list (N * string) :=
  match o with
  | [] => []
  | (k, _) :: o' =>
      match array_index k with
      | Some n => insert_index n k (index_keys o')
      | None => index_keys o'
      end
  end.

Fixpoint named_keys (o : t) : list string :=
  match o with
  | [] => []
  | (k, _) :: o' =>
      match array_index k with
      | Some _ => named_keys o'
      | None => k :: named_keys o'
      end
  end.

(** [Object.keys(o)]: the array indices in ascending numeric order, then the
    other keys in creation order. *)
Definition keys (o : t) : list string :=
  (index_keys o).*2 ++ named_keys o.

End JsObject.

(** ** The project model ([models/project.model.ts]) *)

Module Framework.
Record t : Type := { value : string; label : string; description : string }.
End Framework.

Module Feature.
Inductive Category : Type :=
  security | data | api | ui | devops | infrastructure.
Record t : Type := { id : string; label : string; category : Category }.
End Feature.

Module Agent.
Record t : Type :=
  { id : string; name : string; role : string; gradient : string }.
End Agent.

Module GeneratedProject.
Record t : Type :=
  { id : string;
    name : string;
    prompt : string;
    framework : Framework.t;
    files : JsObject.t;
    dependencies : list string;
    explanation : string;
    build_commands : list string }.
End GeneratedProject.

(** ** Completions *)

(** The result of running code that may throw; a thrown value is an [Error]
    and is represented by its [message]. *)
Inductive Completion (A : Type) : Type :=
  | Return (a : A)
  | Throw (message : string).
Arguments Return {A} a.
Arguments Throw {A} message.

(** [Array.prototype.findIndex]: the first position that satisfies the
    predicate, or -1. *)
Definition findIndex {A} (P : A → Prop) `{!∀ x, Decision (P x)}
    (l : list A) : Z :=
  match list_find P l with
  | Some (i, _) => Z.of_nat i
  | None => (-1)%Z
  end.

(** ** The generation client ([services/gemini.service.ts]) *)

Module GeminiService.

(** An element of the [files] array of the answer; a field is [None] when
    the answer leaves it out (or gives [null]). *)
Record RawFile : Type :=
  { path : option string; content : option string }.

(** [rawResponse], the parsed answer.  [files] is [None] when the answer has
    no such array. *)
Record RawResponse : Type :=
  { files : option (list RawFile);
    dependencies : list string;
    explanation : string;
    build_commands : list string }.

(** What comes back from [ai.models.generateContent] and [JSON.parse]. *)
Inductive AiReply : Type :=
  | CallRejected (message : string)   (* the request promise rejects *)
  | InvalidJson (message : string)    (* no text, or [JSON.parse] throws *)
  | Json (rawResponse : RawResponse).

(** The reducer of [rawResponse.files.reduce]. *)
Definition addFile (acc : JsObject.t) (file : RawFile) : JsObject.t :=
  match path file, content file with
  | Some p, Some c =>
      if JsString.truthy p && JsString.truthy c then JsObject.set acc p c
      else acc
  | _, _ => acc
  end.

Definition filesDictionary (fs : list RawFile) : JsObject.t :=
  fold_left addFile fs JsObject.empty.

(** An element of the answer that [addFile] stores as [k ↦ v]: path and
    content are present and non-empty, and the path is not the one key that
    assignment cannot define. *)
Definition stores (k v : string) (file : RawFile) : Prop :=
  path file = Some k ∧ content file = Some v ∧ k ≠ "" ∧ v ≠ "" ∧ k ≠ "__proto__".

(** An element of the answer that [addFile] stores under the key [k]. *)
Definition writes (k : string) (file : RawFile) : Prop := ∃ v, stores k v file.

Definition projectName (originalPrompt : string) : string :=
  if bool_decide (50 < String.length originalPrompt)%nat
  then substring 0 47 originalPrompt +:+ "..."
  else originalPrompt.

(** [callGenerativeModel].  [fresh_id] is the value of
    [new Date().toISOString() + Math.random()].  The text of [fullPrompt]
    goes to the model and does not otherwise take part. *)
Definition callGenerativeModel (reply : AiReply) (fresh_id : string)
    (originalPrompt : string) (framework : Framework.t)
  : Completion GeneratedProject.t :=
  match reply with
  | CallRejected m => Throw m
  | InvalidJson m => Throw m
  | Json rawResponse =>
      match files rawResponse with
      | None => Throw "Cannot read properties of undefined (reading 'reduce')"
      | Some fs =>
          let generatedProject :=
            {| GeneratedProject.id := fresh_id;
               GeneratedProject.name := projectName originalPrompt;
               GeneratedProject.prompt := originalPrompt;
               GeneratedProject.framework := framework;
               GeneratedProject.files := filesDictionary fs;
               GeneratedProject.dependencies := dependencies rawResponse;
               GeneratedProject.explanation := explanation rawResponse;
               GeneratedProject.build_commands := build_commands rawResponse |} in
          if bool_decide
               (length (JsObject.keys (GeneratedProject.files generatedProject)) = 0)
          then Throw "AI response is missing valid file structure."
          else Return generatedProject
      end
  end.

Definition generateProject (prompt : string) (framework : Framework.t)
    (features : list Feature.t) (reply : AiReply) (fresh_id : string)
  : Completion GeneratedProject.t :=
  match callGenerativeModel reply fresh_id prompt framework with
  | Return project => Return project
  | Throw _ =>
      Throw "Failed to generate project. The AI model may be overloaded or the request was invalid. Please check your prompt and try again."
  end.

Definition modifyProject (prompt : string)
    (existingProject : GeneratedProject.t) (reply : AiReply)
    (fresh_id : string)
  : Completion GeneratedProject.t :=
  match
    callGenerativeModel reply fresh_id
      (GeneratedProject.prompt existingProject)
      (GeneratedProject.framework existingProject)
  with
  | Return modifiedCore =>
      Return
        {| GeneratedProject.id := GeneratedProject.id existingProject;
           GeneratedProject.name := GeneratedProject.name existingProject;
           GeneratedProject.prompt := GeneratedProject.prompt existingProject;
           GeneratedProject.framework := GeneratedProject.framework existingProject;
           GeneratedProject.files := GeneratedProject.files modifiedCore;
           GeneratedProject.dependencies := GeneratedProject.dependencies modifiedCore;
           GeneratedProject.explanation := GeneratedProject.explanation modifiedCore;
           GeneratedProject.build_commands := GeneratedProject.build_commands modifiedCore |}
  | Throw _ =>
      Throw "Failed to modify project. The AI model may be overloaded or the request was invalid."
  end.

End GeminiService.

(** ** The browser storage *)

Module LocalStorage.

(** What [JSON.parse] makes of a stored text: the array of project snapshots
    that [JSON.stringify] wrote, or any other JSON value. *)
Inductive JsonValue : Type :=
  | JsonArray (projects : list GeneratedProject.t)
  | JsonOther.

(** A text stored under the projects key. *)
Inductive Item : Type :=
  | EmptyText
  | MalformedText
  | JsonText (v : JsonValue).

(** The two keys the application uses: [theme] and
    [dotnet-builder-projects].  [None] is a key that is not set. *)
Record t : Type :=
  { theme : option string;
    projects : option Item }.

Definition setTheme (v : string) (ls : t) : t :=
  {| theme := Some v; projects := projects ls |}.

Definition setProjects (v : Item) (ls : t) : t :=
  {| theme := theme ls; projects := Some v |}.

End LocalStorage.

(** ** The project history store ([services/project-history.service.ts]) *)

Module ProjectHistoryService.

Import LocalStorage.

Definition getProjects (ls : LocalStorage.t) : JsonValue :=
  match projects ls with
  | Some (JsonText v) => v
  | Some MalformedText => JsonArray []   (* [JSON.parse] throws, caught *)
  | Some EmptyText => JsonArray []       (* a falsy text is not parsed *)
  | None => JsonArray []
  end.

Definition getProject (id : string) (ls : LocalStorage.t)
  : Completion (option GeneratedProject.t) :=
  match getProjects ls with
  | JsonArray projects =>
      Return (List.find (λ p, bool_decide (GeneratedProject.id p = id)) projects)
  | JsonOther => Throw "projects.find is not a function"
  end.

(** The body of the [try] block of [saveProject], on the array it read. *)
Definition upsert (project : GeneratedProject.t)
    (projects : list GeneratedProject.t) : list GeneratedProject.t :=
  let existingIndex :=
    findIndex (λ p, GeneratedProject.id p = GeneratedProject.id project) projects in
  if bool_decide (existingIndex > -1)%Z
  then <[Z.to_nat existingIndex := project]> projects
  else project :: projects.

Definition saveProject (project : GeneratedProject.t) (ls : LocalStorage.t)
  : LocalStorage.t :=
  match getProjects ls with
  | JsonArray projects =>
      setProjects (JsonText (JsonArray (upsert project projects))) ls
  | JsonOther => ls   (* [projects.findIndex] throws, caught *)
  end.

Definition deleteProject (id : string) (ls : LocalStorage.t) : LocalStorage.t :=
  match getProjects ls with
  | JsonArray projects =>
      let projects :=
        List.filter (λ p, bool_decide (GeneratedProject.id p ≠ id)) projects in
      setProjects (JsonText (JsonArray projects)) ls
  | JsonOther => ls   (* [projects.filter] throws, caught *)
  end.

End ProjectHistoryService.

(** ** The workspace controller ([app.component.ts]) *)

Module WorkspaceTab.
Inductive t : Type := assistant | preview | info.
End WorkspaceTab.

Module ChatMessage.
Inductive Role : Type := user | assistant.
Record t : Type := { role : Role; content : string }.
End ChatMessage.

Inductive AppState : Type :=
  landing | configuring | generating | completed | my_projects | error.

Module AppComponent.

(** The signals of the component. *)
Record t : Type :=
  { appState : AppState;
    isDarkMode : bool;
    errorMessage : string;
    prompt : string;
    selectedFramework : option Framework.t;
    selectedFeatures : list string;
    projectHistory : LocalStorage.JsonValue;
    activeProject : option GeneratedProject.t;
    activeAgents : list string;
    agentLogs : list (Agent.t * string);
    selectedFile : option string;
    activeWorkspaceTab : WorkspaceTab.t;
    assistantPrompt : string;
    chatHistory : list ChatMessage.t;
    isModifying : bool;
    selectedPreviewFile : option string }.

Definition set_appState (v : AppState) (st : t) : t :=
  {| appState := v; isDarkMode := isDarkMode st;
     errorMessage := errorMessage st; prompt := prompt st;
     selectedFramework := selectedFramework st;
     selectedFeatures := selectedFeatures st;
     projectHistory := projectHistory st; activeProject := activeProject st;
     activeAgents := activeAgents st; agentLogs := agentLogs st;
     selectedFile := selectedFile st;
     activeWorkspaceTab := activeWorkspaceTab st;
     assistantPrompt := assistantPrompt st; chatHistory := chatHistory st;
     isModifying := isModifying st;
     selectedPreviewFile := selectedPreviewFile st |}.

Definition set_isDarkMode (v : bool) (st : t) : t :=
  {| appState := appState st; isDarkMode := v;
     errorMessage := errorMessage st; prompt := prompt st;
     selectedFramework := selectedFramework st;
     selectedFeatures := selectedFeatures st;
     projectHistory := projectHistory st; activeProject := activeProject st;
     activeAgents := activeAgents st; agentLogs := agentLogs st;
     selectedFile := selectedFile st;
     activeWorkspaceTab := activeWorkspaceTab st;
     assistantPrompt := assistantPrompt st; chatHistory := chatHistory st;
     isModifying := isModifying st;
     selectedPreviewFile := selectedPreviewFile st |}.

Definition set_errorMessage (v : string) (st : t) : t :=
  {| appState := appState st; isDarkMode := isDarkMode st; errorMessage := v;
     prompt := prompt st; selectedFramework := selectedFramework st;
     selectedFeatures := selectedFeatures st;
     projectHistory := projectHistory st; activeProject := activeProject st;
     activeAgents := activeAgents st; agentLogs := agentLogs st;
     selectedFile := selectedFile st;
     activeWorkspaceTab := activeWorkspaceTab st;
     assistantPrompt := assistantPrompt st; chatHistory := chatHistory st;
     isModifying := isModifying st;
     selectedPreviewFile := selectedPreviewFile st |}.

Definition set_prompt (v : string) (st : t) : t :=
  {| appState := appState st; isDarkMode := isDarkMode st;
     errorMessage := errorMessage st; prompt := v;
     selectedFramework := selectedFramework st;
     selectedFeatures := selectedFeatures st;
     projectHistory := projectHistory st; activeProject := activeProject st;
     activeAgents := activeAgents st; agentLogs := agentLogs st;
     selectedFile := selectedFile st;
     activeWorkspaceTab := activeWorkspaceTab st;
     assistantPrompt := assistantPrompt st; chatHistory := chatHistory st;
     isModifying := isModifying st;
     selectedPreviewFile := selectedPreviewFile st |}.

Definition set_selectedFramework (v : option Framework.t) (st : t) : t :=
  {| appState := appState st; isDarkMode := isDarkMode st;
     errorMessage := errorMessage st; prompt := prompt st;
     selectedFramework := v; selectedFeatures := selectedFeatures st;
     projectHistory := projectHistory st; activeProject := activeProject st;
     activeAgents := activeAgents st; agentLogs := agentLogs st;
     selectedFile := selectedFile st;
     activeWorkspaceTab := activeWorkspaceTab st;
     assistantPrompt := assistantPrompt st; chatHistory := chatHistory st;
     isModifying := isModifying st;
     selectedPreviewFile := selectedPreviewFile st |}.

Definition set_selectedFeatures (v : list string) (st : t) : t :=
  {| appState := appState st; isDarkMode := isDarkMode st;
     errorMessage := errorMessage st; prompt := prompt st;
     selectedFramework := selectedFramework st; selectedFeatures := v;
     projectHistory := projectHistory st; activeProject := activeProject st;
     activeAgents := activeAgents st; agentLogs := agentLogs st;
     selectedFile := selectedFile st;
     activeWorkspaceTab := activeWorkspaceTab st;
     assistantPrompt := assistantPrompt st; chatHistory := chatHistory st;
     isModifying := isModifying st;
     selectedPreviewFile := selectedPreviewFile st |}.

Definition set_projectHistory (v : LocalStorage.JsonValue) (st : t) : t :=
  {| appState := appState st; isDarkMode := isDarkMode st;
     errorMessage := errorMessage st; prompt := prompt st;
     selectedFramework := selectedFramework st;
     selectedFeatures := selectedFeatures st; projectHistory := v;
     activeProject := activeProject st; activeAgents := activeAgents st;
     agentLogs := agentLogs st; selectedFile := selectedFile st;
     activeWorkspaceTab := activeWorkspaceTab st;
     assistantPrompt := assistantPrompt st; chatHistory := chatHistory st;
     isModifying := isModifying st;
     selectedPreviewFile := selectedPreviewFile st |}.

Definition set_activeProject (v : option GeneratedProject.t) (st : t) : t :=
  {| appState := appState st; isDarkMode := isDarkMode st;
     errorMessage := errorMessage st; prompt := prompt st;
     selectedFramework := selectedFramework st;
     selectedFeatures := selectedFeatures st;
     projectHistory := projectHistory st; activeProject := v;
     activeAgents := activeAgents st; agentLogs := agentLogs st;
     selectedFile := selectedFile st;
     activeWorkspaceTab := activeWorkspaceTab st;
     assistantPrompt := assistantPrompt st; chatHistory := chatHistory st;
     isModifying := isModifying st;
     selectedPreviewFile := selectedPreviewFile st |}.

Definition set_activeAgents (v : list string) (st : t) : t :=
  {| appState := appState st; isDarkMode := isDarkMode st;
     errorMessage := errorMessage st; prompt := prompt st;
     selectedFramework := selectedFramework st;
     selectedFeatures := selectedFeatures st;
     projectHistory := projectHistory st; activeProject := activeProject st;
     activeAgents := v; agentLogs := agentLogs st;
     selectedFile := selectedFile st;
     activeWorkspaceTab := activeWorkspaceTab st;
     assistantPrompt := assistantPrompt st; chatHistory := chatHistory st;
     isModifying := isModifying st;
     selectedPreviewFile := selectedPreviewFile st |}.

Definition set_agentLogs (v : list (Agent.t * string)) (st : t) : t :=
  {| appState := appState st; isDarkMode := isDarkMode st;
     errorMessage := errorMessage st; prompt := prompt st;
     selectedFramework := selectedFramework st;
     selectedFeatures := selectedFeatures st;
     projectHistory := projectHistory st; activeProject := activeProject st;
     activeAgents := activeAgents st; agentLogs := v;
     selectedFile := selectedFile st;
     activeWorkspaceTab := activeWorkspaceTab st;
     assistantPrompt := assistantPrompt st; chatHistory := chatHistory st;
     isModifying := isModifying st;
     selectedPreviewFile := selectedPreviewFile st |}.

Definition set_selectedFile (v : option string) (st : t) : t :=
  {| appState := appState st; isDarkMode := isDarkMode st;
     errorMessage := errorMessage st; prompt := prompt st;
     selectedFramework := selectedFramework st;
     selectedFeatures := selectedFeatures st;
     projectHistory := projectHistory st; activeProject := activeProject st;
     activeAgents := activeAgents st; agentLogs := agentLogs st;
     selectedFile := v; activeWorkspaceTab := activeWorkspaceTab st;
     assistantPrompt := assistantPrompt st; chatHistory := chatHistory st;
     isModifying := isModifying st;
     selectedPreviewFile := selectedPreviewFile st |}.

Definition set_activeWorkspaceTab (v : WorkspaceTab.t) (st : t) : t :=
  {| appState := appState st; isDarkMode := isDarkMode st;
     errorMessage := errorMessage st; prompt := prompt st;
     selectedFramework := selectedFramework st;
     selectedFeatures := selectedFeatures st;
     projectHistory := projectHistory st; activeProject := activeProject st;
     activeAgents := activeAgents st; agentLogs := agentLogs st;
     selectedFile := selectedFile st; activeWorkspaceTab := v;
     assistantPrompt := assistantPrompt st; chatHistory := chatHistory st;
     isModifying := isModifying st;
     selectedPreviewFile := selectedPreviewFile st |}.

Definition set_assistantPrompt (v : string) (st : t) : t :=
  {| appState := appState st; isDarkMode := isDarkMode st;
     errorMessage := errorMessage st; prompt := prompt st;
     selectedFramework := selectedFramework st;
     selectedFeatures := selectedFeatures st;
     projectHistory := projectHistory st; activeProject := activeProject st;
     activeAgents := activeAgents st; agentLogs := agentLogs st;
     selectedFile := selectedFile st;
     activeWorkspaceTab := activeWorkspaceTab st; assistantPrompt := v;
     chatHistory := chatHistory st; isModifying := isModifying st;
     selectedPreviewFile := selectedPreviewFile st |}.

Definition set_chatHistory (v : list ChatMessage.t) (st : t) : t :=
  {| appState := appState st; isDarkMode := isDarkMode st;
     errorMessage := errorMessage st; prompt := prompt st;
     selectedFramework := selectedFramework st;
     selectedFeatures := selectedFeatures st;
     projectHistory := projectHistory st; activeProject := activeProject st;
     activeAgents := activeAgents st; agentLogs := agentLogs st;
     selectedFile := selectedFile st;
     activeWorkspaceTab := activeWorkspaceTab st;
     assistantPrompt := assistantPrompt st; chatHistory := v;
     isModifying := isModifying st;
     selectedPreviewFile := selectedPreviewFile st |}.

Definition set_isModifying (v : bool) (st : t) : t :=
  {| appState := appState st; isDarkMode := isDarkMode st;
     errorMessage := errorMessage st; prompt := prompt st;
     selectedFramework := selectedFramework st;
     selectedFeatures := selectedFeatures st;
     projectHistory := projectHistory st; activeProject := activeProject st;
     activeAgents := activeAgents st; agentLogs := agentLogs st;
     selectedFile := selectedFile st;
     activeWorkspaceTab := activeWorkspaceTab st;
     assistantPrompt := assistantPrompt st; chatHistory := chatHistory st;
     isModifying := v; selectedPreviewFile := selectedPreviewFile st |}.

Definition set_selectedPreviewFile (v : option string) (st : t) : t :=
  {| appState := appState st; isDarkMode := isDarkMode st;
     errorMessage := errorMessage st; prompt := prompt st;
     selectedFramework := selectedFramework st;
     selectedFeatures := selectedFeatures st;
     projectHistory := projectHistory st; activeProject := activeProject st;
     activeAgents := activeAgents st; agentLogs := agentLogs st;
     selectedFile := selectedFile st;
     activeWorkspaceTab := activeWorkspaceTab st;
     assistantPrompt := assistantPrompt st; chatHistory := chatHistory st;
     isModifying := isModifying st; selectedPreviewFile := v |}.
(** *** Catalogs *)

Definition AVAILABLE_FRAMEWORKS : list Framework.t :=
  [ {| Framework.value := "ASP.NET Core MVC"; Framework.label := "ASP.NET Core MVC";
       Framework.description := "Traditional MVC web application" |};
    {| Framework.value := "ASP.NET Core Web API"; Framework.label := "ASP.NET Core Web API";
       Framework.description := "RESTful API backend" |};
    {| Framework.value := "Razor Pages"; Framework.label := "Razor Pages";
       Framework.description := "Page-focused framework" |};
    {| Framework.value := "Blazor Server"; Framework.label := "Blazor Server";
       Framework.description := "Server-side Blazor app" |};
    {| Framework.value := "Blazor WebAssembly"; Framework.label := "Blazor WebAssembly";
       Framework.description := "Client-side Blazor app" |} ].

Definition feature (id label : string) (category : Feature.Category) : Feature.t :=
  {| Feature.id := id; Feature.label := label; Feature.category := category |}.

Definition AVAILABLE_FEATURES : list (string * list Feature.t) :=
  [ ("Security", [ feature "identity" "ASP.NET Core Identity" Feature.security;
                   feature "jwt" "JWT Token Authentication" Feature.security ]);
    ("Data", [ feature "ef_core" "Entity Framework Core" Feature.data;
               feature "dapper" "Dapper ORM" Feature.data ]);
    ("API", [ feature "swagger" "Swagger/OpenAPI" Feature.api;
              feature "signalr" "SignalR Real-time" Feature.api ]);
    ("UI", [ feature "bootstrap" "Bootstrap 5" Feature.ui;
             feature "tailwind" "Tailwind CSS" Feature.ui;
             feature "clear_frontend" "Clear Frontend Design" Feature.ui ]);
    ("DevOps", [ feature "docker" "Docker Configuration" Feature.devops ]);
    ("Infrastructure", [ feature "logging" "Serilog Logging" Feature.infrastructure;
                         feature "tests" "Unit & Integration Tests" Feature.infrastructure ]) ].

Definition agent (id name role gradient : string) : Agent.t :=
  {| Agent.id := id; Agent.name := name; Agent.role := role;
     Agent.gradient := gradient |}.

Definition AI_AGENTS : list Agent.t :=
  [ agent "team_leader" "Team Leader" "Project Manager" "from-yellow-500 to-orange-500";
    agent "coder" "AI Coder" "Backend Developer" "from-blue-500 to-cyan-500";
    agent "frontend" "UI Architect" "UI/UX Developer" "from-pink-500 to-rose-500";
    agent "database" "Database Admin" "Data Architect" "from-green-500 to-emerald-500" ].

(** [array.includes(x)] on an array of strings *)
Definition includes (l : list string) (x : string) : bool := bool_decide (x ∈ l).

(** [value || null] for a string that may be [undefined] *)
Definition or_null (v : option string) : option string :=
  match v with
  | Some s => if JsString.truthy s then Some s else None
  | None => None
  end.

(** *** Computed values *)

Definition isPreviewable (path : string) : bool :=
  JsString.endsWith path ".html" || JsString.endsWith path ".cshtml".

Definition previewableFiles (st : t) : list string :=
  match activeProject st with
  | None => []
  | Some project =>
      List.filter isPreviewable (JsObject.keys (GeneratedProject.files project))
  end.

Definition isGenerationDisabled (st : t) : bool :=
  bool_decide (String.length (JsString.trim (prompt st)) < 10)%nat
  || bool_decide (selectedFramework st = None).

(** *** App flow and state management *)

Definition loadTheme (ls : LocalStorage.t) (st : t) : t :=
  set_isDarkMode (bool_decide (LocalStorage.theme ls = Some "dark")) st.

Definition loadProjects (ls : LocalStorage.t) (st : t) : t :=
  set_projectHistory (ProjectHistoryService.getProjects ls) st.

Definition resetConfiguration (st : t) : t :=
  let st := set_prompt "" st in
  let st := set_selectedFramework None st in
  let st := set_selectedFeatures [] st in
  let st := set_activeProject None st in
  let st := set_agentLogs [] st in
  let st := set_activeAgents [] st in
  set_chatHistory [] st.

Definition setAppState (state : AppState) (st : t) : t :=
  let st := set_appState state st in
  match state with
  | configuring => resetConfiguration st
  | _ => st
  end.

Definition startNewProjectFlow (st : t) : t :=
  let st := resetConfiguration st in
  set_appState configuring st.

Definition selectFile (filePath : option string) (st : t) : t :=
  set_selectedFile filePath st.

Definition initializeWorkspace (isNew : bool) (st : t) : t :=
  let greeting :=
    if isNew then
      "Your project is ready! I'm your code assistant. Ask me to make changes or add features."
    else
      "Loaded project " +:+ JsString.dquote
        +:+ match activeProject st with
            | Some project => GeneratedProject.name project
            | None => "undefined"
            end
        +:+ JsString.dquote +:+ ". How can I help you modify it?" in
  let st :=
    set_chatHistory
      [ {| ChatMessage.role := ChatMessage.assistant;
           ChatMessage.content := greeting |} ] st in
  let files :=
    match activeProject st with
    | Some project => GeneratedProject.files project
    | None => JsObject.empty
    end in
  let firstFile := or_null (head (JsObject.keys files)) in
  let st := selectFile firstFile st in
  let firstPreview := or_null (head (previewableFiles st)) in
  let st := set_selectedPreviewFile firstPreview st in
  set_activeWorkspaceTab WorkspaceTab.assistant st.

(** [loadProject]: when [getProject] throws, the handler stops before it has
    written any signal. *)
Definition loadProject (projectId : string) (ls : LocalStorage.t) (st : t) : t :=
  match ProjectHistoryService.getProject projectId ls with
  | Return (Some project) =>
      let st := set_activeProject (Some project) st in
      let st := set_appState completed st in
      initializeWorkspace false st
  | Return None => st
  | Throw _ => st
  end.

Definition deleteProject (projectId : string) (ls : LocalStorage.t) (st : t)
  : t * LocalStorage.t :=
  let ls := ProjectHistoryService.deleteProject projectId ls in
  let st := loadProjects ls st in
  let isActive :=
    match activeProject st with
    | Some project => bool_decide (GeneratedProject.id project = projectId)
    | None => false
    end in
  if isActive then
    let st := set_activeProject None st in
    (setAppState landing st, ls)
  else (st, ls).

(** *** UI interaction *)

(** The effect registered by the constructor stores the theme whenever
    [isDarkMode] changes. *)
Definition themeEffect (st : t) (ls : LocalStorage.t) : LocalStorage.t :=
  LocalStorage.setTheme (if isDarkMode st then "dark" else "light") ls.

Definition toggleDarkMode (ls : LocalStorage.t) (st : t) : t * LocalStorage.t :=
  let st := set_isDarkMode (negb (isDarkMode st)) st in
  (st, themeEffect st ls).

Definition selectFramework (framework : Framework.t) (st : t) : t :=
  set_selectedFramework (Some framework) st.

Definition toggleFeature (featureId : string) (st : t) : t :=
  let current := selectedFeatures st in
  set_selectedFeatures
    (if includes current featureId
     then List.filter (λ id, bool_decide (id ≠ featureId)) current
     else current ++ [featureId]) st.

Definition isFeatureSelected (featureId : string) (st : t) : bool :=
  includes (selectedFeatures st) featureId.

(** *** Agent simulation *)

Definition getAgentById (id : string) : option Agent.t :=
  List.find (λ a, bool_decide (Agent.id a = id)) AI_AGENTS.

Definition addAgentLog (agent : Agent.t) (message : string) (st : t) : t :=
  set_agentLogs (agentLogs st ++ [(agent, message)]) st.

(** [runAgentSimulation], cut at its [await delay(..)] points: stage 0 runs
    when the method is called, stage [n + 1] when the timer of stage [n]
    fires.  The four lookups succeed, [AI_AGENTS] holds the four ids. *)
Definition runAgentSimulation (stage : nat) (st : t) : t :=
  match getAgentById "team_leader", getAgentById "coder",
        getAgentById "frontend", getAgentById "database" with
  | Some teamLeader, Some coder, Some frontend, Some dbAdmin =>
      match stage with
      | 0 =>
          let st := set_activeAgents [Agent.id teamLeader] st in
          addAgentLog teamLeader "Analyzing project requirements..." st
      | 1 =>
          let st := addAgentLog teamLeader "Assembling AI development team..." st in
          set_activeAgents
            [Agent.id teamLeader; Agent.id coder; Agent.id frontend; Agent.id dbAdmin] st
      | 2 => addAgentLog coder "Scaffolding backend structure..." st
      | 3 => addAgentLog dbAdmin "Designing database schema..." st
      | 4 => addAgentLog frontend "Planning UI components..." st
      | 5 =>
          addAgentLog teamLeader
            "Team is now generating the full codebase. This may take a moment..." st
      | _ => st
      end
  | _, _, _, _ => st
  end.

(** The number of timers one simulation waits for. *)
Definition simulationStages : nat := 5.

(** *** Project generation *)

(** A call of [geminiService.generateProject] that has not settled. *)
Module GenerateCall.
Record t : Type :=
  { prompt : string; framework : Framework.t; features : list Feature.t }.
End GenerateCall.

(** [error.message || 'An unknown error occurred.'] *)
Definition messageOf (message : string) : string :=
  if JsString.truthy message then message else "An unknown error occurred.".

(** [handleGenerateProject] up to its [await]: the new signals, and the call
    it makes, if any. *)
Definition handleGenerateProject (st : t) : t * option GenerateCall.t :=
  if isGenerationDisabled st then (st, None)
  else
    let st := set_appState generating st in
    let st := set_agentLogs [] st in
    let st := runAgentSimulation 0 st in
    match selectedFramework st with
    | None =>
        (* [throw new Error("Framework not selected")], caught below *)
        let st := set_errorMessage (messageOf "Framework not selected") st in
        let st := set_appState error st in
        (set_activeAgents [] st, None)
    | Some framework =>
        let allFeatures := concat (AVAILABLE_FEATURES.*2) in
        let features :=
          List.filter (λ f, includes (selectedFeatures st) (Feature.id f)) allFeatures in
        (st, Some {| GenerateCall.prompt := prompt st;
                     GenerateCall.framework := framework;
                     GenerateCall.features := features |})
    end.

(** [handleGenerateProject] from the point where the awaited call settles. *)
Definition handleGenerateProject_settled
    (result : Completion GeneratedProject.t)
    (ls : LocalStorage.t) (st : t) : t * LocalStorage.t :=
  match result with
  | Return project =>
      let st := set_activeProject (Some project) st in
      let ls := ProjectHistoryService.saveProject project ls in
      let st := loadProjects ls st in
      let st := set_appState completed st in
      let st :=
        match getAgentById "team_leader" with
        | Some teamLeader =>
            addAgentLog teamLeader
              "Project generation complete! Review the files below." st
        | None => st
        end in
      let st := initializeWorkspace true st in
      (set_activeAgents [] st, ls)
  | Throw message =>
      let st := set_errorMessage (messageOf message) st in
      let st := set_appState error st in
      (set_activeAgents [] st, ls)
  end.

(** *** Workspace and code assistant *)

(** A call of [geminiService.modifyProject] that has not settled. *)
Module ModifyCall.
Record t : Type :=
  { userPrompt : string; currentProject : GeneratedProject.t }.
End ModifyCall.

Definition say (role : ChatMessage.Role) (content : string) (st : t) : t :=
  set_chatHistory
    (chatHistory st ++ [ {| ChatMessage.role := role; ChatMessage.content := content |} ])
    st.

(** [handleModificationRequest] up to its [await]. *)
Definition handleModificationRequest (st : t) : t * option ModifyCall.t :=
  let userPrompt := JsString.trim (assistantPrompt st) in
  if negb (JsString.truthy userPrompt)
     || bool_decide (activeProject st = None)
     || isModifying st
  then (st, None)
  else
    let st := set_isModifying true st in
    let st := say ChatMessage.user userPrompt st in
    let st := set_assistantPrompt "" st in
    match activeProject st with
    | Some currentProject =>
        (st, Some {| ModifyCall.userPrompt := userPrompt;
                     ModifyCall.currentProject := currentProject |})
    | None => (st, None)   (* not reached: the guard has checked it *)
    end.

(** [handleModificationRequest] from the point where the awaited call
    settles. *)
Definition handleModificationRequest_settled
    (result : Completion GeneratedProject.t)
    (ls : LocalStorage.t) (st : t) : t * LocalStorage.t :=
  let '(st, ls) :=
    match result with
    | Return updatedProject =>
        let st := set_activeProject (Some updatedProject) st in
        let ls := ProjectHistoryService.saveProject updatedProject ls in
        let st := loadProjects ls st in
        let assistantMessage :=
          if JsString.truthy (GeneratedProject.explanation updatedProject)
          then "I've updated the project: "
                 +:+ GeneratedProject.explanation updatedProject
          else "I've updated the project based on your request. Please review the changes." in
        let st := say ChatMessage.assistant assistantMessage st in
        let st :=
          match or_null (selectedPreviewFile st) with
          | Some selected =>
              if negb (includes (previewableFiles st) selected)
              then set_selectedPreviewFile (or_null (head (previewableFiles st))) st
              else st
          | None => st
          end in
        (st, ls)
    | Throw message =>
        let errorMessage := messageOf message in
        let st := set_errorMessage errorMessage st in
        let st :=
          say ChatMessage.assistant ("I encountered an error: " +:+ errorMessage) st in
        (st, ls)
    end in
  (set_isModifying false st, ls).

(** *** Construction *)

Definition initial : t :=
  {| appState := landing; isDarkMode := false; errorMessage := ""; prompt := "";
     selectedFramework := None; selectedFeatures := [];
     projectHistory := LocalStorage.JsonArray []; activeProject := None;
     activeAgents := []; agentLogs := []; selectedFile := None;
     activeWorkspaceTab := WorkspaceTab.assistant; assistantPrompt := "";
     chatHistory := []; isModifying := false; selectedPreviewFile := None |}.

(** The constructor loads the theme and the history; the theme effect then
    runs for the first time. *)
Definition constructor (ls : LocalStorage.t) : t * LocalStorage.t :=
  let st := loadTheme ls initial in
  let st := loadProjects ls st in
  (st, themeEffect st ls).

End AppComponent.

(** ** The running application *)

(** The component, the storage it shares with the history store, the calls
    to the generation client that have not settled, and the agent
    simulations that still wait for a timer (each with the stage it runs
    next). *)
Module System.

Record t : Type :=
  { app : AppComponent.t;
    localStorage : LocalStorage.t;
    generating : list AppComponent.GenerateCall.t;
    modifying : list AppComponent.ModifyCall.t;
    simulations : list nat }.

(** What can happen next: a method of the component is invoked, a bound
    input or a signal without a method is written by the view, a call of the
    generation client settles, or a timer of an agent simulation fires. *)
Inductive Event : Type :=
  | InputPrompt (text : string)
  | InputAssistantPrompt (text : string)
  | SelectWorkspaceTab (tab : WorkspaceTab.t)
  | SelectPreviewFile (path : option string)
  | SetAppState (state : AppState)
  | StartNewProjectFlow
  | LoadProjects
  | LoadProject (projectId : string)
  | DeleteProject (projectId : string)
  | ToggleDarkMode
  | SelectFramework (framework : Framework.t)
  | ToggleFeature (featureId : string)
  | SelectFile (filePath : string)
  | HandleGenerateProject
  | GenerateSettled (i : nat) (reply : GeminiService.AiReply) (fresh_id : string)
  | HandleModificationRequest
  | ModifySettled (i : nat) (reply : GeminiService.AiReply) (fresh_id : string)
  | TimerFired (i : nat).

Definition with_app (a : AppComponent.t) (s : t) : t :=
  {| app := a; localStorage := localStorage s; generating := generating s;
     modifying := modifying s; simulations := simulations s |}.

Definition boot (ls : LocalStorage.t) : t :=
  let '(a, ls) := AppComponent.constructor ls in
  {| app := a; localStorage := ls; generating := []; modifying := [];
     simulations := [] |}.

Definition step (e : Event) (s : t) : t :=
  match e with
  | InputPrompt text => with_app (AppComponent.set_prompt text (app s)) s
  | InputAssistantPrompt text =>
      with_app (AppComponent.set_assistantPrompt text (app s)) s
  | SelectWorkspaceTab tab =>
      with_app (AppComponent.set_activeWorkspaceTab tab (app s)) s
  | SelectPreviewFile path =>
      with_app (AppComponent.set_selectedPreviewFile path (app s)) s
  | SetAppState state => with_app (AppComponent.setAppState state (app s)) s
  | StartNewProjectFlow => with_app (AppComponent.startNewProjectFlow (app s)) s
  | LoadProjects => with_app (AppComponent.loadProjects (localStorage s) (app s)) s
  | LoadProject projectId =>
      with_app (AppComponent.loadProject projectId (localStorage s) (app s)) s
  | DeleteProject projectId =>
      let '(a, ls) := AppComponent.deleteProject projectId (localStorage s) (app s) in
      {| app := a; localStorage := ls; generating := generating s;
         modifying := modifying s; simulations := simulations s |}
  | ToggleDarkMode =>
      let '(a, ls) := AppComponent.toggleDarkMode (localStorage s) (app s) in
      {| app := a; localStorage := ls; generating := generating s;
         modifying := modifying s; simulations := simulations s |}
  | SelectFramework framework =>
      with_app (AppComponent.selectFramework framework (app s)) s
  | ToggleFeature featureId =>
      with_app (AppComponent.toggleFeature featureId (app s)) s
  | SelectFile filePath =>
      with_app (AppComponent.selectFile (Some filePath) (app s)) s
  | HandleGenerateProject =>
      if AppComponent.isGenerationDisabled (app s) then s
      else
        let '(a, call) := AppComponent.handleGenerateProject (app s) in
        {| app := a; localStorage := localStorage s;
           generating := generating s ++ option_list call;
           modifying := modifying s;
           simulations := simulations s ++ [1] |}
  | GenerateSettled i reply fresh_id =>
      match generating s !! i with
      | None => s
      | Some call =>
          let result :=
            GeminiService.generateProject
              (AppComponent.GenerateCall.prompt call)
              (AppComponent.GenerateCall.framework call)
              (AppComponent.GenerateCall.features call) reply fresh_id in
          let '(a, ls) :=
            AppComponent.handleGenerateProject_settled result (localStorage s) (app s) in
          {| app := a; localStorage := ls; generating := delete i (generating s);
             modifying := modifying s; simulations := simulations s |}
      end
  | HandleModificationRequest =>
      let '(a, call) := AppComponent.handleModificationRequest (app s) in
      {| app := a; localStorage := localStorage s; generating := generating s;
         modifying := modifying s ++ option_list call;
         simulations := simulations s |}
  | ModifySettled i reply fresh_id =>
      match modifying s !! i with
      | None => s
      | Some call =>
          let result :=
            GeminiService.modifyProject
              (AppComponent.ModifyCall.userPrompt call)
              (AppComponent.ModifyCall.currentProject call) reply fresh_id in
          let '(a, ls) :=
            AppComponent.handleModificationRequest_settled result (localStorage s) (app s) in
          {| app := a; localStorage := ls; generating := generating s;
             modifying := delete i (modifying s); simulations := simulations s |}
      end
  | TimerFired i =>
      match simulations s !! i with
      | None => s
      | Some stage =>
          {| app := AppComponent.runAgentSimulation stage (app s);
             localStorage := localStorage s; generating := generating s;
             modifying := modifying s;
             simulations :=
               if bool_decide (stage < AppComponent.simulationStages)%nat
               then <[i := S stage]> (simulations s)
               else delete i (simulations s) |}
      end
  end.

(** The states the application can be in: started on some storage, then any
    sequence of events. *)
Inductive reachable : t → Prop :=
  | reachable_boot ls : reachable (boot ls)
  | reachable_step e s : reachable s → reachable (step e s).

Definition run (es : list Event) (s : t) : t := fold_left (λ s e, step e s) es s.

End System.

(** ** The file tree ([components/file-tree.component.ts]) *)

Module FileTreeComponent.

(** [Object.keys(this.files()).sort()] (line 48): the keys in ascending order
    by code units, the list from which [fileTree] builds its nodes.  The
    building of the nodes and their flattening are not part of the model. *)
Definition filePaths (files : JsObject.t) : list string :=
  merge_sort String.le (JsObject.keys files).

End FileTreeComponent.

(** ** The earlier revision of the generation client
       ([services/gemini.service.ts], first revision) *)

Module GeminiServiceV1.

(** [GeneratedProject] as the first revision of the model declares it. *)
Record GeneratedProject : Type :=
  { files : JsObject.t;
    dependencies : list string;
    explanation : string;
    build_commands : list string }.

(** [callGenerativeModel]: the answer with its [files] array replaced by the
    dictionary. *)
Definition callGenerativeModel (reply : GeminiService.AiReply)
  : Completion GeneratedProject :=
  match reply with
  | GeminiService.CallRejected m => Throw m
  | GeminiService.InvalidJson m => Throw m
  | GeminiService.Json rawResponse =>
      match GeminiService.files rawResponse with
      | None => Throw "Cannot read properties of undefined (reading 'reduce')"
      | Some fs =>
          let generatedProject :=
            {| files := GeminiService.filesDictionary fs;
               dependencies := GeminiService.dependencies rawResponse;
               explanation := GeminiService.explanation rawResponse;
               build_commands := GeminiService.build_commands rawResponse |} in
          if bool_decide (length (JsObject.keys (files generatedProject)) = 0)
          then Throw "AI response is missing valid file structure."
          else Return generatedProject
      end
  end.

Definition generateProject (prompt : string) (framework : Framework.t)
    (features : list Feature.t) (reply : GeminiService.AiReply)
  : Completion GeneratedProject :=
  match callGenerativeModel reply with
  | Return project => Return project
  | Throw _ =>
      Throw "Failed to generate project. The AI model may be overloaded or the request was invalid. Please check your prompt and try again."
  end.

Definition modifyProject (prompt : string) (existingProject : GeneratedProject)
    (reply : GeminiService.AiReply)
  : Completion GeneratedProject :=
  match callGenerativeModel reply with
  | Return project => Return project
  | Throw _ =>
      Throw "Failed to modify project. The AI model may be overloaded or the request was invalid."
  end.

End GeminiServiceV1.

(** ** The code viewer ([components/code-viewer.component.ts]) *)

Module CodeViewerComponent.

(** [s.split('/')]: the pieces between the slashes; never empty. *)
Fixpoint split (s : string) : list string :=
  match s with
  | EmptyString => [EmptyString]
  | String c s' =>
      if decide (c = "/"%char) then EmptyString :: split s'
      else
        match split s' with
        | piece :: pieces => String c piece :: pieces
        | [] => [String c EmptyString]
        end
  end.

(** [parts.join('/')] *)
Fixpoint join (parts : list string) : string :=
  match parts with
  | [] => ""
  | [piece] => piece
  | piece :: rest => piece +:+ "/" +:+ join rest
  end.

(** [Object.keys(this.project()?.files || {}).sort()] *)
Definition filePaths (files : JsObject.t) : list string :=
  merge_sort String.le (JsObject.keys files).

(** [path.split('/').pop() || path] *)
Definition getFileName (path : string) : string :=
  match last (split path) with
  | Some piece => if JsString.truthy piece then piece else path
  | None => path
  end.

(** [parts.pop(); parts.join('/') || './'] *)
Definition getFileDirectory (path : string) : string :=
  let parts := removelast (split path) in
  if JsString.truthy (join parts) then join parts else "./".

End CodeViewerComponent.

(** ** Listing a dictionary as an answer would *)

(** The [files] array that lists the properties of a dictionary, one element
    for each, in creation order. *)
Definition listing (o : JsObject.t) : list GeminiService.RawFile :=
  (λ kv, {| GeminiService.path := Some kv.1; GeminiService.content := Some kv.2 |})
    <$> o.

(** A dictionary that assignment of non-empty strings can build. *)
Definition well_formed (o : JsObject.t) : Prop :=
  NoDup o.*1 ∧ Forall (λ kv, kv.1 ≠ "" ∧ kv.2 ≠ "" ∧ kv.1 ≠ "__proto__") o.

(** The callback [p => p.id === id] of [getProject]. *)
Definition has_id (id : string) : GeneratedProject.t → bool :=
  λ p, bool_decide (GeneratedProject.id p = id).

(** The path under which [addFile] stores an element of the answer, when it
    stores it. *)
Definition storedPath (file : GeminiService.RawFile) : option string :=
  match GeminiService.path file, GeminiService.content file with
  | Some p, Some c =>
      if JsString.truthy p && JsString.truthy c && bool_decide (p ≠ "__proto__")
      then Some p else None
  | _, _ => None
  end.

(** The elements of a list in the order of their first occurrence
    ([remove_dups] keeps the last occurrence of each). *)
Definition first_occurrences (l : list string) : list string :=
  reverse (remove_dups (reverse l)).

(** Whether a character occurs in a string. *)
Fixpoint contains (c : ascii) (s : string) : bool :=
  match s with
  | EmptyString => false
  | String c' s' => bool_decide (c' = c) || contains c s'
  end.

(** ** The computed views of the workspace ([app.component.ts]) *)

Module Views.

(** The properties a plain object inherits from [Object.prototype]; each is
    a function, or for [__proto__] the prototype itself: a truthy value that
    is not a string. *)
Definition inheritedNames : list string :=
  [ "constructor"; "__defineGetter__"; "__defineSetter__"; "hasOwnProperty";
    "__lookupGetter__"; "__lookupSetter__"; "isPrototypeOf";
    "propertyIsEnumerable"; "toString"; "valueOf"; "__proto__";
    "toLocaleString" ].

(** What [files[key]] can be. *)
Inductive Value : Type :=
  | Text (content : string)
  | FromPrototype (name : string).

(** [o[k]] read: an own property first, then the prototype. *)
Definition read (o : JsObject.t) (k : string) : option Value :=
  match JsObject.get o k with
  | Some v => Some (Text v)
  | None => if bool_decide (k ∈ inheritedNames) then Some (FromPrototype k) else None
  end.

(** [selectedFileContent] *)
Definition selectedFileContent (st : AppComponent.t) : option Value :=
  match AppComponent.activeProject st, AppComponent.selectedFile st with
  | Some project, Some file =>
      if JsString.truthy file then
        match read (GeneratedProject.files project) file with
        | Some (Text content) =>
            if JsString.truthy content then Some (Text content) else None
        | Some (FromPrototype name) => Some (FromPrototype name)
        | None => None
        end
      else None
  | _, _ => None
  end.

(** [s.replace(/pattern/g, replacement)] for a pattern without special
    characters: every occurrence, found from left to right, the search going
    on after the end of each occurrence.  [skip] counts the characters of an
    occurrence still to pass. *)
Fixpoint replaceAll (pattern replacement : string) (skip : nat) (s : string)
  : string :=
  match s with
  | EmptyString => EmptyString
  | String c s' =>
      match skip with
      | S skip' => replaceAll pattern replacement skip' s'
      | 0 =>
          if String.prefix pattern s
          then replacement +:+
               replaceAll pattern replacement (String.length pattern - 1) s'
          else String c (replaceAll pattern replacement 0 s')
      end
  end.

(** The two rewrites of root-relative references, [href] first. *)
Definition rewriteReferences (content : string) : string :=
  let content :=
    replaceAll ("href=" +:+ JsString.dquote +:+ "~/") ("href=" +:+ JsString.dquote)
      0 content in
  replaceAll ("src=" +:+ JsString.dquote +:+ "~/") ("src=" +:+ JsString.dquote)
    0 content.

Definition placeholder : string :=
  "<div class=" +:+ JsString.dquote
    +:+ "font-sans text-slate-400 flex items-center justify-center h-full"
    +:+ JsString.dquote +:+ ">Select a file to preview</div>".

(** [safePreviewContent]: the markup handed to the sanitizer.  A value from
    the prototype has no [replace] method, the call throws. *)
Definition safePreviewContent (st : AppComponent.t) : Completion string :=
  match AppComponent.activeProject st, AppComponent.selectedPreviewFile st with
  | Some project, Some selectedFile =>
      if JsString.truthy selectedFile then
        match read (GeneratedProject.files project) selectedFile with
        | Some (Text content) =>
            if JsString.truthy content
            then Return (rewriteReferences content)
            else Return placeholder
        | Some (FromPrototype name) => Throw "replace is not a function"
        | None => Return placeholder
        end
      else Return placeholder
  | _, _ => Return placeholder
  end.

End Views.

(** ** Sample data *)

Module Sample.

Definition mvc : Framework.t :=
  {| Framework.value := "ASP.NET Core MVC"; Framework.label := "ASP.NET Core MVC";
     Framework.description := "Traditional MVC web application" |}.

Definition file (path content : string) : GeminiService.RawFile :=
  {| GeminiService.path := Some path; GeminiService.content := Some content |}.

Definition answer (fs : list GeminiService.RawFile) (explanation : string)
  : GeminiService.AiReply :=
  GeminiService.Json
    {| GeminiService.files := Some fs;
       GeminiService.dependencies := ["Microsoft.EntityFrameworkCore"];
       GeminiService.explanation := explanation;
       GeminiService.build_commands := ["dotnet restore"; "dotnet run"] |}.

(** An answer that lists [Program.cs] before the view and the controller. *)
Definition blogFiles : list GeminiService.RawFile :=
  [ file "Program.cs" "var app = builder.Build();";
    file "Views/Home/Index.cshtml" "<h1>Blog</h1>";
    file "Controllers/HomeController.cs" "public class HomeController {}" ].

Definition blogAnswer : GeminiService.AiReply := answer blogFiles "A blog.".

(** An answer whose file entries are all dropped. *)
Definition hollowAnswer : GeminiService.AiReply :=
  answer [ file "" "x"; file "README.md" "" ] "Nothing.".

Definition blogPrompt : string := "Build a blog with comments".

Definition blog : GeneratedProject.t :=
  {| GeneratedProject.id := "2024-01-01T00:00:00.000Z0.5";
     GeneratedProject.name := blogPrompt;
     GeneratedProject.prompt := blogPrompt;
     GeneratedProject.framework := mvc;
     GeneratedProject.files := GeminiService.filesDictionary blogFiles;
     GeneratedProject.dependencies := [];
     GeneratedProject.explanation := "A blog.";
     GeneratedProject.build_commands := ["dotnet run"] |}.

(** The project that generation makes of [blogAnswer] for [blogPrompt]. *)
Definition generated : GeneratedProject.t :=
  {| GeneratedProject.id := "id";
     GeneratedProject.name := blogPrompt;
     GeneratedProject.prompt := blogPrompt;
     GeneratedProject.framework := mvc;
     GeneratedProject.files := GeminiService.filesDictionary blogFiles;
     GeneratedProject.dependencies := ["Microsoft.EntityFrameworkCore"];
     GeneratedProject.explanation := "A blog.";
     GeneratedProject.build_commands := ["dotnet restore"; "dotnet run"] |}.

Definition emptyStorage : LocalStorage.t :=
  {| LocalStorage.theme := None; LocalStorage.projects := None |}.

End Sample.

(** * Properties *)

(** ** Dictionaries *)

Section JsObjectFacts.

Import JsObject.

Lemma insert_index_length n k l :
  length (insert_index n k l) = S (length l).
Proof.
  induction l as [|[m k'] l IH]; simpl; [done|].
  destruct (n <? m)%N; simpl; [done|]. by rewrite IH.
Qed.

Lemma insert_index_elem_of n k l x :
  x ∈ insert_index n k l ↔ x = (n, k) ∨ x ∈ l.
Proof.
  induction l as [|[m k'] l IH]; simpl.
  - rewrite list_elem_of_singleton, elem_of_nil. tauto.
  - destruct (n <? m)%N; rewrite !elem_of_cons; [tauto|].
    rewrite IH. tauto.
Qed.

Lemma keys_length o : length (keys o) = length o.
Proof.
  unfold keys. rewrite length_app, length_fmap.
  induction o as [|[k v] o IH]; simpl; [done|].
  destruct (array_index k); simpl.
  - rewrite insert_index_length. simpl. by rewrite IH.
  - rewrite Nat.add_succ_r. by rewrite IH.
Qed.

Lemma keys_nil_iff o : keys o = [] ↔ o = [].
Proof.
  split.
  - intros H. apply length_zero_iff_nil. rewrite <-keys_length, H. done.
  - by intros ->.
Qed.

(** When no key is an array index, the keys come in creation order. *)
Lemma keys_creation_order o :
  Forall (λ kv, array_index kv.1 = None) o → keys o = o.*1.
Proof.
  intros H. unfold keys.
  assert (index_keys o = [] ∧ named_keys o = o.*1) as [-> ->]; [|done].
  induction H as [|[k v] o Hk _ [IH1 IH2]]; simpl in *; [done|].
  rewrite Hk. split; [done|]. by rewrite IH2.
Qed.

Lemma elem_of_keys o k : k ∈ keys o ↔ k ∈ o.*1.
Proof.
  unfold keys. rewrite elem_of_app.
  induction o as [|[k' v] o IH]; simpl.
  - rewrite !elem_of_nil. tauto.
  - rewrite elem_of_cons. destruct (array_index k') eqn:E.
    + rewrite <-IH. rewrite !list_elem_of_fmap.
      setoid_rewrite insert_index_elem_of. split.
      * intros [([m x] & -> & [[= -> ->]|Hx])|Hn]; simpl; eauto.
        right. left. by exists (m, x).
      * intros [->|[(x & -> & Hx)|Hn]]; eauto.
        left. exists (n, k'). eauto.
    + rewrite elem_of_cons, <-IH. tauto.
Qed.

Lemma put_elem_of o k v x : x ∈ put o k v → x = (k, v) ∨ x ∈ o.
Proof.
  induction o as [|[k' v'] o IH]; simpl.
  - rewrite list_elem_of_singleton. auto.
  - case_decide as Hk; rewrite !elem_of_cons.
    + intros [->| ?]; subst; auto.
    + intros [->| ?]; auto. destruct IH; auto.
Qed.

Lemma put_fst_elem_of o k v k' : k' ∈ (put o k v).*1 ↔ k' = k ∨ k' ∈ o.*1.
Proof.
  induction o as [|[k0 v0] o IH]; simpl.
  - rewrite list_elem_of_singleton, elem_of_nil. tauto.
  - case_decide; simpl; rewrite !elem_of_cons; [|rewrite IH]; subst; tauto.
Qed.

Lemma put_NoDup o k v : NoDup o.*1 → NoDup (put o k v).*1.
Proof.
  induction o as [|[k' v'] o IH]; simpl; intros Hnd.
  - apply NoDup_singleton.
  - apply NoDup_cons in Hnd as [Hk' Hnd].
    case_decide; simpl; apply NoDup_cons; split; auto.
    rewrite put_fst_elem_of. intros [->|?]; auto.
Qed.

Lemma put_not_nil o k v : put o k v ≠ [].
Proof. destruct o as [|[??] ?]; simpl; [done|]. by case_decide. Qed.

Lemma get_put o k v k' :
  get (put o k v) k' = if decide (k = k') then Some v else get o k'.
Proof.
  induction o as [|[k0 v0] o IH]; simpl.
  - by repeat case_decide.
  - repeat (case_decide; simpl; subst); try done.
    all: rewrite IH; by repeat case_decide.
Qed.

Lemma get_elem_of o k v : NoDup o.*1 → get o k = Some v ↔ (k, v) ∈ o.
Proof.
  induction o as [|[k' v'] o IH]; simpl; intros Hnd.
  - split; [done|]. by intros ?%elem_of_nil.
  - apply NoDup_cons in Hnd as [Hk' Hnd]. rewrite elem_of_cons.
    case_decide as Hk; subst.
    + split; [intros [= ->]; auto|]. intros [[= ->]|Hin]; [done|].
      destruct Hk'. apply list_elem_of_fmap. by exists (k, v).
    + rewrite IH by done. split; [auto|]. by intros [[= -> ->]|?].
Qed.

End JsObjectFacts.

(** ** The generation client *)

Section GeminiFacts.

Import GeminiService.

Lemma truthy_true s : JsString.truthy s = true ↔ s ≠ "".
Proof. unfold JsString.truthy. by rewrite bool_decide_eq_true. Qed.

Lemma filesDictionary_snoc fs file :
  filesDictionary (fs ++ [file]) = addFile (filesDictionary fs) file.
Proof. unfold filesDictionary. by rewrite fold_left_app. Qed.

Lemma addFile_stores acc file k v :
  stores k v file → addFile acc file = JsObject.put acc k v.
Proof.
  intros (Hp & Hc & Hk & Hv & Hproto). unfold addFile, JsObject.set.
  rewrite Hp, Hc.
  rewrite (proj2 (truthy_true k)), (proj2 (truthy_true v)) by done. simpl.
  by rewrite decide_False.
Qed.

Lemma addFile_skips acc file :
  (∀ k, ¬ writes k file) → addFile acc file = acc.
Proof.
  intros Hno. unfold addFile, JsObject.set.
  destruct (path file) as [k|] eqn:Hp; [|done].
  destruct (content file) as [v|] eqn:Hc; [|done].
  destruct (JsString.truthy k) eqn:Hk; [|done].
  destruct (JsString.truthy v) eqn:Hv; [|done]. simpl.
  case_decide as Hproto; [done|].
  destruct (Hno k). exists v. unfold stores.
  by rewrite <-!truthy_true.
Qed.

Lemma writes_dec file : (∃ k v, stores k v file) ∨ (∀ k, ¬ writes k file).
Proof.
  unfold writes, stores.
  destruct (path file) as [k|]; [|right; intros k (v & [=] & _)].
  destruct (content file) as [v|]; [|right; intros k' (v & _ & [=] & _)].
  destruct (decide (k = "")); [right; intros k' (v' & [= <-] & _ & ? & _); done|].
  destruct (decide (v = ""));
    [right; intros k' (v' & _ & [= <-] & _ & ? & _); done|].
  destruct (decide (k = "__proto__"));
    [right; intros k' (v' & [= <-] & _ & _ & _ & ?); done|].
  left. by exists k, v.
Qed.

Lemma stores_functional k v k' v' file :
  stores k v file → stores k' v' file → k = k' ∧ v = v'.
Proof. intros (? & ? & _) (? & ? & _). split; congruence. Qed.

Lemma get_addFile acc file k v :
  JsObject.get (addFile acc file) k = Some v ↔
  stores k v file ∨ (¬ writes k file ∧ JsObject.get acc k = Some v).
Proof.
  destruct (writes_dec file) as [(k' & v' & Hst)|Hno].
  - rewrite (addFile_stores _ _ _ _ Hst), get_put.
    case_decide as Hk; subst.
    + split.
      * intros [= ->]. by left.
      * intros [Hst'|[Hnw _]].
        -- by destruct (stores_functional _ _ _ _ _ Hst Hst') as [_ ->].
        -- destruct Hnw. by exists v'.
    + split.
      * intros Hget. right. split; [|done].
        intros (v0 & Hst'). by destruct (stores_functional _ _ _ _ _ Hst Hst').
      * intros [Hst'|[_ ?]]; [|done].
        by destruct (stores_functional _ _ _ _ _ Hst Hst').
  - rewrite addFile_skips by done. split; [auto|].
    intros [Hst|[_ ?]]; [|done]. destruct (Hno k). by exists v.
Qed.

(** The value under a key is the content of the last element of the answer
    that is stored under that key. *)
Lemma get_filesDictionary fs k v :
  JsObject.get (filesDictionary fs) k = Some v ↔
  ∃ pre file post,
    fs = pre ++ file :: post ∧ stores k v file ∧ Forall (λ g, ¬ writes k g) post.
Proof.
  split.
  - revert v. induction fs as [|file fs IH] using rev_ind; intros v; [done|].
    rewrite filesDictionary_snoc, get_addFile. intros [Hst|[Hnw Hget]].
    + exists fs, file, []. auto.
    + destruct (IH _ Hget) as (pre & f & post & -> & Hst & Hpost).
      exists pre, f, (post ++ [file]). split; [by rewrite <-app_assoc|].
      split; [done|]. apply Forall_app. auto.
  - intros (pre & file & post & -> & Hst & Hpost).
    induction post as [|g post IH] using rev_ind.
    + rewrite filesDictionary_snoc, get_addFile. auto.
    + apply Forall_app in Hpost as [Hpost Hg%Forall_inv].
      rewrite app_comm_cons, app_assoc, filesDictionary_snoc, get_addFile.
      right. auto.
Qed.

Lemma filesDictionary_NoDup fs : NoDup (filesDictionary fs).*1.
Proof.
  induction fs as [|file fs IH] using rev_ind; [constructor|].
  rewrite filesDictionary_snoc.
  destruct (writes_dec file) as [(k & v & Hst)|Hno].
  - rewrite (addFile_stores _ _ _ _ Hst). by apply put_NoDup.
  - by rewrite addFile_skips.
Qed.

Lemma elem_of_filesDictionary fs k v :
  (k, v) ∈ filesDictionary fs ↔
  ∃ pre file post,
    fs = pre ++ file :: post ∧ stores k v file ∧ Forall (λ g, ¬ writes k g) post.
Proof.
  rewrite <-get_filesDictionary, get_elem_of; [done|].
  apply filesDictionary_NoDup.
Qed.

(** What it takes for [callGenerativeModel] to return. *)
Lemma callGenerativeModel_Return reply fresh_id originalPrompt framework project :
  callGenerativeModel reply fresh_id originalPrompt framework = Return project ↔
  ∃ rawResponse fs,
    reply = Json rawResponse ∧ files rawResponse = Some fs ∧
    filesDictionary fs ≠ [] ∧
    project =
      {| GeneratedProject.id := fresh_id;
         GeneratedProject.name := projectName originalPrompt;
         GeneratedProject.prompt := originalPrompt;
         GeneratedProject.framework := framework;
         GeneratedProject.files := filesDictionary fs;
         GeneratedProject.dependencies := dependencies rawResponse;
         GeneratedProject.explanation := explanation rawResponse;
         GeneratedProject.build_commands := build_commands rawResponse |}.
Proof.
  unfold callGenerativeModel. split.
  - destruct reply as [m|m|raw]; [done|done|].
    destruct (files raw) as [fs|] eqn:Hfs; [|done]. simpl.
    case_bool_decide as Hlen; [done|]. intros [= <-].
    exists raw, fs. repeat split; [done|].
    intros Hnil. apply Hlen. by rewrite keys_length, Hnil.
  - intros (raw & fs & -> & Hfs & Hne & ->). rewrite Hfs. simpl.
    rewrite bool_decide_eq_false_2; [done|].
    rewrite keys_length. by destruct (filesDictionary fs).
Qed.

Lemma callGenerativeModel_empty rawResponse fs fresh_id originalPrompt framework :
  files rawResponse = Some fs → filesDictionary fs = [] →
  callGenerativeModel (Json rawResponse) fresh_id originalPrompt framework
  = Throw "AI response is missing valid file structure.".
Proof. unfold callGenerativeModel. by intros -> ->. Qed.

End GeminiFacts.

Section GeminiClaims.

Import GeminiService.

(** A project returned by either operation takes its files from a call of
    [callGenerativeModel] that returned. *)
Lemma returned_from_call prompt framework features existingProject reply fresh_id project :
  generateProject prompt framework features reply fresh_id = Return project ∨
  modifyProject prompt existingProject reply fresh_id = Return project →
  ∃ core originalPrompt fw,
    callGenerativeModel reply fresh_id originalPrompt fw = Return core ∧
    GeneratedProject.files project = GeneratedProject.files core.
Proof.
  intros [Hret|Hret].
  - unfold generateProject in Hret.
    destruct (callGenerativeModel _ _ _ _) as [core|m] eqn:Hcall; [|done].
    injection Hret as <-. eauto.
  - unfold modifyProject in Hret.
    destruct (callGenerativeModel _ _ _ _) as [core|m] eqn:Hcall; [|done].
    injection Hret as <-. simpl. eauto.
Qed.

(** C1.  A successful [modifyProject] returns a project whose [id], [prompt],
    [framework] and [name] are those of the existing project, and whose
    [files], [dependencies], [explanation] and [build_commands] are taken
    from the answer. *)
Theorem modifyProject_keeps_identity prompt existingProject reply fresh_id project :
  modifyProject prompt existingProject reply fresh_id = Return project →
  GeneratedProject.id project = GeneratedProject.id existingProject ∧
  GeneratedProject.prompt project = GeneratedProject.prompt existingProject ∧
  GeneratedProject.framework project = GeneratedProject.framework existingProject ∧
  GeneratedProject.name project = GeneratedProject.name existingProject ∧
  ∃ rawResponse fs,
    reply = Json rawResponse ∧ files rawResponse = Some fs ∧
    GeneratedProject.files project = filesDictionary fs ∧
    GeneratedProject.dependencies project = dependencies rawResponse ∧
    GeneratedProject.explanation project = explanation rawResponse ∧
    GeneratedProject.build_commands project = build_commands rawResponse.
Proof.
  unfold modifyProject.
  destruct (callGenerativeModel _ _ _ _) as [core|m] eqn:Hcall; [|done].
  intros [= <-]. simpl.
  apply callGenerativeModel_Return in Hcall
    as (raw & fs & -> & Hfs & _ & ->). simpl.
  repeat split. by exists raw, fs.
Qed.

Lemma modifyProject_keeps_identity_witness :
  let project :=
    {| GeneratedProject.id := GeneratedProject.id Sample.blog;
       GeneratedProject.name := GeneratedProject.name Sample.blog;
       GeneratedProject.prompt := GeneratedProject.prompt Sample.blog;
       GeneratedProject.framework := GeneratedProject.framework Sample.blog;
       GeneratedProject.files := [("README.md", "# Blog")];
       GeneratedProject.dependencies := ["Microsoft.EntityFrameworkCore"];
       GeneratedProject.explanation := "Added a readme.";
       GeneratedProject.build_commands := ["dotnet restore"; "dotnet run"] |} in
  let reply := Sample.answer [Sample.file "README.md" "# Blog"] "Added a readme." in
  modifyProject "add a readme" Sample.blog reply "2024-01-02T00:00:00.000Z0.25"
  = Return project ∧
  GeneratedProject.id project = GeneratedProject.id Sample.blog.
Proof.
  intros project reply. split; [reflexivity|].
  apply (modifyProject_keeps_identity "add a readme" Sample.blog reply
           "2024-01-02T00:00:00.000Z0.25" project).
  reflexivity.
Defined.

(** C2.  When the answer yields an empty file mapping, generation and
    modification both fail; a project that either of them returns has a
    non-empty file mapping. *)
Theorem empty_files_is_failure prompt framework features existingProject reply fresh_id :
  (∀ rawResponse fs,
     reply = Json rawResponse → files rawResponse = Some fs →
     filesDictionary fs = JsObject.empty →
     (∃ message,
        generateProject prompt framework features reply fresh_id = Throw message) ∧
     (∃ message,
        modifyProject prompt existingProject reply fresh_id = Throw message)) ∧
  (∀ project,
     generateProject prompt framework features reply fresh_id = Return project ∨
     modifyProject prompt existingProject reply fresh_id = Return project →
     GeneratedProject.files project ≠ JsObject.empty ∧
     JsObject.keys (GeneratedProject.files project) ≠ []).
Proof.
  split.
  - intros raw fs -> Hfs Hnil. unfold generateProject, modifyProject.
    rewrite !(callGenerativeModel_empty raw fs) by done. eauto.
  - intros project (core & op & fw & Hcall & ->)%returned_from_call.
    apply callGenerativeModel_Return in Hcall as (raw & fs & _ & _ & Hne & ->).
    split; [done|]. by rewrite keys_nil_iff.
Qed.

Lemma empty_files_is_failure_witness :
  (∃ message,
     generateProject Sample.blogPrompt Sample.mvc [] Sample.hollowAnswer "id"
     = Throw message) ∧
  (∃ message,
     modifyProject "tidy up" Sample.blog Sample.hollowAnswer "id" = Throw message).
Proof.
  refine (proj1 (empty_files_is_failure Sample.blogPrompt Sample.mvc []
                   Sample.blog Sample.hollowAnswer "id") _ _ _ _ _);
    reflexivity.
Defined.

Lemma substring_prefix n s :
  n ≤ String.length s →
  String.length (substring 0 n s) = n ∧ ∃ rest, s = substring 0 n s +:+ rest.
Proof.
  revert s. induction n as [|n IH]; intros s Hn.
  - destruct s; simpl; (split; [done|]); eauto.
  - destruct s as [|c s]; simpl in *; [lia|].
    destruct (IH s) as [Hlen (rest & Hrest)]; [lia|].
    split; [by rewrite Hlen|]. exists rest. exact (f_equal (String c) Hrest).
Qed.

(** C8.  The name of a generated project is the prompt when the prompt has
    at most 50 characters, and otherwise the first 47 characters of the
    prompt followed by three dots. *)
Theorem generated_name_truncates_prompt prompt framework features reply fresh_id project :
  generateProject prompt framework features reply fresh_id = Return project →
  (String.length prompt ≤ 50 → GeneratedProject.name project = prompt) ∧
  (50 < String.length prompt →
   GeneratedProject.name project = substring 0 47 prompt +:+ "..." ∧
   String.length (substring 0 47 prompt) = 47 ∧
   ∃ rest, prompt = substring 0 47 prompt +:+ rest).
Proof.
  unfold generateProject.
  destruct (callGenerativeModel _ _ _ _) as [core|m] eqn:Hcall; [|done].
  intros [= <-].
  apply callGenerativeModel_Return in Hcall as (raw & fs & _ & _ & _ & ->).
  simpl. unfold projectName. split; intros Hlen.
  - rewrite bool_decide_eq_false_2; [done|lia].
  - rewrite bool_decide_eq_true_2 by done. split; [done|].
    apply substring_prefix. lia.
Qed.

Lemma generated_name_truncates_prompt_witness :
  let prompt := "Build an online bookshop with a shopping cart and reviews" in
  ∃ project,
    generateProject prompt Sample.mvc [] Sample.blogAnswer "id" = Return project ∧
    GeneratedProject.name project
    = "Build an online bookshop with a shopping cart a...".
Proof.
  intros prompt.
  eexists. split; [reflexivity|].
  refine (proj1 (proj2 (generated_name_truncates_prompt prompt Sample.mvc []
                          Sample.blogAnswer "id" _ eq_refl) _)).
  vm_compute. lia.
Defined.

(** C10.  The file mapping of a project returned by generation or
    modification has unique keys; it holds [k ↦ v] exactly when [v] is the
    content of the last element of the answer that is stored under [k], an
    element being stored only if its path and its content are present and
    non-empty; so every key and every value of the mapping is a non-empty
    string. *)
Theorem returned_files_are_nonempty_strings
    prompt framework features existingProject reply fresh_id project :
  generateProject prompt framework features reply fresh_id = Return project ∨
  modifyProject prompt existingProject reply fresh_id = Return project →
  ∃ rawResponse fs,
    reply = Json rawResponse ∧ files rawResponse = Some fs ∧
    GeneratedProject.files project = filesDictionary fs ∧
    NoDup (GeneratedProject.files project).*1 ∧
    (∀ k v,
       (k, v) ∈ GeneratedProject.files project ↔
       ∃ pre file post,
         fs = pre ++ file :: post ∧
         (path file = Some k ∧ content file = Some v ∧
          k ≠ "" ∧ v ≠ "" ∧ k ≠ "__proto__") ∧
         Forall (λ later, ¬ writes k later) post) ∧
    (∀ k v, (k, v) ∈ GeneratedProject.files project → k ≠ "" ∧ v ≠ "").
Proof.
  intros Hret.
  destruct (returned_from_call _ _ _ _ _ _ _ Hret)
    as (core & op & fw & Hcall & Hfiles).
  apply callGenerativeModel_Return in Hcall as (raw & fs & -> & Hfs & _ & ->).
  simpl in Hfiles. exists raw, fs. rewrite Hfiles.
  split; [done|]. split; [done|]. split; [done|].
  split; [apply filesDictionary_NoDup|].
  split; [intros k v; apply elem_of_filesDictionary|].
  intros k v (pre & file & post & _ & (_ & _ & Hk & Hv & _) & _)%elem_of_filesDictionary.
  done.
Qed.

Lemma returned_files_are_nonempty_strings_witness :
  let reply :=
    Sample.answer
      [ Sample.file "Program.cs" "old"; Sample.file "" "dropped";
        Sample.file "Program.cs" "new"; Sample.file "Program.cs" "" ] "Twice." in
  ∃ project,
    generateProject Sample.blogPrompt Sample.mvc [] reply "id" = Return project ∧
    GeneratedProject.files project = [("Program.cs", "new")] ∧
    NoDup (GeneratedProject.files project).*1.
Proof.
  intros reply. eexists. split; [reflexivity|]. split; [reflexivity|].
  destruct (returned_files_are_nonempty_strings Sample.blogPrompt Sample.mvc []
              Sample.blog reply "id" _ (or_introl eq_refl))
    as (raw & fs & _ & _ & _ & Hnd & _).
  exact Hnd.
Defined.

End GeminiClaims.

(** ** The project history store *)

Section HistoryFacts.

Import LocalStorage ProjectHistoryService.

Implicit Types (project q : GeneratedProject.t) (projects : list GeneratedProject.t).

Lemma findIndex_found {A} (P : A → Prop) `{!∀ x, Decision (P x)} (l : list A) i x :
  l !! i = Some x → P x → (∀ j y, l !! j = Some y → j < i → ¬ P y) →
  findIndex P l = Z.of_nat i.
Proof.
  intros Hi HP Hfirst. unfold findIndex.
  by rewrite (proj2 (list_find_Some P l i x)).
Qed.

Lemma findIndex_missing {A} (P : A → Prop) `{!∀ x, Decision (P x)} (l : list A) :
  Forall (λ x, ¬ P x) l → findIndex P l = (-1)%Z.
Proof.
  intros Hno. unfold findIndex. by rewrite (proj2 (list_find_None P l)).
Qed.

(** An entry with the id of the project being saved, if there is one, has a
    first position. *)
Lemma first_with_id project projects :
  (∃ q, q ∈ projects ∧ GeneratedProject.id q = GeneratedProject.id project) →
  ∃ i q,
    projects !! i = Some q ∧
    GeneratedProject.id q = GeneratedProject.id project ∧
    ∀ j y, projects !! j = Some y → j < i →
           GeneratedProject.id y ≠ GeneratedProject.id project.
Proof.
  intros (q & Hq & Hid).
  destruct (list_find (λ p, GeneratedProject.id p = GeneratedProject.id project)
              projects) as [[i x]|] eqn:Hfind.
  - apply list_find_Some in Hfind as (Hi & Hx & Hfirst). by exists i, x.
  - apply list_find_None in Hfind. rewrite Forall_forall in Hfind.
    by destruct (Hfind q).
Qed.

Lemma upsert_present project projects i q :
  projects !! i = Some q →
  GeneratedProject.id q = GeneratedProject.id project →
  (∀ j y, projects !! j = Some y → j < i →
          GeneratedProject.id y ≠ GeneratedProject.id project) →
  upsert project projects = <[i := project]> projects.
Proof.
  intros Hi Hid Hfirst. unfold upsert.
  rewrite (findIndex_found _ _ i q) by done.
  rewrite bool_decide_eq_true_2 by lia. by rewrite Nat2Z.id.
Qed.

Lemma upsert_absent project projects :
  (∀ q, q ∈ projects → GeneratedProject.id q ≠ GeneratedProject.id project) →
  upsert project projects = project :: projects.
Proof.
  intros Hno. unfold upsert.
  rewrite findIndex_missing by by apply Forall_forall.
  by rewrite bool_decide_eq_false_2 by lia.
Qed.

Lemma upsert_idempotent project projects :
  upsert project (upsert project projects) = upsert project projects.
Proof.
  destruct (list_find (λ p, GeneratedProject.id p = GeneratedProject.id project)
              projects) as [[i q]|] eqn:Hfind.
  - apply list_find_Some in Hfind as (Hi & Hid & Hfirst).
    pose proof (lookup_lt_Some _ _ _ Hi) as Hlt.
    rewrite (upsert_present project projects i q) by eauto.
    rewrite (upsert_present _ _ i project).
    + by rewrite list_insert_insert_eq.
    + by apply list_lookup_insert_eq.
    + done.
    + intros j y Hj Hji. rewrite list_lookup_insert_ne in Hj by lia. eauto.
  - apply list_find_None in Hfind. rewrite Forall_forall in Hfind.
    rewrite (upsert_absent project projects) by done.
    by rewrite (upsert_present _ _ 0 project); [| | |intros; lia].
Qed.

Lemma getProjects_setProjects v ls :
  getProjects (setProjects (JsonText v) ls) = v.
Proof. done. Qed.

Lemma saveProject_idempotent project ls :
  saveProject project (saveProject project ls) = saveProject project ls.
Proof.
  unfold saveProject at 2 3.
  destruct (getProjects ls) as [projects|] eqn:Hget.
  - unfold saveProject. rewrite getProjects_setProjects, upsert_idempotent.
    done.
  - unfold saveProject. by rewrite Hget.
Qed.

Lemma filter_sublist {A} (f : A → bool) (l : list A) : sublist (List.filter f l) l.
Proof.
  induction l as [|x l IH]; simpl; [constructor|].
  destruct (f x); by constructor.
Qed.

(** C3.  On a store that holds a list of projects, [saveProject] overwrites
    the first entry that has the id of the saved project, at its position,
    with every other position as it was; when no entry has that id it puts
    the project in front of the list; saving the same project again changes
    nothing. *)
Theorem saveProject_upserts_by_id ls projects project :
  getProjects ls = JsonArray projects →
  ∃ projects',
    getProjects (saveProject project ls) = JsonArray projects' ∧
    ((∃ q, q ∈ projects ∧ GeneratedProject.id q = GeneratedProject.id project) →
     ∃ i q,
       projects !! i = Some q ∧
       GeneratedProject.id q = GeneratedProject.id project ∧
       (∀ j y, projects !! j = Some y → j < i →
               GeneratedProject.id y ≠ GeneratedProject.id project) ∧
       projects' = <[i := project]> projects ∧
       length projects' = length projects ∧
       projects' !! i = Some project ∧
       ∀ j, j ≠ i → projects' !! j = projects !! j) ∧
    ((∀ q, q ∈ projects → GeneratedProject.id q ≠ GeneratedProject.id project) →
     projects' = project :: projects) ∧
    saveProject project (saveProject project ls) = saveProject project ls.
Proof.
  intros Hget. exists (upsert project projects).
  split; [unfold saveProject; by rewrite Hget|].
  split; [|split; [apply upsert_absent|apply saveProject_idempotent]].
  intros Hin. destruct (first_with_id _ _ Hin) as (i & q & Hi & Hid & Hfirst).
  exists i, q. rewrite (upsert_present project projects i q) by eauto.
  pose proof (lookup_lt_Some _ _ _ Hi) as Hlt.
  repeat split; try done.
  - apply length_insert.
  - by apply list_lookup_insert_eq.
  - intros j Hj. by apply list_lookup_insert_ne.
Qed.

(** A store that holds two projects: saving an edited copy of the second
    overwrites it where it is, saving a project with a new id puts it in
    front of both. *)
Lemma saveProject_upserts_by_id_witness :
  let ls := saveProject Sample.generated (saveProject Sample.blog Sample.emptyStorage) in
  let edited :=
    {| GeneratedProject.id := GeneratedProject.id Sample.blog;
       GeneratedProject.name := GeneratedProject.name Sample.blog;
       GeneratedProject.prompt := GeneratedProject.prompt Sample.blog;
       GeneratedProject.framework := GeneratedProject.framework Sample.blog;
       GeneratedProject.files := [("README.md", "# Blog")];
       GeneratedProject.dependencies := [];
       GeneratedProject.explanation := "Added a readme.";
       GeneratedProject.build_commands := ["dotnet run"] |} in
  let added :=
    {| GeneratedProject.id := "2024-01-03T00:00:00.000Z0.75";
       GeneratedProject.name := "A shop";
       GeneratedProject.prompt := "A shop";
       GeneratedProject.framework := Sample.mvc;
       GeneratedProject.files := [("Program.cs", "var app = builder.Build();")];
       GeneratedProject.dependencies := [];
       GeneratedProject.explanation := "A shop.";
       GeneratedProject.build_commands := ["dotnet run"] |} in
  getProjects ls = JsonArray [Sample.generated; Sample.blog] ∧
  getProjects (saveProject edited ls) = JsonArray [Sample.generated; edited] ∧
  getProjects (saveProject added ls)
  = JsonArray [added; Sample.generated; Sample.blog] ∧
  saveProject edited (saveProject edited ls) = saveProject edited ls.
Proof.
  intros ls edited added.
  assert (getProjects ls = JsonArray [Sample.generated; Sample.blog]) as Hls
    by reflexivity.
  split; [exact Hls|].
  destruct (saveProject_upserts_by_id ls [Sample.generated; Sample.blog] edited Hls)
    as (replaced & Hreplaced & Hpresent & _ & Hagain).
  destruct (saveProject_upserts_by_id ls [Sample.generated; Sample.blog] added Hls)
    as (prepended & Hprepended & _ & Habsent & _).
  split; [|split; [|exact Hagain]].
  - rewrite Hreplaced. f_equal.
    destruct Hpresent as (i & q & Hi & Hid & _ & Hlist & _).
    { exists Sample.blog. split; [|reflexivity]. right. left. }
    destruct i as [|[|i]].
    + injection Hi as <-. discriminate Hid.
    + exact Hlist.
    + discriminate Hi.
  - rewrite Hprepended. f_equal. apply Habsent.
    intros q Hq. apply elem_of_cons in Hq as [->|Hq]; [discriminate|].
    apply list_elem_of_singleton in Hq as ->. discriminate.
Defined.

(** C9.  On a store that holds a list of projects, deleting an id leaves
    exactly the entries with another id, in their order, in the store and in
    the history the component shows; when the active project has that id
    the component has no active project afterwards and is in the [landing]
    state, otherwise both are as before. *)
Theorem deleteProject_removes_and_lands projectId ls st projects :
  getProjects ls = JsonArray projects →
  ∃ projects',
    getProjects (AppComponent.deleteProject projectId ls st).2 = JsonArray projects' ∧
    AppComponent.projectHistory (AppComponent.deleteProject projectId ls st).1
    = JsonArray projects' ∧
    projects' = List.filter (λ p, bool_decide (GeneratedProject.id p ≠ projectId)) projects ∧
    (∀ q, q ∈ projects' ↔ q ∈ projects ∧ GeneratedProject.id q ≠ projectId) ∧
    sublist projects' projects ∧
    (∀ p, AppComponent.activeProject st = Some p →
          GeneratedProject.id p = projectId →
          AppComponent.activeProject (AppComponent.deleteProject projectId ls st).1 = None ∧
          AppComponent.appState (AppComponent.deleteProject projectId ls st).1 = landing) ∧
    ((∀ p, AppComponent.activeProject st = Some p →
           GeneratedProject.id p ≠ projectId) →
     AppComponent.activeProject (AppComponent.deleteProject projectId ls st).1
     = AppComponent.activeProject st ∧
     AppComponent.appState (AppComponent.deleteProject projectId ls st).1
     = AppComponent.appState st).
Proof.
  intros Hget.
  exists (List.filter (λ p, bool_decide (GeneratedProject.id p ≠ projectId)) projects).
  unfold AppComponent.deleteProject, deleteProject. rewrite Hget.
  simpl AppComponent.activeProject.
  split; [by destruct (AppComponent.activeProject st) as [p|]; [case_bool_decide|]|].
  split; [by destruct (AppComponent.activeProject st) as [p|]; [case_bool_decide|]|].
  split; [done|].
  split.
  { intros q. rewrite list_elem_of_In, filter_In, bool_decide_eq_true.
    by rewrite list_elem_of_In. }
  split; [apply filter_sublist|].
  split.
  - intros p -> Hid. by rewrite bool_decide_eq_true_2.
  - intros Hother. destruct (AppComponent.activeProject st) as [p|] eqn:Hp; [|done].
    rewrite bool_decide_eq_false_2 by eauto. simpl. auto.
Qed.

Lemma deleteProject_removes_and_lands_witness :
  let ls := saveProject Sample.blog Sample.emptyStorage in
  let st := AppComponent.set_activeProject (Some Sample.blog) AppComponent.initial in
  getProjects ls = JsonArray [Sample.blog] ∧
  AppComponent.activeProject
    (AppComponent.deleteProject (GeneratedProject.id Sample.blog) ls st).1 = None ∧
  AppComponent.appState
    (AppComponent.deleteProject (GeneratedProject.id Sample.blog) ls st).1 = landing.
Proof.
  intros ls st. split; [reflexivity|].
  destruct (deleteProject_removes_and_lands (GeneratedProject.id Sample.blog) ls st
              [Sample.blog] eq_refl)
    as (projects' & _ & _ & _ & _ & _ & Hactive & _).
  exact (Hactive Sample.blog eq_refl eq_refl).
Defined.

End HistoryFacts.

(** ** The workspace controller *)

Section ControllerFacts.

Import AppComponent.

(** Handlers other than the modification request leave [isModifying] alone. *)

Lemma runAgentSimulation_isModifying stage st :
  isModifying (runAgentSimulation stage st) = isModifying st.
Proof.
  unfold runAgentSimulation.
  destruct (getAgentById "team_leader"), (getAgentById "coder"),
    (getAgentById "frontend"), (getAgentById "database"); try done.
  do 6 (destruct stage as [|stage]; [done|]). done.
Qed.

Lemma resetConfiguration_isModifying st :
  isModifying (resetConfiguration st) = isModifying st.
Proof. done. Qed.

Lemma setAppState_isModifying state st :
  isModifying (setAppState state st) = isModifying st.
Proof. by destruct state. Qed.

Lemma initializeWorkspace_isModifying isNew st :
  isModifying (initializeWorkspace isNew st) = isModifying st.
Proof. done. Qed.

Lemma loadProject_isModifying projectId ls st :
  isModifying (loadProject projectId ls st) = isModifying st.
Proof.
  unfold loadProject.
  destruct (ProjectHistoryService.getProject projectId ls) as [[project|]|]; done.
Qed.

Lemma deleteProject_isModifying projectId ls st :
  isModifying (deleteProject projectId ls st).1 = isModifying st.
Proof.
  unfold deleteProject. simpl activeProject.
  destruct (activeProject st) as [project|]; [|done].
  by case_bool_decide.
Qed.

Lemma handleGenerateProject_isModifying st :
  isModifying (handleGenerateProject st).1 = isModifying st.
Proof.
  unfold handleGenerateProject.
  destruct (isGenerationDisabled st); [done|].
  destruct (selectedFramework _) eqn:Hfw; simpl;
    by rewrite ?runAgentSimulation_isModifying.
Qed.

Lemma handleGenerateProject_settled_isModifying result ls st :
  isModifying (handleGenerateProject_settled result ls st).1 = isModifying st.
Proof.
  unfold handleGenerateProject_settled.
  destruct result as [project|message]; [|done].
  by destruct (getAgentById "team_leader").
Qed.

Lemma handleModificationRequest_settled_isModifying result ls st :
  isModifying (handleModificationRequest_settled result ls st).1 = false.
Proof.
  unfold handleModificationRequest_settled.
  by destruct result as [project|message]; [destruct (or_null _); [case_match|]|].
Qed.

(** What the guard of [handleModificationRequest] lets through. *)
Lemma handleModificationRequest_cases st :
  (handleModificationRequest st = (st, None)) ∨
  (isModifying st = false ∧
   ∃ call, (handleModificationRequest st).2 = Some call ∧
           isModifying (handleModificationRequest st).1 = true).
Proof.
  unfold handleModificationRequest.
  destruct (negb (JsString.truthy _)); [by left|].
  destruct (bool_decide (activeProject st = None)) eqn:Hactive; [by left|].
  destruct (isModifying st) eqn:Hmod; [by left|]. simpl.
  apply bool_decide_eq_false in Hactive.
  destruct (activeProject st) as [project|]; [|done].
  right. split; [done|]. eauto.
Qed.

End ControllerFacts.

Section SystemFacts.

Import System.

(** The flag [isModifying] counts the modification calls in flight. *)
Lemma modifying_matches_flag s :
  reachable s →
  length (modifying s) = if AppComponent.isModifying (app s) then 1 else 0.
Proof.
  induction 1 as [ls|e s _ IH]; [done|].
  destruct e; simpl; try done.
  - by rewrite setAppState_isModifying.
  - by rewrite loadProject_isModifying.
  - pose proof (deleteProject_isModifying projectId (localStorage s) (app s)) as Hframe.
    destruct (AppComponent.deleteProject _ _ _) as [a ls]. simpl in *.
    by rewrite Hframe.
  - destruct (AppComponent.isGenerationDisabled _); [done|].
    pose proof (handleGenerateProject_isModifying (app s)) as Hframe.
    destruct (AppComponent.handleGenerateProject _) as [a call]. simpl in *.
    by rewrite Hframe.
  - destruct (generating s !! i) as [call|]; [|done].
    match goal with
    | |- context [AppComponent.handleGenerateProject_settled ?r ?ls ?st] =>
        pose proof (handleGenerateProject_settled_isModifying r ls st) as Hframe;
        destruct (AppComponent.handleGenerateProject_settled r ls st) as [a ls']
    end.
    simpl in *. by rewrite Hframe.
  - destruct (handleModificationRequest_cases (app s)) as [Hnoop|(Hflag & call & Hcall & Hset)].
    + rewrite Hnoop. simpl. by rewrite app_nil_r.
    + destruct (AppComponent.handleModificationRequest _) as [a c]. simpl in *.
      subst c. rewrite Hset, length_app, IH, Hflag. done.
  - destruct (modifying s !! i) as [call|] eqn:Hi; [|done].
    match goal with
    | |- context [AppComponent.handleModificationRequest_settled ?r ?ls ?st] =>
        pose proof (handleModificationRequest_settled_isModifying r ls st) as Hframe;
        destruct (AppComponent.handleModificationRequest_settled r ls st) as [a ls']
    end.
    simpl in *. rewrite Hframe.
    apply lookup_lt_Some in Hi.
    destruct (modifying s) as [|c [|c' l]]; simpl in *;
      destruct (AppComponent.isModifying (app s)); try done; try lia.
    by destruct i; [|lia].
  - destruct (simulations s !! i) as [stage|]; [|done]. simpl.
    by rewrite runAgentSimulation_isModifying.
Qed.

End SystemFacts.

Section ControllerClaims.

Import System.

(** C4.  When the trimmed prompt has fewer than 10 characters or no framework
    is selected, the generate action changes nothing: the signals (among
    them [appState] and [errorMessage]), the storage, the calls in flight
    and the running simulations are as before, and no call is made. *)
Theorem generate_guard_is_noop (s : System.t) :
  String.length (JsString.trim (AppComponent.prompt (app s))) < 10 ∨
  AppComponent.selectedFramework (app s) = None →
  AppComponent.handleGenerateProject (app s) = (app s, None) ∧
  step HandleGenerateProject s = s.
Proof.
  intros Hguard.
  assert (AppComponent.isGenerationDisabled (app s) = true) as Hdisabled.
  { unfold AppComponent.isGenerationDisabled. apply orb_true_iff.
    destruct Hguard as [Hshort|Hnone]; [left|right];
      by apply bool_decide_eq_true. }
  split.
  - unfold AppComponent.handleGenerateProject. by rewrite Hdisabled.
  - unfold step. by rewrite Hdisabled.
Qed.

Lemma generate_guard_is_noop_witness :
  let s :=
    run [StartNewProjectFlow; InputPrompt "  a blog   "; SelectFramework Sample.mvc]
      (boot Sample.emptyStorage) in
  AppComponent.appState (app s) = configuring ∧
  String.length (JsString.trim (AppComponent.prompt (app s))) = 6 ∧
  step HandleGenerateProject s = s.
Proof.
  intros s. split; [reflexivity|]. split; [reflexivity|].
  refine (proj2 (generate_guard_is_noop s _)).
  left. vm_compute. lia.
Defined.

(** C6.  When the trimmed instruction is empty, or no project is active, or
    a modification is in flight (the flag [isModifying] is set or, in a state
    the application can reach, a modification call has not settled), the
    modification request changes nothing and makes no call; and in every
    state the application can reach at most one modification call is in
    flight. *)
Theorem modification_guard_is_noop (s : System.t) :
  (JsString.trim (AppComponent.assistantPrompt (app s)) = "" ∨
   AppComponent.activeProject (app s) = None ∨
   AppComponent.isModifying (app s) = true ∨
   (reachable s ∧ modifying s ≠ []) →
   AppComponent.handleModificationRequest (app s) = (app s, None) ∧
   step HandleModificationRequest s = s) ∧
  (reachable s → length (modifying s) ≤ 1).
Proof.
  split.
  - intros Hguard.
    assert (JsString.trim (AppComponent.assistantPrompt (app s)) = "" ∨
            AppComponent.activeProject (app s) = None ∨
            AppComponent.isModifying (app s) = true) as Hguard'.
    { destruct Hguard as [?|[?|[?|[Hreach Hflight]]]]; auto.
      right. right. apply modifying_matches_flag in Hreach.
      destruct (AppComponent.isModifying _); [done|].
      by destruct (modifying s). }
    clear Hguard. rename Hguard' into Hguard.
    assert (AppComponent.handleModificationRequest (app s) = (app s, None)) as Hnoop.
    { unfold AppComponent.handleModificationRequest.
      destruct Hguard as [Hempty|[Hnone|Hbusy]].
      - by rewrite Hempty.
      - rewrite Hnone. simpl. by rewrite orb_true_r.
      - rewrite Hbusy. by rewrite orb_true_r. }
    split; [done|]. unfold step. rewrite Hnoop.
    unfold option_list. rewrite app_nil_r. by destruct s.
  - intros Hreach. rewrite (modifying_matches_flag s Hreach).
    destruct (AppComponent.isModifying _); lia.
Qed.

(** A session in which a second request arrives while the first is pending. *)
Lemma modification_guard_is_noop_witness :
  let s :=
    run [ StartNewProjectFlow; InputPrompt Sample.blogPrompt;
          SelectFramework Sample.mvc; HandleGenerateProject;
          GenerateSettled 0 Sample.blogAnswer "id";
          InputAssistantPrompt "add a readme"; HandleModificationRequest;
          InputAssistantPrompt "add a licence" ]
      (boot Sample.emptyStorage) in
  AppComponent.isModifying (app s) = true ∧
  step HandleModificationRequest s = s ∧
  length (modifying s) = 1.
Proof.
  intros s. split; [reflexivity|].
  split; [|reflexivity].
  refine (proj2 (proj1 (modification_guard_is_noop s) _)).
  right. right. left. reflexivity.
Defined.

(** C7.  When a modification call fails, the component shows the message of
    the failure as [errorMessage] and appends it to the chat as a message of
    the assistant; the active project, the storage and the history are what
    they were, and they were not touched when the request was made
    either. *)
Theorem failed_modification_is_reported (s : System.t) i call reply fresh_id message :
  modifying s !! i = Some call →
  GeminiService.modifyProject
    (AppComponent.ModifyCall.userPrompt call)
    (AppComponent.ModifyCall.currentProject call) reply fresh_id = Throw message →
  let s' := step (ModifySettled i reply fresh_id) s in
  message = "Failed to modify project. The AI model may be overloaded or the request was invalid." ∧
  AppComponent.errorMessage (app s') = message ∧
  AppComponent.chatHistory (app s') =
    AppComponent.chatHistory (app s) ++
      [ {| ChatMessage.role := ChatMessage.assistant;
           ChatMessage.content := "I encountered an error: " +:+ message |} ] ∧
  AppComponent.activeProject (app s') = AppComponent.activeProject (app s) ∧
  AppComponent.projectHistory (app s') = AppComponent.projectHistory (app s) ∧
  AppComponent.appState (app s') = AppComponent.appState (app s) ∧
  AppComponent.isModifying (app s') = false ∧
  localStorage s' = localStorage s ∧
  (∀ st, AppComponent.activeProject (AppComponent.handleModificationRequest st).1
         = AppComponent.activeProject st).
Proof.
  intros Hi Hthrow s'.
  assert (message = "Failed to modify project. The AI model may be overloaded or the request was invalid.") as ->.
  { unfold GeminiService.modifyProject in Hthrow.
    destruct (GeminiService.callGenerativeModel _ _ _ _); [done|].
    by injection Hthrow. }
  subst s'. unfold step. rewrite Hi, Hthrow.
  unfold AppComponent.handleModificationRequest_settled.
  repeat split.
  intros st. unfold AppComponent.handleModificationRequest.
  destruct (_ || _); [done|]. simpl.
  destruct (AppComponent.activeProject st) eqn:Hactive; exact Hactive.
Qed.

Lemma failed_modification_is_reported_witness :
  let s :=
    run [ StartNewProjectFlow; InputPrompt Sample.blogPrompt;
          SelectFramework Sample.mvc; HandleGenerateProject;
          GenerateSettled 0 Sample.blogAnswer "id";
          InputAssistantPrompt "add a readme"; HandleModificationRequest ]
      (boot Sample.emptyStorage) in
  let call :=
    {| AppComponent.ModifyCall.userPrompt := "add a readme";
       AppComponent.ModifyCall.currentProject := Sample.generated |} in
  let reply := GeminiService.CallRejected "503 Service Unavailable" in
  let s' := step (ModifySettled 0 reply "id2") s in
  modifying s !! 0 = Some call ∧
  AppComponent.errorMessage (app s')
  = "Failed to modify project. The AI model may be overloaded or the request was invalid." ∧
  AppComponent.activeProject (app s') = AppComponent.activeProject (app s).
Proof.
  intros s call reply s'.
  assert (modifying s !! 0 = Some call) as Hcall by (vm_compute; reflexivity).
  split; [exact Hcall|].
  destruct (failed_modification_is_reported s 0 call reply "id2"
              "Failed to modify project. The AI model may be overloaded or the request was invalid."
              Hcall eq_refl)
    as (_ & Herr & _ & Hactive & _).
  split; [exact Herr|exact Hactive].
Defined.

End ControllerClaims.

Section InitialSelection.

Import System.

Lemma or_null_head (l : list string) :
  Forall (λ k, k ≠ "") l → AppComponent.or_null (head l) = head l.
Proof.
  destruct 1 as [|k l Hk _]; [done|]. simpl.
  by rewrite (proj2 (truthy_true k)).
Qed.

Lemma isPreviewable_nonempty k : AppComponent.isPreviewable k = true → k ≠ "".
Proof. by intros Hk ->. Qed.

Lemma generateProject_Return prompt framework features reply fresh_id project :
  GeminiService.generateProject prompt framework features reply fresh_id
  = Return project →
  GeminiService.callGenerativeModel reply fresh_id prompt framework = Return project.
Proof.
  unfold GeminiService.generateProject.
  destruct (GeminiService.callGenerativeModel _ _ _ _); [|done]. by intros [= ->].
Qed.

Lemma generated_keys_nonempty reply fresh_id originalPrompt framework project :
  GeminiService.callGenerativeModel reply fresh_id originalPrompt framework
  = Return project →
  JsObject.keys (GeneratedProject.files project) ≠ [] ∧
  Forall (λ k, k ≠ "") (JsObject.keys (GeneratedProject.files project)).
Proof.
  intros (raw & fs & _ & _ & Hne & ->)%callGenerativeModel_Return. simpl.
  split; [by rewrite keys_nil_iff|].
  apply Forall_forall. intros k Hk%elem_of_keys.
  apply list_elem_of_fmap in Hk as ([k' v] & -> & Hkv).
  apply elem_of_filesDictionary in Hkv
    as (pre & file & post & _ & (_ & _ & Hnonempty & _) & _).
  done.
Qed.

(** C5, as the specification words it, fails: for an answer that lists
    [Program.cs] first, the workspace opens on [Program.cs], while the first
    path in sorted order, the head of [Object.keys(files).sort()], is
    [Controllers/HomeController.cs]. *)
Lemma initial_selection_not_in_path_order :
  let s :=
    run [ StartNewProjectFlow; InputPrompt Sample.blogPrompt;
          SelectFramework Sample.mvc; HandleGenerateProject;
          GenerateSettled 0 Sample.blogAnswer "id" ]
      (boot Sample.emptyStorage) in
  AppComponent.appState (app s) = completed ∧
  AppComponent.activeProject (app s) = Some Sample.generated ∧
  GeneratedProject.files Sample.generated ≠ JsObject.empty ∧
  head (FileTreeComponent.filePaths (GeneratedProject.files Sample.generated))
  = Some "Controllers/HomeController.cs" ∧
  AppComponent.selectedFile (app s) = Some "Program.cs" ∧
  AppComponent.selectedFile (app s)
  ≠ head (FileTreeComponent.filePaths (GeneratedProject.files Sample.generated)).
Proof. vm_compute. repeat split; done. Qed.

(** C5, amended.  When a generation succeeds the workspace opens, for the
    code view, on the first path of the file mapping in the mapping's own
    key order (the order of [Object.keys]: the paths in the order in which
    the answer first lists them, when none of them is an array index) and,
    for the preview, on the first path in that order that ends in [.html] or
    [.cshtml], or on none when there is no such path. *)
Theorem initial_selection_follows_key_order
    (s : System.t) i call reply fresh_id project :
  generating s !! i = Some call →
  GeminiService.generateProject
    (AppComponent.GenerateCall.prompt call)
    (AppComponent.GenerateCall.framework call)
    (AppComponent.GenerateCall.features call) reply fresh_id = Return project →
  let s' := step (GenerateSettled i reply fresh_id) s in
  let paths := JsObject.keys (GeneratedProject.files project) in
  AppComponent.appState (app s') = completed ∧
  AppComponent.activeProject (app s') = Some project ∧
  paths ≠ [] ∧
  AppComponent.selectedFile (app s') = head paths ∧
  AppComponent.selectedPreviewFile (app s')
  = head (List.filter AppComponent.isPreviewable paths) ∧
  (Forall (λ kv, JsObject.array_index kv.1 = None) (GeneratedProject.files project) →
   paths = (GeneratedProject.files project).*1).
Proof.
  intros Hi Hgen s' paths.
  destruct (generated_keys_nonempty _ _ _ _ _ (generateProject_Return _ _ _ _ _ _ Hgen))
    as [Hne Hkeys].
  subst s'. unfold step. rewrite Hi, Hgen.
  unfold AppComponent.handleGenerateProject_settled.
  destruct (AppComponent.getAgentById "team_leader");
    (split; [done|]); (split; [done|]); (split; [done|]);
    (split; [apply or_null_head, Hkeys|]);
    (split; [|apply keys_creation_order]);
    apply or_null_head, Forall_forall;
    intros k [_ Hk]%list_elem_of_In%filter_In;
    by apply isPreviewable_nonempty.
Qed.

Lemma initial_selection_follows_key_order_witness :
  let s :=
    run [ StartNewProjectFlow; InputPrompt Sample.blogPrompt;
          SelectFramework Sample.mvc; HandleGenerateProject ]
      (boot Sample.emptyStorage) in
  let call :=
    {| AppComponent.GenerateCall.prompt := Sample.blogPrompt;
       AppComponent.GenerateCall.framework := Sample.mvc;
       AppComponent.GenerateCall.features := [] |} in
  let s' := step (GenerateSettled 0 Sample.blogAnswer "id") s in
  generating s !! 0 = Some call ∧
  AppComponent.selectedFile (app s')
  = head (JsObject.keys (GeneratedProject.files Sample.generated)) ∧
  AppComponent.selectedPreviewFile (app s')
  = head (List.filter AppComponent.isPreviewable
            (JsObject.keys (GeneratedProject.files Sample.generated))).
Proof.
  intros s call s'.
  assert (generating s !! 0 = Some call) as Hcall by (vm_compute; reflexivity).
  split; [exact Hcall|].
  destruct (initial_selection_follows_key_order s 0 call Sample.blogAnswer "id"
              Sample.generated Hcall eq_refl)
    as (_ & _ & _ & Hfile & Hpreview & _).
  split; [exact Hfile|exact Hpreview].
Defined.

End InitialSelection.

(** * Further properties *)

(** ** The project history store: lookups, composition, invariants *)

Section HistoryLookups.

Import LocalStorage ProjectHistoryService.

Implicit Types (project q : GeneratedProject.t) (projects : list GeneratedProject.t).

Lemma find_app_l {A} (f : A → bool) (l1 l2 : list A) :
  List.find f (l1 ++ l2) =
  match List.find f l1 with Some x => Some x | None => List.find f l2 end.
Proof.
  induction l1 as [|x l1 IH]; simpl; [done|]. by destruct (f x).
Qed.

Lemma find_none_iff {A} (f : A → bool) (l : list A) :
  List.find f l = None ↔ ∀ x, x ∈ l → f x = false.
Proof.
  induction l as [|x l IH]; simpl.
  - split; [|done]. by intros _ x ?%elem_of_nil.
  - destruct (f x) eqn:Hx.
    + split; [done|]. intros Hall. rewrite Hall in Hx; [done|]. by left.
    + rewrite IH. split.
      * intros Hall y [->|?]%elem_of_cons; auto.
      * intros Hall y Hy. apply Hall. by right.
Qed.

Lemma filter_filter_same {A} (f : A → bool) (l : list A) :
  List.filter f (List.filter f l) = List.filter f l.
Proof.
  induction l as [|x l IH]; simpl; [done|].
  destruct (f x) eqn:Hx; simpl; [|done]. by rewrite Hx, IH.
Qed.

(** A list with an entry of the given id splits around the first one. *)
Lemma split_at_first_id project projects :
  (∃ pre q post,
     projects = pre ++ q :: post ∧
     GeneratedProject.id q = GeneratedProject.id project ∧
     (∀ y, y ∈ pre → GeneratedProject.id y ≠ GeneratedProject.id project) ∧
     upsert project projects = pre ++ project :: post) ∨
  ((∀ y, y ∈ projects → GeneratedProject.id y ≠ GeneratedProject.id project) ∧
   upsert project projects = project :: projects).
Proof.
  destruct (list_find (λ p, GeneratedProject.id p = GeneratedProject.id project)
              projects) as [[i q]|] eqn:Hfind.
  - left. apply list_find_Some in Hfind as (Hi & Hid & Hfirst).
    exists (take i projects), q, (drop (S i) projects).
    split; [by rewrite take_drop_middle|]. split; [done|]. split.
    + intros y (j & Hj & Hlt)%elem_of_take. eauto.
    + rewrite (upsert_present project projects i q) by eauto.
      apply insert_take_drop. by eapply lookup_lt_Some.
  - right. apply list_find_None in Hfind. rewrite Forall_forall in Hfind.
    split; [done|]. by apply upsert_absent.
Qed.

Lemma find_upsert project projects id :
  List.find (has_id id) (upsert project projects) =
  if decide (id = GeneratedProject.id project) then Some project
  else List.find (has_id id) projects.
Proof.
  assert (∀ pre, (∀ y, y ∈ pre →
                       GeneratedProject.id y ≠ GeneratedProject.id project) →
                 id = GeneratedProject.id project →
                 List.find (has_id id) pre = None) as Hskip.
  { intros pre Hpre ->. apply find_none_iff. intros y Hy.
    apply bool_decide_eq_false. by apply Hpre. }
  destruct (split_at_first_id project projects)
    as [(pre & q & post & -> & Hid & Hpre & ->)|[Hnone ->]].
  - rewrite !find_app_l. simpl.
    assert (has_id id q = has_id id project) as ->
      by (unfold has_id; by rewrite Hid).
    case_decide as Hcase.
    + rewrite (Hskip pre) by done. unfold has_id.
      by rewrite bool_decide_eq_true_2.
    + assert (has_id id project = false) as ->; [|done].
      apply bool_decide_eq_false. congruence.
  - simpl. case_decide as Hcase.
    + assert (has_id id project = true) as ->; [|done].
      by apply bool_decide_eq_true.
    + assert (has_id id project = false) as ->; [|done].
      apply bool_decide_eq_false. congruence.
Qed.

Lemma find_filter_other_ids projects pid id :
  List.find (has_id id)
    (List.filter (λ p, bool_decide (GeneratedProject.id p ≠ pid)) projects) =
  if decide (id = pid) then None else List.find (has_id id) projects.
Proof.
  induction projects as [|q projects IH]; simpl; [by case_decide|].
  destruct (decide (GeneratedProject.id q = pid)) as [Hq|Hq].
  - rewrite bool_decide_eq_false_2 by tauto. rewrite IH.
    case_decide as Hcase; [done|].
    assert (has_id id q = false) as ->; [|done].
    apply bool_decide_eq_false. congruence.
  - rewrite bool_decide_eq_true_2 by done. simpl. rewrite IH.
    case_decide as Hcase; [|done].
    assert (has_id id q = false) as ->; [|done].
    apply bool_decide_eq_false. congruence.
Qed.

Lemma filter_upsert project projects :
  List.filter (λ p, bool_decide (GeneratedProject.id p ≠ GeneratedProject.id project))
    (upsert project projects) =
  List.filter (λ p, bool_decide (GeneratedProject.id p ≠ GeneratedProject.id project))
    projects.
Proof.
  destruct (split_at_first_id project projects)
    as [(pre & q & post & -> & Hid & Hpre & ->)|[Hnone ->]].
  - rewrite !List.filter_app. simpl. rewrite Hid.
    by rewrite bool_decide_eq_false_2 by tauto.
  - simpl. by rewrite bool_decide_eq_false_2 by tauto.
Qed.

Lemma upsert_ids project projects :
  (GeneratedProject.id <$> upsert project projects = GeneratedProject.id <$> projects ∧
   GeneratedProject.id project ∈ GeneratedProject.id <$> projects) ∨
  (GeneratedProject.id <$> upsert project projects
   = GeneratedProject.id project :: (GeneratedProject.id <$> projects) ∧
   GeneratedProject.id project ∉ GeneratedProject.id <$> projects).
Proof.
  destruct (split_at_first_id project projects)
    as [(pre & q & post & -> & Hid & Hpre & ->)|[Hnone ->]].
  - left. rewrite !fmap_app, !fmap_cons, Hid. split; [done|].
    apply elem_of_app. right. by left.
  - right. split; [done|].
    intros (y & Hy & Hin)%list_elem_of_fmap. by destruct (Hnone y).
Qed.

(** X1.  On a store that holds a list of projects, a lookup of the id just
    saved returns the saved project, and a lookup of any other id returns
    what it returned before the save. *)
Theorem getProject_after_saveProject ls projects project id :
  getProjects ls = JsonArray projects →
  getProject (GeneratedProject.id project) (saveProject project ls)
  = Return (Some project) ∧
  (id ≠ GeneratedProject.id project →
   getProject id (saveProject project ls) = getProject id ls).
Proof.
  intros Hget. unfold getProject, saveProject. rewrite Hget.
  rewrite getProjects_setProjects.
  fold (has_id (GeneratedProject.id project)). fold (has_id id).
  rewrite !find_upsert. rewrite decide_True by done.
  split; [done|]. intros Hother. by rewrite decide_False.
Qed.

Lemma getProject_after_saveProject_witness :
  getProjects Sample.emptyStorage = JsonArray [] ∧
  getProject (GeneratedProject.id Sample.blog)
    (saveProject Sample.blog Sample.emptyStorage) = Return (Some Sample.blog).
Proof.
  split; [reflexivity|].
  exact (proj1 (getProject_after_saveProject Sample.emptyStorage [] Sample.blog
                  "other" eq_refl)).
Defined.

(** X2.  On a store that holds a list of projects, a lookup of the id just
    deleted finds nothing, a lookup of any other id returns what it returned
    before, and deleting the same id again changes nothing. *)
Theorem getProject_after_deleteProject ls projects pid id :
  getProjects ls = JsonArray projects →
  getProject pid (deleteProject pid ls) = Return None ∧
  (id ≠ pid → getProject id (deleteProject pid ls) = getProject id ls) ∧
  deleteProject pid (deleteProject pid ls) = deleteProject pid ls.
Proof.
  intros Hget. unfold getProject, deleteProject. rewrite Hget.
  rewrite !getProjects_setProjects.
  fold (has_id pid). fold (has_id id).
  rewrite !find_filter_other_ids. rewrite decide_True by done.
  split; [done|]. split; [intros Hother; by rewrite decide_False|].
  unfold setProjects. simpl. by rewrite filter_filter_same.
Qed.

Lemma getProject_after_deleteProject_witness :
  let ls := saveProject Sample.generated (saveProject Sample.blog Sample.emptyStorage) in
  getProjects ls = JsonArray [Sample.generated; Sample.blog] ∧
  getProject "id" (deleteProject "id" ls) = Return None ∧
  getProject (GeneratedProject.id Sample.blog) (deleteProject "id" ls)
  = Return (Some Sample.blog).
Proof.
  intros ls. split; [reflexivity|].
  destruct (getProject_after_deleteProject ls [Sample.generated; Sample.blog] "id"
              (GeneratedProject.id Sample.blog) eq_refl) as (Hgone & Hother & _).
  split; [exact Hgone|].
  rewrite Hother; [reflexivity|discriminate].
Defined.

(** X3.  Saving and deleting keep the ids of the stored list unique; a save
    lengthens the list by one entry at most and never shortens it, a delete
    never lengthens it. *)
Theorem history_ids_stay_unique ls projects project pid :
  getProjects ls = JsonArray projects →
  NoDup (GeneratedProject.id <$> projects) →
  ∃ saved deleted,
    getProjects (saveProject project ls) = JsonArray saved ∧
    NoDup (GeneratedProject.id <$> saved) ∧
    length projects ≤ length saved ≤ S (length projects) ∧
    getProjects (deleteProject pid ls) = JsonArray deleted ∧
    NoDup (GeneratedProject.id <$> deleted) ∧
    length deleted ≤ length projects.
Proof.
  intros Hget Hnd.
  exists (upsert project projects),
    (List.filter (λ p, bool_decide (GeneratedProject.id p ≠ pid)) projects).
  unfold saveProject, deleteProject. rewrite Hget, !getProjects_setProjects.
  split; [done|]. split; [|split]; [| |split; [done|split]].
  - destruct (upsert_ids project projects) as [[-> _]|[-> Hnew]]; [done|].
    by apply NoDup_cons.
  - destruct (upsert_ids project projects) as [[Hids _]|[Hids _]];
      apply (f_equal length) in Hids; rewrite ?length_fmap in Hids;
      simpl in Hids; rewrite ?length_fmap in Hids; lia.
  - apply (sublist_NoDup _ (GeneratedProject.id <$> projects));
      [exact Hnd|apply fmap_sublist, filter_sublist].
  - apply sublist_length, filter_sublist.
Qed.

Lemma history_ids_stay_unique_witness :
  let ls := saveProject Sample.blog Sample.emptyStorage in
  ∃ saved,
    getProjects (saveProject Sample.generated ls) = JsonArray saved ∧
    NoDup (GeneratedProject.id <$> saved).
Proof.
  intros ls.
  destruct (history_ids_stay_unique ls [Sample.blog] Sample.generated "id" eq_refl)
    as (saved & deleted & Hsaved & Hnd & _).
  - apply NoDup_singleton.
  - exists saved. split; [exact Hsaved|exact Hnd].
Defined.

(** X4.  On a store that holds a list of projects, deleting the id of a
    project right after saving it gives the store that deleting the id alone
    gives; when the id was new, that is the list from before the save. *)
Theorem deleteProject_after_saveProject ls projects project :
  getProjects ls = JsonArray projects →
  deleteProject (GeneratedProject.id project) (saveProject project ls)
  = deleteProject (GeneratedProject.id project) ls ∧
  ((∀ q, q ∈ projects → GeneratedProject.id q ≠ GeneratedProject.id project) →
   getProjects (deleteProject (GeneratedProject.id project) (saveProject project ls))
   = JsonArray projects).
Proof.
  intros Hget.
  assert (deleteProject (GeneratedProject.id project) (saveProject project ls)
          = deleteProject (GeneratedProject.id project) ls) as Heq.
  { unfold deleteProject, saveProject. rewrite Hget, getProjects_setProjects.
    by rewrite filter_upsert. }
  split; [done|]. intros Hnew. rewrite Heq.
  unfold deleteProject. rewrite Hget, getProjects_setProjects. f_equal.
  clear Hget. induction projects as [|q projects IH]; simpl; [done|].
  rewrite bool_decide_eq_true_2 by (apply Hnew; by left).
  rewrite IH; [done|]. intros y Hy. apply Hnew. by right.
Qed.

Lemma deleteProject_after_saveProject_witness :
  let ls := saveProject Sample.blog Sample.emptyStorage in
  getProjects ls = JsonArray [Sample.blog] ∧
  getProjects (deleteProject "id" (saveProject Sample.generated ls))
  = JsonArray [Sample.blog].
Proof.
  intros ls. split; [reflexivity|].
  refine (proj2 (deleteProject_after_saveProject ls [Sample.blog] Sample.generated
                   eq_refl) _).
  intros q ->%list_elem_of_singleton. discriminate.
Defined.

End HistoryLookups.

(** ** The generation client: outcomes, bounds, round trips *)

Section GeminiOutcomes.

Import GeminiService.

Lemma storedPath_Some file k : storedPath file = Some k ↔ writes k file.
Proof.
  unfold storedPath, writes, stores. split.
  - destruct (path file) as [p|]; [|done]. destruct (content file) as [c|]; [|done].
    destruct (JsString.truthy p) eqn:Hp; [|done].
    destruct (JsString.truthy c) eqn:Hc; [|done]. simpl.
    case_bool_decide as Hproto; [|done]. intros [= <-].
    exists c. by rewrite <-!truthy_true.
  - intros (v & -> & -> & Hk & Hv & Hproto).
    rewrite (proj2 (truthy_true k)), (proj2 (truthy_true v)) by done. simpl.
    by rewrite bool_decide_eq_true_2.
Qed.

Lemma storedPath_None file : storedPath file = None ↔ ∀ k, ¬ writes k file.
Proof.
  split.
  - intros Hnone k Hk%storedPath_Some. congruence.
  - intros Hno. destruct (storedPath file) as [k|] eqn:Hk; [|done].
    apply storedPath_Some in Hk. by destruct (Hno k).
Qed.

Lemma filesDictionary_nonempty_iff fs :
  filesDictionary fs ≠ [] ↔ ∃ file, file ∈ fs ∧ storedPath file ≠ None.
Proof.
  split.
  - intros Hne. destruct (filesDictionary fs) as [|[k v] o] eqn:Hfd; [done|].
    assert ((k, v) ∈ filesDictionary fs) as Hin by (rewrite Hfd; by left).
    apply elem_of_filesDictionary in Hin as (pre & file & post & -> & Hst & _).
    exists file. split; [apply elem_of_app; right; by left|].
    rewrite (proj2 (storedPath_Some file k)); [done|by exists v].
  - intros (file & Hin & Hstored).
    induction fs as [|g fs IH] using rev_ind; [by apply elem_of_nil in Hin|].
    rewrite filesDictionary_snoc.
    destruct (writes_dec g) as [(k & v & Hst)|Hno].
    + rewrite (addFile_stores _ _ _ _ Hst). apply put_not_nil.
    + rewrite addFile_skips by done. apply IH.
      apply elem_of_app in Hin as [Hin|Hin%list_elem_of_singleton]; [done|].
      subst. by apply storedPath_None in Hno.
Qed.

Lemma callGenerativeModel_returns_iff reply fresh_id originalPrompt framework :
  (∃ project,
     callGenerativeModel reply fresh_id originalPrompt framework = Return project) ↔
  ∃ rawResponse fs file,
    reply = Json rawResponse ∧ files rawResponse = Some fs ∧
    file ∈ fs ∧ storedPath file ≠ None.
Proof.
  split.
  - intros (project & (raw & fs & -> & Hfs & Hne & _)%callGenerativeModel_Return).
    apply filesDictionary_nonempty_iff in Hne as (file & Hin & Hstored).
    by exists raw, fs, file.
  - intros (raw & fs & file & -> & Hfs & Hin & Hstored).
    eexists. apply callGenerativeModel_Return. exists raw, fs.
    repeat split; [done|]. apply filesDictionary_nonempty_iff. eauto.
Qed.

(** X5.  Generation and modification return a project exactly when the
    answer is JSON with a [files] array of which at least one element is
    stored; in every other case they throw, and the error they throw carries
    one fixed message for each operation, whatever the cause. *)
Theorem client_outcomes prompt framework features existingProject reply fresh_id :
  ((∃ project,
      generateProject prompt framework features reply fresh_id = Return project) ↔
   ∃ rawResponse fs file,
     reply = Json rawResponse ∧ files rawResponse = Some fs ∧
     file ∈ fs ∧ storedPath file ≠ None) ∧
  ((∃ project,
      modifyProject prompt existingProject reply fresh_id = Return project) ↔
   ∃ rawResponse fs file,
     reply = Json rawResponse ∧ files rawResponse = Some fs ∧
     file ∈ fs ∧ storedPath file ≠ None) ∧
  (∀ message,
     generateProject prompt framework features reply fresh_id = Throw message →
     message = "Failed to generate project. The AI model may be overloaded or the request was invalid. Please check your prompt and try again.") ∧
  (∀ message,
     modifyProject prompt existingProject reply fresh_id = Throw message →
     message = "Failed to modify project. The AI model may be overloaded or the request was invalid.").
Proof.
  repeat split.
  - intros (project & Hret). apply (callGenerativeModel_returns_iff reply fresh_id
                                      prompt framework).
    unfold generateProject in Hret.
    destruct (callGenerativeModel _ _ _ _) as [core|m]; [eauto|done].
  - intros (core & Hcall)%(callGenerativeModel_returns_iff reply fresh_id
                             prompt framework).
    unfold generateProject. rewrite Hcall. eauto.
  - intros (project & Hret).
    apply (callGenerativeModel_returns_iff reply fresh_id
             (GeneratedProject.prompt existingProject)
             (GeneratedProject.framework existingProject)).
    unfold modifyProject in Hret.
    destruct (callGenerativeModel _ _ _ _) as [core|m]; [eauto|done].
  - intros (core & Hcall)%(callGenerativeModel_returns_iff reply fresh_id
                             (GeneratedProject.prompt existingProject)
                             (GeneratedProject.framework existingProject)).
    unfold modifyProject. rewrite Hcall. eauto.
  - unfold generateProject.
    destruct (callGenerativeModel _ _ _ _); [done|]. by intros m [= <-].
  - unfold modifyProject.
    destruct (callGenerativeModel _ _ _ _); [done|]. by intros m [= <-].
Qed.

Lemma client_outcomes_witness :
  generateProject Sample.blogPrompt Sample.mvc []
    (CallRejected "429 Too Many Requests") "id"
  = Throw "Failed to generate project. The AI model may be overloaded or the request was invalid. Please check your prompt and try again.".
Proof.
  destruct (generateProject Sample.blogPrompt Sample.mvc []
              (CallRejected "429 Too Many Requests") "id") as [project|message] eqn:Hrun.
  - discriminate Hrun.
  - f_equal.
    exact (proj1 (proj2 (proj2 (client_outcomes Sample.blogPrompt Sample.mvc []
                                  Sample.blog (CallRejected "429 Too Many Requests")
                                  "id"))) message Hrun).
Defined.

Lemma string_app_length (s t : string) :
  String.length (s +:+ t) = String.length s + String.length t.
Proof. induction s as [|c s IH]; [done|]. exact (f_equal S IH). Qed.

(** X6.  The derived name has the length of the prompt, capped at 50
    characters; so the name of a generated project is never longer than 50
    characters, and is empty only for an empty prompt. *)
Theorem project_name_is_bounded originalPrompt :
  String.length (projectName originalPrompt) = String.length originalPrompt `min` 50 ∧
  (projectName originalPrompt = "" ↔ originalPrompt = "") ∧
  (∀ framework features reply fresh_id project,
     generateProject originalPrompt framework features reply fresh_id = Return project →
     String.length (GeneratedProject.name project) ≤ 50).
Proof.
  assert (String.length (projectName originalPrompt)
          = String.length originalPrompt `min` 50) as Hlen.
  { unfold projectName. case_bool_decide as Hlong; [|lia].
    rewrite string_app_length.
    destruct (substring_prefix 47 originalPrompt) as [-> _]; [lia|].
    simpl. lia. }
  split; [done|]. split.
  - split; [|by intros ->].
    intros Hname. rewrite Hname in Hlen. simpl in Hlen.
    destruct originalPrompt; [done|]. simpl in Hlen. lia.
  - intros framework features reply fresh_id project
      (raw & fs & _ & _ & _ & ->)%generateProject_Return%callGenerativeModel_Return.
    simpl. lia.
Qed.

Lemma project_name_is_bounded_witness :
  String.length
    (GeneratedProject.name
       {| GeneratedProject.id := "id";
          GeneratedProject.name := projectName Sample.blogPrompt;
          GeneratedProject.prompt := Sample.blogPrompt;
          GeneratedProject.framework := Sample.mvc;
          GeneratedProject.files := filesDictionary Sample.blogFiles;
          GeneratedProject.dependencies := ["Microsoft.EntityFrameworkCore"];
          GeneratedProject.explanation := "A blog.";
          GeneratedProject.build_commands := ["dotnet restore"; "dotnet run"] |}) ≤ 50.
Proof.
  exact (proj2 (proj2 (project_name_is_bounded Sample.blogPrompt))
           Sample.mvc [] Sample.blogAnswer "id" _ eq_refl).
Defined.

Lemma put_fresh (o : JsObject.t) k v :
  k ∉ o.*1 → JsObject.put o k v = o ++ [(k, v)].
Proof.
  induction o as [|[k' v'] o IH]; simpl; [done|].
  intros Hk. apply not_elem_of_cons in Hk as [Hne Hk].
  rewrite decide_False by done. by rewrite IH.
Qed.

Lemma fold_addFile_listing (acc o : JsObject.t) :
  NoDup (acc ++ o).*1 →
  Forall (λ kv, kv.1 ≠ "" ∧ kv.2 ≠ "" ∧ kv.1 ≠ "__proto__") o →
  fold_left addFile (listing o) acc = acc ++ o.
Proof.
  revert acc. induction o as [|[k v] o IH]; intros acc Hnd Hvalid; simpl.
  - by rewrite app_nil_r.
  - apply Forall_cons in Hvalid as [(Hk & Hv & Hproto) Hvalid]. simpl in *.
    rewrite (addFile_stores acc _ k v) by done.
    rewrite put_fresh.
    + rewrite IH; [by rewrite <-app_assoc|by rewrite <-app_assoc|done].
    + rewrite fmap_app in Hnd. simpl in Hnd.
      apply NoDup_app in Hnd as (_ & Hdisj & _).
      intros Hin. apply (Hdisj k Hin). by left.
Qed.

Lemma filesDictionary_well_formed fs : well_formed (filesDictionary fs).
Proof.
  split; [apply filesDictionary_NoDup|].
  apply Forall_forall. intros [k v] Hin.
  by apply elem_of_filesDictionary in Hin
    as (pre & file & post & _ & (_ & _ & Hk & Hv & Hproto) & _).
Qed.

(** X7.  A dictionary built from an answer is well formed, and building a
    dictionary from the listing of a well-formed dictionary gives that
    dictionary back, order included; so a modification whose answer lists
    the existing files as they are returns the existing project with only
    [dependencies], [explanation] and [build_commands] replaced. *)
Theorem listing_round_trip (o : JsObject.t) :
  (∀ fs, well_formed (filesDictionary fs)) ∧
  (well_formed o → filesDictionary (listing o) = o) ∧
  (∀ prompt existingProject deps text commands fresh_id,
     well_formed o → o ≠ JsObject.empty →
     GeneratedProject.files existingProject = o →
     modifyProject prompt existingProject
       (Json {| files := Some (listing o); dependencies := deps;
                explanation := text; build_commands := commands |}) fresh_id
     = Return
         {| GeneratedProject.id := GeneratedProject.id existingProject;
            GeneratedProject.name := GeneratedProject.name existingProject;
            GeneratedProject.prompt := GeneratedProject.prompt existingProject;
            GeneratedProject.framework := GeneratedProject.framework existingProject;
            GeneratedProject.files := GeneratedProject.files existingProject;
            GeneratedProject.dependencies := deps;
            GeneratedProject.explanation := text;
            GeneratedProject.build_commands := commands |}).
Proof.
  assert (well_formed o → filesDictionary (listing o) = o) as Hround.
  { intros [Hnd Hvalid]. unfold filesDictionary.
    by rewrite fold_addFile_listing. }
  split; [apply filesDictionary_well_formed|]. split; [done|].
  intros prompt existingProject deps text commands fresh_id Hwf Hne Hfiles.
  unfold modifyProject.
  match goal with
  | |- context [callGenerativeModel ?r ?i ?p ?f] =>
      destruct (callGenerativeModel r i p f) as [core|m] eqn:Hcall
  end.
  - apply callGenerativeModel_Return in Hcall
      as (raw & fs & [= <-] & [= <-] & _ & ->). simpl.
    by rewrite Hround, Hfiles.
  - exfalso.
    assert (∃ project,
              callGenerativeModel
                (Json {| files := Some (listing o); dependencies := deps;
                         explanation := text; build_commands := commands |})
                fresh_id (GeneratedProject.prompt existingProject)
                (GeneratedProject.framework existingProject) = Return project)
      as [project Hret]; [|congruence].
    eexists. apply callGenerativeModel_Return. do 2 eexists.
    repeat split. simpl. by rewrite Hround.
Qed.

Lemma listing_round_trip_witness :
  let o := GeneratedProject.files Sample.generated in
  filesDictionary (listing o) = o.
Proof.
  intros o.
  refine (proj1 (proj2 (listing_round_trip o)) _).
  exact (proj1 (listing_round_trip o) Sample.blogFiles).
Defined.

End GeminiOutcomes.

Section Revisions.

Import GeminiService.

(** X8.  The two revisions of the generation client accept the same answers:
    on every answer both return or both throw; when they return they agree on
    [files], [dependencies], [explanation] and [build_commands], and when they
    throw they throw the same message.  For a modification the earlier
    revision returns what it returns for a generation, whatever the existing
    project is. *)
Theorem revisions_agree prompt framework features reply fresh_id :
  match GeminiServiceV1.generateProject prompt framework features reply,
        generateProject prompt framework features reply fresh_id with
  | Return old, Return new =>
      GeminiServiceV1.files old = GeneratedProject.files new ∧
      GeminiServiceV1.dependencies old = GeneratedProject.dependencies new ∧
      GeminiServiceV1.explanation old = GeneratedProject.explanation new ∧
      GeminiServiceV1.build_commands old = GeneratedProject.build_commands new
  | Throw old, Throw new => old = new
  | _, _ => False
  end ∧
  (∀ instruction existing earlier,
     match GeminiServiceV1.modifyProject instruction earlier reply,
           modifyProject instruction existing reply fresh_id with
     | Return old, Return new =>
         GeminiServiceV1.generateProject prompt framework features reply = Return old ∧
         GeminiServiceV1.files old = GeneratedProject.files new ∧
         GeminiServiceV1.dependencies old = GeneratedProject.dependencies new ∧
         GeminiServiceV1.explanation old = GeneratedProject.explanation new ∧
         GeminiServiceV1.build_commands old = GeneratedProject.build_commands new
     | Throw old, Throw new => old = new
     | _, _ => False
     end).
Proof.
  unfold GeminiServiceV1.generateProject, GeminiServiceV1.modifyProject,
    generateProject, modifyProject,
    GeminiServiceV1.callGenerativeModel, callGenerativeModel.
  destruct reply as [m|m|raw]; [done|done|].
  destruct (files raw) as [fs|]; [|done]. simpl.
  by case_bool_decide.
Qed.

Lemma fmap_fst_put (o : JsObject.t) k v :
  (JsObject.put o k v).*1 = if decide (k ∈ o.*1) then o.*1 else o.*1 ++ [k].
Proof.
  destruct (decide (k ∈ o.*1)) as [Hin|Hout].
  - induction o as [|[k' v'] o IH]; [by apply elem_of_nil in Hin|].
    cbn [JsObject.put]. destruct (decide (k' = k)) as [->|Hk]; [done|].
    rewrite !fmap_cons, IH; [done|].
    rewrite fmap_cons in Hin. by apply elem_of_cons in Hin as [->|Hin].
  - by rewrite put_fresh, fmap_app.
Qed.

Lemma elem_of_first_occurrences l x : x ∈ first_occurrences l ↔ x ∈ l.
Proof.
  unfold first_occurrences.
  by rewrite elem_of_reverse, elem_of_remove_dups, elem_of_reverse.
Qed.

Lemma first_occurrences_snoc l x :
  first_occurrences (l ++ [x]) =
  if decide (x ∈ l) then first_occurrences l else first_occurrences l ++ [x].
Proof.
  unfold first_occurrences. rewrite reverse_snoc. simpl.
  destruct (decide_rel elem_of x (reverse l)) as [Hin|Hout].
  - rewrite decide_True; [done|]. by apply elem_of_reverse.
  - rewrite decide_False; [by rewrite reverse_cons|].
    by rewrite <-elem_of_reverse.
Qed.

End Revisions.

(** ** The workspace controller: configuration *)

Section Configuration.

Import AppComponent.

Lemma includes_true l x : includes l x = true ↔ x ∈ l.
Proof. unfold includes. by rewrite bool_decide_eq_true. Qed.

Lemma includes_false l x : includes l x = false ↔ x ∉ l.
Proof. unfold includes. by rewrite bool_decide_eq_false. Qed.

Lemma elem_of_List_filter {A} (f : A → bool) (l : list A) x :
  x ∈ List.filter f l ↔ x ∈ l ∧ f x = true.
Proof. by rewrite !list_elem_of_In, filter_In. Qed.

Lemma filter_all {A} (f : A → bool) (l : list A) :
  (∀ x, x ∈ l → f x = true) → List.filter f l = l.
Proof.
  induction l as [|x l IH]; intros Hall; simpl; [done|].
  rewrite Hall by by left. rewrite IH; [done|]. intros y Hy. apply Hall. by right.
Qed.

(** X10.  Toggling a feature flips whether that feature is selected and
    leaves the selection of every other feature as it is; a selection
    without repetitions stays without repetitions; and toggling twice a
    feature that was not selected gives back the list of selected features,
    order included. *)
Theorem toggleFeature_flips_selection featureId other st :
  isFeatureSelected featureId (toggleFeature featureId st)
  = negb (isFeatureSelected featureId st) ∧
  (other ≠ featureId →
   isFeatureSelected other (toggleFeature featureId st) = isFeatureSelected other st) ∧
  (NoDup (selectedFeatures st) →
   NoDup (selectedFeatures (toggleFeature featureId st))) ∧
  (isFeatureSelected featureId st = false →
   selectedFeatures (toggleFeature featureId (toggleFeature featureId st))
   = selectedFeatures st).
Proof.
  unfold isFeatureSelected, toggleFeature. simpl.
  destruct (includes (selectedFeatures st) featureId) eqn:Hsel; simpl.
  - split; [|split; [|split; [|done]]].
    + apply includes_false. rewrite elem_of_List_filter, bool_decide_eq_true. tauto.
    + intros Hother. apply bool_decide_ext.
      rewrite elem_of_List_filter, bool_decide_eq_true. tauto.
    + intros Hnd. eapply sublist_NoDup; [done|apply filter_sublist].
  - apply includes_false in Hsel.
    split; [|split; [|split]].
    + apply includes_true, elem_of_app. right. by left.
    + intros Hother. apply bool_decide_ext.
      rewrite elem_of_app, list_elem_of_singleton. tauto.
    + intros Hnd. apply NoDup_app. split; [done|]. split; [|apply NoDup_singleton].
      by intros x Hx ->%list_elem_of_singleton.
    + intros _. rewrite (proj2 (includes_true _ _)); [|apply elem_of_app; right; by left].
      rewrite List.filter_app. simpl. rewrite bool_decide_eq_false_2 by tauto.
      rewrite app_nil_r. apply filter_all. intros x Hx.
      apply bool_decide_eq_true. by intros ->.
Qed.

Lemma toggleFeature_flips_selection_witness :
  let st := toggleFeature "jwt" initial in
  NoDup (selectedFeatures st) ∧
  selectedFeatures (toggleFeature "docker" (toggleFeature "docker" st)) = ["jwt"].
Proof.
  intros st.
  destruct (toggleFeature_flips_selection "docker" "jwt" st) as (_ & _ & _ & Htwice).
  destruct (toggleFeature_flips_selection "jwt" "docker" initial) as (_ & _ & Hnd & _).
  split; [apply Hnd; constructor|].
  rewrite Htwice; reflexivity.
Defined.

(** X11.  Starting the new-project flow and setting the state to
    [configuring] give the same signals.  Afterwards the generate action and
    the modification request are both disabled; the reset keeps the error
    message, the selected files and the in-flight flag as they are. *)
Theorem new_project_flow_resets st :
  startNewProjectFlow st = setAppState configuring st ∧
  handleGenerateProject (startNewProjectFlow st) = (startNewProjectFlow st, None) ∧
  handleModificationRequest (startNewProjectFlow st) = (startNewProjectFlow st, None) ∧
  activeProject (startNewProjectFlow st) = None ∧
  chatHistory (startNewProjectFlow st) = [] ∧
  errorMessage (startNewProjectFlow st) = errorMessage st ∧
  selectedFile (startNewProjectFlow st) = selectedFile st ∧
  selectedPreviewFile (startNewProjectFlow st) = selectedPreviewFile st ∧
  assistantPrompt (startNewProjectFlow st) = assistantPrompt st ∧
  isModifying (startNewProjectFlow st) = isModifying st.
Proof.
  split; [done|]. split.
  { unfold handleGenerateProject.
    assert (isGenerationDisabled (startNewProjectFlow st) = true) as ->; [|done].
    unfold isGenerationDisabled. apply orb_true_iff. right.
    by apply bool_decide_eq_true. }
  split.
  { unfold handleModificationRequest. destruct (negb _); [done|].
    by rewrite bool_decide_eq_true_2 by done. }
  done.
Qed.

Lemma runAgentSimulation_start st :
  runAgentSimulation 0 st =
  addAgentLog
    (agent "team_leader" "Team Leader" "Project Manager" "from-yellow-500 to-orange-500")
    "Analyzing project requirements..." (set_activeAgents ["team_leader"] st).
Proof. reflexivity. Qed.

Lemma catalog_NoDup : NoDup (concat (AVAILABLE_FEATURES.*2)).
Proof.
  apply (NoDup_fmap_1 Feature.id).
  apply (bool_decide_unpack _). vm_compute. exact I.
Qed.

(** X12.  When the generate action makes a call, the call carries the prompt
    as typed (not trimmed), the selected framework, and the catalog features
    whose id is selected, each once and in catalog order whatever the order
    of selection; the component is then in the [generating] state with the
    first line of the agent log alone. *)
Theorem handleGenerateProject_call st st' call :
  handleGenerateProject st = (st', Some call) →
  GenerateCall.prompt call = prompt st ∧
  10 ≤ String.length (JsString.trim (prompt st)) ∧
  selectedFramework st = Some (GenerateCall.framework call) ∧
  GenerateCall.features call `sublist_of` concat (AVAILABLE_FEATURES.*2) ∧
  NoDup (GenerateCall.features call) ∧
  (∀ f, f ∈ GenerateCall.features call ↔
        f ∈ concat (AVAILABLE_FEATURES.*2) ∧ Feature.id f ∈ selectedFeatures st) ∧
  appState st' = generating ∧
  activeAgents st' = ["team_leader"] ∧
  (snd <$> agentLogs st') = ["Analyzing project requirements..."].
Proof.
  unfold handleGenerateProject.
  generalize catalog_NoDup.
  generalize (concat (AVAILABLE_FEATURES.*2)). intros catalog Hcatalog.
  destruct (isGenerationDisabled st) eqn:Hdisabled; [done|].
  unfold isGenerationDisabled in Hdisabled.
  apply orb_false_iff in Hdisabled
    as [Hlen%bool_decide_eq_false Hfw%bool_decide_eq_false].
  rewrite runAgentSimulation_start.
  change (selectedFramework (addAgentLog _ _ (set_activeAgents _ _)))
    with (selectedFramework st).
  destruct (selectedFramework st) as [framework|] eqn:Hsel; [|done].
  intros [= <- <-].
  split; [done|]. split; [lia|]. split; [done|].
  split; [apply filter_sublist|].
  split; [eapply sublist_NoDup; [apply Hcatalog|apply filter_sublist]|].
  split; [|done].
  intros f. cbn [GenerateCall.features].
  rewrite elem_of_List_filter, includes_true. tauto.
Qed.

Lemma handleGenerateProject_call_witness :
  let st :=
    toggleFeature "jwt" (toggleFeature "docker"
      (selectFramework Sample.mvc (set_prompt Sample.blogPrompt initial))) in
  ∃ st' call,
    handleGenerateProject st = (st', Some call) ∧
    Feature.id <$> GenerateCall.features call = ["jwt"; "docker"] ∧
    GenerateCall.prompt call = prompt st.
Proof.
  intros st. eexists _, _. split; [reflexivity|]. split; [reflexivity|].
  eapply handleGenerateProject_call. reflexivity.
Defined.

End Configuration.

(** ** The workspace controller: settled calls *)

Section SettledCalls.

Import System.

Lemma getProject_saved ls projects project :
  ProjectHistoryService.getProjects ls = LocalStorage.JsonArray projects →
  ProjectHistoryService.getProject (GeneratedProject.id project)
    (ProjectHistoryService.saveProject project ls) = Return (Some project).
Proof.
  intros Hget. unfold ProjectHistoryService.getProject, ProjectHistoryService.saveProject.
  rewrite Hget, getProjects_setProjects.
  fold (has_id (GeneratedProject.id project)).
  by rewrite find_upsert, decide_True.
Qed.

Lemma getProjects_saved ls projects project :
  ProjectHistoryService.getProjects ls = LocalStorage.JsonArray projects →
  ProjectHistoryService.getProjects (ProjectHistoryService.saveProject project ls)
  = LocalStorage.JsonArray (ProjectHistoryService.upsert project projects).
Proof.
  intros Hget. unfold ProjectHistoryService.saveProject. by rewrite Hget.
Qed.

(** X13.  When a generation call returns a project, the component stores it
    and shows it: on a store that holds a list (an unreadable store counts as
    the empty list) a lookup of the new id finds the project, the history
    signal is the stored list, with the project in front when its id is new;
    the state is [completed], the chat is the one greeting, no agent is
    active; the error message and the in-flight flag of modifications are
    untouched. *)
Theorem successful_generation_is_persisted
    (s : System.t) i call reply fresh_id project projects :
  generating s !! i = Some call →
  GeminiService.generateProject
    (AppComponent.GenerateCall.prompt call)
    (AppComponent.GenerateCall.framework call)
    (AppComponent.GenerateCall.features call) reply fresh_id = Return project →
  ProjectHistoryService.getProjects (localStorage s) = LocalStorage.JsonArray projects →
  let s' := step (GenerateSettled i reply fresh_id) s in
  GeneratedProject.id project = fresh_id ∧
  GeneratedProject.prompt project = AppComponent.GenerateCall.prompt call ∧
  GeneratedProject.framework project = AppComponent.GenerateCall.framework call ∧
  AppComponent.appState (app s') = completed ∧
  AppComponent.activeProject (app s') = Some project ∧
  ProjectHistoryService.getProject fresh_id (localStorage s') = Return (Some project) ∧
  AppComponent.projectHistory (app s')
  = ProjectHistoryService.getProjects (localStorage s') ∧
  (fresh_id ∉ GeneratedProject.id <$> projects →
   AppComponent.projectHistory (app s') = LocalStorage.JsonArray (project :: projects)) ∧
  AppComponent.chatHistory (app s') =
    [ {| ChatMessage.role := ChatMessage.assistant;
         ChatMessage.content :=
           "Your project is ready! I'm your code assistant. Ask me to make changes or add features." |} ] ∧
  AppComponent.activeAgents (app s') = [] ∧
  AppComponent.activeWorkspaceTab (app s') = WorkspaceTab.assistant ∧
  generating s' = delete i (generating s) ∧
  AppComponent.errorMessage (app s') = AppComponent.errorMessage (app s) ∧
  AppComponent.isModifying (app s') = AppComponent.isModifying (app s).
Proof.
  intros Hi Hgen Hstore s'.
  pose proof (generateProject_Return _ _ _ _ _ _ Hgen) as Hcall.
  apply callGenerativeModel_Return in Hcall as (raw & fs & _ & _ & _ & Hproject).
  assert (GeneratedProject.id project = fresh_id) as Hid by by rewrite Hproject.
  split; [done|]. split; [by rewrite Hproject|]. split; [by rewrite Hproject|].
  clear Hproject.
  subst s'. unfold step. rewrite Hi, Hgen.
  unfold AppComponent.handleGenerateProject_settled.
  destruct (AppComponent.getAgentById "team_leader");
    (split; [done|]); (split; [done|]);
    (split; [rewrite <-Hid; exact (getProject_saved _ _ _ Hstore)|]);
    (split; [done|]);
    (split; [|done]);
    intros Hnew;
    change (ProjectHistoryService.getProjects
              (ProjectHistoryService.saveProject project (localStorage s))
            = LocalStorage.JsonArray (project :: projects));
    rewrite (getProjects_saved _ _ _ Hstore);
    f_equal; apply upsert_absent;
    intros q Hq Hsame; apply Hnew; rewrite <-Hid, <-Hsame;
    by apply list_elem_of_fmap_2.
Qed.

Lemma successful_generation_is_persisted_witness :
  let s :=
    run [ StartNewProjectFlow; InputPrompt Sample.blogPrompt;
          SelectFramework Sample.mvc; HandleGenerateProject ]
      (boot Sample.emptyStorage) in
  let call :=
    {| AppComponent.GenerateCall.prompt := Sample.blogPrompt;
       AppComponent.GenerateCall.framework := Sample.mvc;
       AppComponent.GenerateCall.features := [] |} in
  let s' := step (GenerateSettled 0 Sample.blogAnswer "id") s in
  generating s !! 0 = Some call ∧
  ProjectHistoryService.getProject "id" (localStorage s') = Return (Some Sample.generated) ∧
  AppComponent.projectHistory (app s') = LocalStorage.JsonArray [Sample.generated].
Proof.
  intros s call s'.
  assert (generating s !! 0 = Some call) as Hcall by (vm_compute; reflexivity).
  assert (ProjectHistoryService.getProjects (localStorage s) = LocalStorage.JsonArray [])
    as Hstore by (vm_compute; reflexivity).
  split; [exact Hcall|].
  destruct (successful_generation_is_persisted s 0 call Sample.blogAnswer "id"
              Sample.generated [] Hcall eq_refl Hstore)
    as (_ & _ & _ & _ & _ & Hlookup & _ & Hhistory & _).
  split; [exact Hlookup|]. apply Hhistory. apply not_elem_of_nil.
Defined.

(** X14.  When a generation call fails, the component goes to the [error]
    state with the fixed message of the client as error message and no
    active agent; the active project, the history, the chat and the store
    are what they were. *)
Theorem failed_generation_shows_error (s : System.t) i call reply fresh_id message :
  generating s !! i = Some call →
  GeminiService.generateProject
    (AppComponent.GenerateCall.prompt call)
    (AppComponent.GenerateCall.framework call)
    (AppComponent.GenerateCall.features call) reply fresh_id = Throw message →
  let s' := step (GenerateSettled i reply fresh_id) s in
  AppComponent.appState (app s') = error ∧
  AppComponent.errorMessage (app s') =
    "Failed to generate project. The AI model may be overloaded or the request was invalid. Please check your prompt and try again." ∧
  AppComponent.activeAgents (app s') = [] ∧
  AppComponent.activeProject (app s') = AppComponent.activeProject (app s) ∧
  AppComponent.projectHistory (app s') = AppComponent.projectHistory (app s) ∧
  AppComponent.chatHistory (app s') = AppComponent.chatHistory (app s) ∧
  AppComponent.agentLogs (app s') = AppComponent.agentLogs (app s) ∧
  localStorage s' = localStorage s ∧
  generating s' = delete i (generating s).
Proof.
  intros Hi Hthrow s'.
  assert (message = "Failed to generate project. The AI model may be overloaded or the request was invalid. Please check your prompt and try again.") as ->.
  { unfold GeminiService.generateProject in Hthrow.
    destruct (GeminiService.callGenerativeModel _ _ _ _); [done|].
    by injection Hthrow. }
  subst s'. unfold step. rewrite Hi, Hthrow.
  unfold AppComponent.handleGenerateProject_settled.
  repeat split.
Qed.

Lemma failed_generation_shows_error_witness :
  let s :=
    run [ StartNewProjectFlow; InputPrompt Sample.blogPrompt;
          SelectFramework Sample.mvc; HandleGenerateProject ]
      (boot Sample.emptyStorage) in
  let call :=
    {| AppComponent.GenerateCall.prompt := Sample.blogPrompt;
       AppComponent.GenerateCall.framework := Sample.mvc;
       AppComponent.GenerateCall.features := [] |} in
  let s' := step (GenerateSettled 0 Sample.hollowAnswer "id") s in
  generating s !! 0 = Some call ∧
  AppComponent.appState (app s') = error ∧
  localStorage s' = localStorage s.
Proof.
  intros s call s'.
  assert (generating s !! 0 = Some call) as Hcall by (vm_compute; reflexivity).
  split; [exact Hcall|].
  destruct (failed_generation_shows_error s 0 call Sample.hollowAnswer "id"
              "Failed to generate project. The AI model may be overloaded or the request was invalid. Please check your prompt and try again."
              Hcall eq_refl)
    as (Hstate & _ & _ & _ & _ & _ & _ & Hstore & _).
  split; [exact Hstate|exact Hstore].
Defined.

End SettledCalls.

Section SettledModification.

Import System.

(** What the success branch of the modification does to the preview
    selection. *)
Lemma revalidated_preview updatedProject ls st :
  let st' :=
    (AppComponent.handleModificationRequest_settled (Return updatedProject) ls st).1 in
  let previewable :=
    List.filter AppComponent.isPreviewable
      (JsObject.keys (GeneratedProject.files updatedProject)) in
  AppComponent.previewableFiles st' = previewable ∧
  (∀ p, AppComponent.selectedPreviewFile st' = Some p → p ≠ "" → p ∈ previewable) ∧
  (∀ p, AppComponent.selectedPreviewFile st = Some p → p ∈ previewable →
        AppComponent.selectedPreviewFile st' = Some p) ∧
  (∀ p, AppComponent.selectedPreviewFile st = Some p → p ≠ "" → p ∉ previewable →
        AppComponent.selectedPreviewFile st' = head previewable).
Proof.
  intros st' previewable. subst st'.
  unfold AppComponent.handleModificationRequest_settled.
  set (st1 := AppComponent.say _ _ _).
  assert (AppComponent.previewableFiles st1 = previewable) as Hprev by done.
  assert (AppComponent.selectedPreviewFile st1 = AppComponent.selectedPreviewFile st)
    as Hsel by done.
  assert (Forall (λ k, k ≠ "") previewable) as Hnonempty.
  { apply Forall_forall. intros k [_ Hk]%elem_of_List_filter.
    by apply isPreviewable_nonempty. }
  rewrite Hsel, Hprev.
  destruct (AppComponent.selectedPreviewFile st) as [p|] eqn:Hp; simpl.
  - destruct (JsString.truthy p) eqn:Htruthy.
    + apply truthy_true in Htruthy.
      destruct (AppComponent.includes previewable p) eqn:Hinc; simpl.
      * apply includes_true in Hinc. rewrite ?Hsel, ?Hp.
        split; [done|]. split; [by intros q [= <-]|].
        split; [by intros q [= <-]|]. by intros q [= <-].
      * apply includes_false in Hinc. rewrite or_null_head by done.
        split; [done|]. split.
        { intros q Hq _. by apply head_Some_elem_of. }
        split; [by intros q [= <-]|]. done.
    + rewrite ?Hsel, ?Hp. apply Bool.not_true_iff_false in Htruthy.
      rewrite truthy_true in Htruthy. apply dec_stable in Htruthy. subst p.
      split; [done|]. split; [by intros q [= <-]|].
      split; [done|]. by intros q [= <-].
  - rewrite ?Hsel, ?Hp. repeat split; done.
Qed.

(** X15.  When a modification call returns, the returned project becomes the
    active project and is stored under the id of the project the request
    was made for: a lookup of that id finds it, and when the store already
    held that id the stored list keeps its ids, in order, so no entry is
    added.  The chat gets one more assistant message, built from the
    explanation when there is one; the in-flight flag is cleared; the error
    message and the state are untouched.  A non-empty preview selection is
    kept when it is still previewable and otherwise falls back to the first
    previewable file or to none. *)
Theorem successful_modification_is_persisted
    (s : System.t) i call reply fresh_id updatedProject projects :
  modifying s !! i = Some call →
  GeminiService.modifyProject
    (AppComponent.ModifyCall.userPrompt call)
    (AppComponent.ModifyCall.currentProject call) reply fresh_id
  = Return updatedProject →
  ProjectHistoryService.getProjects (localStorage s) = LocalStorage.JsonArray projects →
  let s' := step (ModifySettled i reply fresh_id) s in
  let previewable :=
    List.filter AppComponent.isPreviewable
      (JsObject.keys (GeneratedProject.files updatedProject)) in
  GeneratedProject.id updatedProject
  = GeneratedProject.id (AppComponent.ModifyCall.currentProject call) ∧
  AppComponent.activeProject (app s') = Some updatedProject ∧
  ProjectHistoryService.getProject (GeneratedProject.id updatedProject) (localStorage s')
  = Return (Some updatedProject) ∧
  AppComponent.projectHistory (app s')
  = ProjectHistoryService.getProjects (localStorage s') ∧
  (GeneratedProject.id updatedProject ∈ GeneratedProject.id <$> projects →
   ∃ projects',
     ProjectHistoryService.getProjects (localStorage s') = LocalStorage.JsonArray projects' ∧
     GeneratedProject.id <$> projects' = GeneratedProject.id <$> projects) ∧
  AppComponent.chatHistory (app s') =
    AppComponent.chatHistory (app s) ++
      [ {| ChatMessage.role := ChatMessage.assistant;
           ChatMessage.content :=
             if decide (GeneratedProject.explanation updatedProject = "")
             then "I've updated the project based on your request. Please review the changes."
             else "I've updated the project: "
                    +:+ GeneratedProject.explanation updatedProject |} ] ∧
  AppComponent.isModifying (app s') = false ∧
  AppComponent.errorMessage (app s') = AppComponent.errorMessage (app s) ∧
  AppComponent.appState (app s') = AppComponent.appState (app s) ∧
  (∀ p, AppComponent.selectedPreviewFile (app s') = Some p → p ≠ "" → p ∈ previewable) ∧
  (∀ p, AppComponent.selectedPreviewFile (app s) = Some p → p ∈ previewable →
        AppComponent.selectedPreviewFile (app s') = Some p) ∧
  (∀ p, AppComponent.selectedPreviewFile (app s) = Some p → p ≠ "" → p ∉ previewable →
        AppComponent.selectedPreviewFile (app s') = head previewable).
Proof.
  intros Hi Hmod Hstore s' previewable.
  assert (GeneratedProject.id updatedProject
          = GeneratedProject.id (AppComponent.ModifyCall.currentProject call)) as Hid.
  { unfold GeminiService.modifyProject in Hmod.
    destruct (GeminiService.callGenerativeModel _ _ _ _); [|done].
    by injection Hmod as <-. }
  split; [done|].
  destruct (revalidated_preview updatedProject (localStorage s) (app s))
    as (_ & Hvalid & Hkept & Hfallback).
  assert (app s' =
          (AppComponent.handleModificationRequest_settled (Return updatedProject)
             (localStorage s) (app s)).1) as Happ.
  { subst s'. unfold step. rewrite Hi, Hmod.
    by destruct (AppComponent.handleModificationRequest_settled _ _ _). }
  assert (localStorage s' =
          ProjectHistoryService.saveProject updatedProject (localStorage s)) as Hls.
  { subst s'. unfold step. rewrite Hi, Hmod.
    unfold AppComponent.handleModificationRequest_settled.
    by destruct (AppComponent.or_null _); [destruct (negb _)|]. }
  rewrite Happ, Hls. clear Happ Hls.
  split.
  { unfold AppComponent.handleModificationRequest_settled.
    by destruct (AppComponent.or_null _); [destruct (negb _)|]. }
  split; [by apply (getProject_saved _ projects)|].
  split.
  { unfold AppComponent.handleModificationRequest_settled.
    by destruct (AppComponent.or_null _); [destruct (negb _)|]. }
  split.
  { intros Hknown. rewrite (getProjects_saved _ _ _ Hstore). eexists. split; [done|].
    destruct (upsert_ids updatedProject projects) as [[Hids _]|[_ Hnew]]; done. }
  split.
  { unfold AppComponent.handleModificationRequest_settled.
    assert (∀ text,
              (if JsString.truthy text
               then "I've updated the project: " +:+ text
               else "I've updated the project based on your request. Please review the changes.")
              = (if decide (text = "")
                 then "I've updated the project based on your request. Please review the changes."
                 else "I've updated the project: " +:+ text)) as ->.
    { intros text. unfold JsString.truthy.
      case_bool_decide; case_decide; done. }
    by destruct (AppComponent.or_null _); [destruct (negb _)|]. }
  split; [apply handleModificationRequest_settled_isModifying|].
  split.
  { unfold AppComponent.handleModificationRequest_settled.
    by destruct (AppComponent.or_null _); [destruct (negb _)|]. }
  split.
  { unfold AppComponent.handleModificationRequest_settled.
    by destruct (AppComponent.or_null _); [destruct (negb _)|]. }
  done.
Qed.

Lemma successful_modification_is_persisted_witness :
  let s :=
    run [ StartNewProjectFlow; InputPrompt Sample.blogPrompt;
          SelectFramework Sample.mvc; HandleGenerateProject;
          GenerateSettled 0 Sample.blogAnswer "id";
          InputAssistantPrompt "add a readme"; HandleModificationRequest ]
      (boot Sample.emptyStorage) in
  let call :=
    {| AppComponent.ModifyCall.userPrompt := "add a readme";
       AppComponent.ModifyCall.currentProject := Sample.generated |} in
  let reply := Sample.answer [Sample.file "README.md" "# Blog"] "Added a readme." in
  let updated :=
    {| GeneratedProject.id := "id";
       GeneratedProject.name := Sample.blogPrompt;
       GeneratedProject.prompt := Sample.blogPrompt;
       GeneratedProject.framework := Sample.mvc;
       GeneratedProject.files := [("README.md", "# Blog")];
       GeneratedProject.dependencies := ["Microsoft.EntityFrameworkCore"];
       GeneratedProject.explanation := "Added a readme.";
       GeneratedProject.build_commands := ["dotnet restore"; "dotnet run"] |} in
  let s' := step (ModifySettled 0 reply "id2") s in
  modifying s !! 0 = Some call ∧
  AppComponent.selectedPreviewFile (app s) = Some "Views/Home/Index.cshtml" ∧
  AppComponent.selectedPreviewFile (app s') = None ∧
  AppComponent.isModifying (app s') = false.
Proof.
  intros s call reply updated s'.
  assert (modifying s !! 0 = Some call) as Hcall by (vm_compute; reflexivity).
  assert (ProjectHistoryService.getProjects (localStorage s)
          = LocalStorage.JsonArray [Sample.generated])
    as Hstore by (vm_compute; reflexivity).
  assert (AppComponent.selectedPreviewFile (app s) = Some "Views/Home/Index.cshtml")
    as Hselected by (vm_compute; reflexivity).
  assert ("Views/Home/Index.cshtml"
          ∉ List.filter AppComponent.isPreviewable
              (JsObject.keys (GeneratedProject.files updated))) as Hgone.
  { vm_compute. intros Hin. inversion Hin. }
  split; [exact Hcall|]. split; [exact Hselected|].
  destruct (successful_modification_is_persisted s 0 call reply "id2" updated
              [Sample.generated] Hcall eq_refl Hstore)
    as (_ & _ & _ & _ & _ & _ & Hflag & _ & _ & _ & _ & Hfallback).
  split; [|exact Hflag].
  refine (eq_trans (Hfallback _ Hselected _ Hgone) eq_refl). discriminate.
Defined.

End SettledModification.

(** ** The workspace controller: history, guards and the store *)

Section HistoryInTheWorkspace.

Import System.

Lemma getProject_deleted ls projects pid :
  ProjectHistoryService.getProjects ls = LocalStorage.JsonArray projects →
  ProjectHistoryService.getProject pid (ProjectHistoryService.deleteProject pid ls)
  = Return None.
Proof.
  intros Hget.
  unfold ProjectHistoryService.getProject, ProjectHistoryService.deleteProject.
  rewrite Hget, getProjects_setProjects. fold (has_id pid).
  by rewrite find_filter_other_ids, decide_True.
Qed.

(** X16.  On a store that holds a list of projects: loading an id that no
    entry has changes nothing, and so does loading an id right after
    deleting it; loading the id of a project right after saving it makes
    that project active in the [completed] state, with the chat reset to
    one greeting that quotes the name of the project, the first key of its
    files selected and the first previewable key selected for preview. *)
Theorem loadProject_opens_what_is_stored projectId ls st projects :
  ProjectHistoryService.getProjects ls = LocalStorage.JsonArray projects →
  ((∀ q, q ∈ projects → GeneratedProject.id q ≠ projectId) →
   AppComponent.loadProject projectId ls st = st) ∧
  AppComponent.loadProject projectId
    (ProjectHistoryService.deleteProject projectId ls) st = st ∧
  (∀ project,
     let st' :=
       AppComponent.loadProject (GeneratedProject.id project)
         (ProjectHistoryService.saveProject project ls) st in
     AppComponent.activeProject st' = Some project ∧
     AppComponent.appState st' = completed ∧
     AppComponent.chatHistory st' =
       [ {| ChatMessage.role := ChatMessage.assistant;
            ChatMessage.content :=
              "Loaded project " +:+ JsString.dquote +:+ GeneratedProject.name project
                +:+ JsString.dquote +:+ ". How can I help you modify it?" |} ] ∧
     AppComponent.selectedFile st'
     = AppComponent.or_null (head (JsObject.keys (GeneratedProject.files project))) ∧
     AppComponent.selectedPreviewFile st'
     = AppComponent.or_null
         (head (List.filter AppComponent.isPreviewable
                  (JsObject.keys (GeneratedProject.files project)))) ∧
     AppComponent.activeWorkspaceTab st' = WorkspaceTab.assistant).
Proof.
  intros Hget. split; [|split].
  - intros Hnone. unfold AppComponent.loadProject, ProjectHistoryService.getProject.
    rewrite Hget.
    rewrite (proj2 (find_none_iff _ projects)); [done|].
    intros q Hq. apply bool_decide_eq_false. by apply Hnone.
  - unfold AppComponent.loadProject. by rewrite (getProject_deleted _ projects).
  - intros project st'. subst st'. unfold AppComponent.loadProject.
    by rewrite (getProject_saved _ projects).
Qed.

Lemma loadProject_opens_what_is_stored_witness :
  let ls := ProjectHistoryService.saveProject Sample.blog Sample.emptyStorage in
  ProjectHistoryService.getProjects ls = LocalStorage.JsonArray [Sample.blog] ∧
  AppComponent.loadProject "missing" ls AppComponent.initial = AppComponent.initial ∧
  AppComponent.activeProject
    (AppComponent.loadProject (GeneratedProject.id Sample.generated)
       (ProjectHistoryService.saveProject Sample.generated ls) AppComponent.initial)
  = Some Sample.generated.
Proof.
  intros ls. split; [reflexivity|].
  destruct (loadProject_opens_what_is_stored "missing" ls AppComponent.initial
              [Sample.blog] eq_refl) as (Hmissing & _ & Hsaved).
  split.
  - apply Hmissing. intros q ->%list_elem_of_singleton. discriminate.
  - exact (proj1 (Hsaved Sample.generated)).
Defined.

Lemma deleteProject_storage projectId ls st :
  (AppComponent.deleteProject projectId ls st).2
  = ProjectHistoryService.deleteProject projectId ls.
Proof.
  unfold AppComponent.deleteProject.
  by destruct (match AppComponent.activeProject _ with Some _ => _ | None => _ end).
Qed.

Lemma handleGenerateProject_settled_storage result ls st :
  (AppComponent.handleGenerateProject_settled result ls st).2 =
  match result with
  | Return project => ProjectHistoryService.saveProject project ls
  | Throw _ => ls
  end.
Proof.
  unfold AppComponent.handleGenerateProject_settled.
  by destruct result.
Qed.

Lemma handleModificationRequest_settled_storage result ls st :
  (AppComponent.handleModificationRequest_settled result ls st).2 =
  match result with
  | Return project => ProjectHistoryService.saveProject project ls
  | Throw _ => ls
  end.
Proof.
  unfold AppComponent.handleModificationRequest_settled.
  destruct result as [project|message]; [|done].
  by destruct (AppComponent.or_null _); [destruct (negb _)|].
Qed.

Lemma saveProject_projects_other project ls :
  LocalStorage.projects ls = Some (LocalStorage.JsonText LocalStorage.JsonOther) →
  ProjectHistoryService.saveProject project ls = ls.
Proof.
  intros Hother. unfold ProjectHistoryService.saveProject,
    ProjectHistoryService.getProjects. by rewrite Hother.
Qed.

Lemma deleteProject_projects_other projectId ls :
  LocalStorage.projects ls = Some (LocalStorage.JsonText LocalStorage.JsonOther) →
  ProjectHistoryService.deleteProject projectId ls = ls.
Proof.
  intros Hother. unfold ProjectHistoryService.deleteProject,
    ProjectHistoryService.getProjects. by rewrite Hother.
Qed.

(** X18.  A stored value that parses but is not an array is never repaired:
    whatever happens next, the store holds the same value; saves and deletes
    are dropped without a sign, and loading any id leaves the workspace as
    it is. *)
Theorem non_array_store_is_never_repaired (e : Event) (s : System.t) :
  LocalStorage.projects (localStorage s)
  = Some (LocalStorage.JsonText LocalStorage.JsonOther) →
  LocalStorage.projects (localStorage (step e s))
  = Some (LocalStorage.JsonText LocalStorage.JsonOther) ∧
  (∀ project,
     ProjectHistoryService.saveProject project (localStorage s) = localStorage s) ∧
  (∀ projectId,
     ProjectHistoryService.deleteProject projectId (localStorage s) = localStorage s ∧
     AppComponent.loadProject projectId (localStorage s) (app s) = app s).
Proof.
  intros Hother.
  split; [|split].
  - destruct e; unfold step; try done.
    + pose proof (deleteProject_storage projectId (localStorage s) (app s)) as Hls.
      destruct (AppComponent.deleteProject _ _ _) as [a ls]. simpl in *. subst ls.
      by rewrite deleteProject_projects_other.
    + destruct (AppComponent.isGenerationDisabled _); [done|].
      by destruct (AppComponent.handleGenerateProject _).
    + destruct (generating s !! i) as [call|]; [|done].
      match goal with
      | |- context [AppComponent.handleGenerateProject_settled ?r ?ls ?st] =>
          pose proof (handleGenerateProject_settled_storage r ls st) as Hls;
          destruct (AppComponent.handleGenerateProject_settled r ls st) as [a ls'];
          destruct r
      end; simpl in *; subst ls'; [|done].
      by rewrite saveProject_projects_other.
    + by destruct (AppComponent.handleModificationRequest _).
    + destruct (modifying s !! i) as [call|]; [|done].
      match goal with
      | |- context [AppComponent.handleModificationRequest_settled ?r ?ls ?st] =>
          pose proof (handleModificationRequest_settled_storage r ls st) as Hls;
          destruct (AppComponent.handleModificationRequest_settled r ls st) as [a ls'];
          destruct r
      end; simpl in *; subst ls'; [|done].
      by rewrite saveProject_projects_other.
    + by destruct (simulations s !! i).
  - intros project. by apply saveProject_projects_other.
  - intros projectId. split; [by apply deleteProject_projects_other|].
    unfold AppComponent.loadProject, ProjectHistoryService.getProject,
      ProjectHistoryService.getProjects. by rewrite Hother.
Qed.

Lemma non_array_store_is_never_repaired_witness :
  let ls :=
    {| LocalStorage.theme := None;
       LocalStorage.projects := Some (LocalStorage.JsonText LocalStorage.JsonOther) |} in
  let s :=
    run [ StartNewProjectFlow; InputPrompt Sample.blogPrompt;
          SelectFramework Sample.mvc; HandleGenerateProject ] (boot ls) in
  LocalStorage.projects (localStorage s)
  = Some (LocalStorage.JsonText LocalStorage.JsonOther) ∧
  LocalStorage.projects
    (localStorage (step (GenerateSettled 0 Sample.blogAnswer "id") s))
  = Some (LocalStorage.JsonText LocalStorage.JsonOther).
Proof.
  intros ls s.
  assert (LocalStorage.projects (localStorage s)
          = Some (LocalStorage.JsonText LocalStorage.JsonOther)) as Hother
    by (vm_compute; reflexivity).
  split; [exact Hother|].
  exact (proj1 (non_array_store_is_never_repaired
                  (GenerateSettled 0 Sample.blogAnswer "id") s Hother)).
Defined.

End HistoryInTheWorkspace.

Section UnguardedGeneration.

Lemma handleGenerateProject_enabled st :
  AppComponent.isGenerationDisabled st = false →
  ∃ call st',
    AppComponent.handleGenerateProject st = (st', Some call) ∧
    AppComponent.appState st' = generating.
Proof.
  intros Henabled. unfold AppComponent.handleGenerateProject. rewrite Henabled.
  unfold AppComponent.isGenerationDisabled in Henabled.
  apply orb_false_iff in Henabled as [_ Hfw%bool_decide_eq_false].
  rewrite runAgentSimulation_start.
  change (AppComponent.selectedFramework
            (AppComponent.addAgentLog _ _ (AppComponent.set_activeAgents _ _)))
    with (AppComponent.selectedFramework st).
  destruct (AppComponent.selectedFramework st) as [framework|]; [|done].
  by eexists _, _.
Qed.

(** X17.  The generate action is guarded by the prompt and the framework
    only: whenever that guard passes it makes one more call and starts one
    more simulation, whatever the state and however many generation calls
    are in flight already. *)
Theorem generate_is_not_limited_to_one_call (s : System.t) :
  AppComponent.isGenerationDisabled (System.app s) = false →
  ∃ call,
    System.generating (System.step System.HandleGenerateProject s)
    = System.generating s ++ [call] ∧
    System.simulations (System.step System.HandleGenerateProject s)
    = System.simulations s ++ [1] ∧
    System.modifying (System.step System.HandleGenerateProject s)
    = System.modifying s ∧
    System.localStorage (System.step System.HandleGenerateProject s)
    = System.localStorage s ∧
    AppComponent.appState (System.app (System.step System.HandleGenerateProject s))
    = generating.
Proof.
  intros Henabled.
  destruct (handleGenerateProject_enabled _ Henabled) as (call & st' & Hcall & Hstate).
  exists call. unfold System.step. by rewrite Henabled, Hcall.
Qed.

Lemma generate_is_not_limited_to_one_call_witness :
  let s :=
    System.run
      [ System.StartNewProjectFlow; System.InputPrompt Sample.blogPrompt;
        System.SelectFramework Sample.mvc; System.HandleGenerateProject ]
      (System.boot Sample.emptyStorage) in
  length (System.generating s) = 1 ∧
  length (System.generating (System.step System.HandleGenerateProject s)) = 2.
Proof.
  intros s.
  assert (length (System.generating s) = 1) as Hone by (vm_compute; reflexivity).
  split; [exact Hone|].
  destruct (generate_is_not_limited_to_one_call s) as (call & Hcalls & _).
  - vm_compute. reflexivity.
  - rewrite Hcalls, length_app, Hone. reflexivity.
Defined.

End UnguardedGeneration.

(** ** The agent simulation *)

Section AgentSimulation.

Import System.

Lemma step_TimerFired (s : System.t) i stage :
  simulations s !! i = Some stage →
  step (TimerFired i) s =
  {| app := AppComponent.runAgentSimulation stage (app s);
     localStorage := localStorage s; generating := generating s;
     modifying := modifying s;
     simulations :=
       if bool_decide (stage < AppComponent.simulationStages)
       then <[i := S stage]> (simulations s)
       else delete i (simulations s) |}.
Proof. intros Hi. unfold step. by rewrite Hi. Qed.

Lemma delete_insert_same {A} (l : list A) i x : delete i (<[i := x]> l) = delete i l.
Proof.
  revert i. induction l as [|y l IH]; intros [|i]; simpl; try done.
  by rewrite IH.
Qed.

(** What one stage of the simulation writes. *)
Lemma runAgentSimulation_stage stage st :
  let st' := AppComponent.runAgentSimulation stage st in
  (snd <$> AppComponent.agentLogs st') =
    (snd <$> AppComponent.agentLogs st) ++
      match stage with
      | 0 => ["Analyzing project requirements..."]
      | 1 => ["Assembling AI development team..."]
      | 2 => ["Scaffolding backend structure..."]
      | 3 => ["Designing database schema..."]
      | 4 => ["Planning UI components..."]
      | 5 => ["Team is now generating the full codebase. This may take a moment..."]
      | _ => []
      end ∧
  (Agent.id ∘ fst <$> AppComponent.agentLogs st') =
    (Agent.id ∘ fst <$> AppComponent.agentLogs st) ++
      match stage with
      | 0 | 1 | 5 => ["team_leader"]
      | 2 => ["coder"]
      | 3 => ["database"]
      | 4 => ["frontend"]
      | _ => []
      end ∧
  AppComponent.activeAgents st' =
    match stage with
    | 0 => ["team_leader"]
    | 1 => ["team_leader"; "coder"; "frontend"; "database"]
    | _ => AppComponent.activeAgents st
    end ∧
  AppComponent.appState st' = AppComponent.appState st ∧
  AppComponent.activeProject st' = AppComponent.activeProject st ∧
  AppComponent.chatHistory st' = AppComponent.chatHistory st ∧
  AppComponent.errorMessage st' = AppComponent.errorMessage st.
Proof.
  intros st'. subst st'. unfold AppComponent.runAgentSimulation.
  repeat match goal with
  | |- context [AppComponent.getAgentById ?k] =>
      let v := eval vm_compute in (AppComponent.getAgentById k) in
      change (AppComponent.getAgentById k) with v
  end.
  do 6 (destruct stage as [|stage];
        [simpl; rewrite !fmap_app; repeat split; done|]).
  simpl. by rewrite !app_nil_r.
Qed.

Lemma timer_advances (s : System.t) i stage :
  simulations s !! i = Some stage → stage < 5 →
  simulations (step (TimerFired i) s) !! i = Some (S stage) ∧
  simulations (step (TimerFired i) s) = <[i := S stage]> (simulations s) ∧
  app (step (TimerFired i) s) = AppComponent.runAgentSimulation stage (app s) ∧
  localStorage (step (TimerFired i) s) = localStorage s ∧
  generating (step (TimerFired i) s) = generating s ∧
  modifying (step (TimerFired i) s) = modifying s.
Proof.
  intros Hi Hstage. rewrite (step_TimerFired s i stage Hi).
  cbn [app localStorage System.generating modifying simulations].
  rewrite bool_decide_eq_true_2 by done.
  split; [|done]. apply list_lookup_insert_eq. by eapply lookup_lt_Some.
Qed.

(** X19.  The five timers of one simulation, fired in a row, append the five
    remaining lines of the script to the agent log, in order and attributed
    to the team leader, the coder, the database agent, the frontend agent
    and the team leader again; they leave all four agents active and end the
    simulation; state, active project, chat, error message, store and calls
    in flight are untouched. *)
Theorem simulation_runs_its_script (s : System.t) i :
  simulations s !! i = Some 1 →
  let s' :=
    run [TimerFired i; TimerFired i; TimerFired i; TimerFired i; TimerFired i] s in
  (snd <$> AppComponent.agentLogs (app s')) =
    (snd <$> AppComponent.agentLogs (app s)) ++
      [ "Assembling AI development team...";
        "Scaffolding backend structure...";
        "Designing database schema...";
        "Planning UI components...";
        "Team is now generating the full codebase. This may take a moment..." ] ∧
  (Agent.id ∘ fst <$> AppComponent.agentLogs (app s')) =
    (Agent.id ∘ fst <$> AppComponent.agentLogs (app s)) ++
      ["team_leader"; "coder"; "database"; "frontend"; "team_leader"] ∧
  AppComponent.activeAgents (app s') = ["team_leader"; "coder"; "frontend"; "database"] ∧
  simulations s' = delete i (simulations s) ∧
  AppComponent.appState (app s') = AppComponent.appState (app s) ∧
  AppComponent.activeProject (app s') = AppComponent.activeProject (app s) ∧
  AppComponent.chatHistory (app s') = AppComponent.chatHistory (app s) ∧
  AppComponent.errorMessage (app s') = AppComponent.errorMessage (app s) ∧
  localStorage s' = localStorage s ∧
  generating s' = generating s ∧
  modifying s' = modifying s.
Proof.
  intros H1 s'. subst s'. unfold run. cbn [fold_left].
  set (s1 := step (TimerFired i) s).
  set (s2 := step (TimerFired i) s1).
  set (s3 := step (TimerFired i) s2).
  set (s4 := step (TimerFired i) s3).
  destruct (timer_advances s i 1 H1) as (H2 & Hs1 & Ha1 & Hl1 & Hg1 & Hm1); [lia|].
  fold s1 in H2, Hs1, Ha1, Hl1, Hg1, Hm1.
  destruct (timer_advances s1 i 2 H2) as (H3 & Hs2 & Ha2 & Hl2 & Hg2 & Hm2); [lia|].
  fold s2 in H3, Hs2, Ha2, Hl2, Hg2, Hm2.
  destruct (timer_advances s2 i 3 H3) as (H4 & Hs3 & Ha3 & Hl3 & Hg3 & Hm3); [lia|].
  fold s3 in H4, Hs3, Ha3, Hl3, Hg3, Hm3.
  destruct (timer_advances s3 i 4 H4) as (H5 & Hs4 & Ha4 & Hl4 & Hg4 & Hm4); [lia|].
  fold s4 in H5, Hs4, Ha4, Hl4, Hg4, Hm4.
  rewrite (step_TimerFired s4 i 5 H5).
  cbn [app localStorage System.generating modifying simulations].
  rewrite bool_decide_eq_false_2 by (unfold AppComponent.simulationStages; lia).
  rewrite Hs4, Hs3, Hs2, Hs1, Hl4, Hl3, Hl2, Hl1, Hg4, Hg3, Hg2, Hg1,
    Hm4, Hm3, Hm2, Hm1, Ha4, Ha3, Ha2, Ha1.
  rewrite !list_insert_insert_eq, delete_insert_same.
  destruct (runAgentSimulation_stage 1 (app s)) as (L1 & I1 & A1 & S1 & P1 & C1 & E1).
  destruct (runAgentSimulation_stage 2 (AppComponent.runAgentSimulation 1 (app s)))
    as (L2 & I2 & A2 & S2 & P2 & C2 & E2).
  destruct (runAgentSimulation_stage 3
              (AppComponent.runAgentSimulation 2 (AppComponent.runAgentSimulation 1 (app s))))
    as (L3 & I3 & A3 & S3 & P3 & C3 & E3).
  destruct (runAgentSimulation_stage 4
              (AppComponent.runAgentSimulation 3
                 (AppComponent.runAgentSimulation 2
                    (AppComponent.runAgentSimulation 1 (app s)))))
    as (L4 & I4 & A4 & S4 & P4 & C4 & E4).
  destruct (runAgentSimulation_stage 5
              (AppComponent.runAgentSimulation 4
                 (AppComponent.runAgentSimulation 3
                    (AppComponent.runAgentSimulation 2
                       (AppComponent.runAgentSimulation 1 (app s))))))
    as (L5 & I5 & A5 & S5 & P5 & C5 & E5).
  cbv zeta in *.
  rewrite L5, L4, L3, L2, L1, I5, I4, I3, I2, I1, A5, A4, A3, A2, A1,
    S5, S4, S3, S2, S1, P5, P4, P3, P2, P1, C5, C4, C3, C2, C1, E5, E4, E3, E2, E1.
  rewrite <-!app_assoc. repeat split.
Qed.

Lemma simulation_runs_its_script_witness :
  let s :=
    run [ StartNewProjectFlow; InputPrompt Sample.blogPrompt;
          SelectFramework Sample.mvc; HandleGenerateProject;
          GenerateSettled 0 Sample.blogAnswer "id" ]
      (boot Sample.emptyStorage) in
  let s' :=
    run [TimerFired 0; TimerFired 0; TimerFired 0; TimerFired 0; TimerFired 0] s in
  simulations s !! 0 = Some 1 ∧
  AppComponent.activeAgents (app s) = [] ∧
  AppComponent.activeAgents (app s') = ["team_leader"; "coder"; "frontend"; "database"] ∧
  AppComponent.appState (app s') = AppComponent.appState (app s).
Proof.
  intros s s'.
  assert (simulations s !! 0 = Some 1) as Hsim by (vm_compute; reflexivity).
  assert (AppComponent.activeAgents (app s) = []) as Hnone by (vm_compute; reflexivity).
  split; [exact Hsim|]. split; [exact Hnone|].
  destruct (simulation_runs_its_script s 0 Hsim)
    as (_ & _ & Hagents & _ & Hstate & _).
  split; [exact Hagents|exact Hstate].
Defined.

End AgentSimulation.

(** ** The code viewer: file names and directories *)

Section PathPieces.

Import CodeViewerComponent.

Lemma String_app_cons c s t : String c s +:+ t = String c (s +:+ t).
Proof. reflexivity. Qed.

Lemma string_app_assoc (s t u : string) : (s +:+ t) +:+ u = s +:+ (t +:+ u).
Proof.
  induction s as [|c s IH]; [done|]. rewrite !String_app_cons. by rewrite IH.
Qed.

Lemma split_not_nil s : split s ≠ [].
Proof.
  destruct s as [|c s]; simpl; [done|].
  case_decide; [done|]. by destruct (split s).
Qed.

Lemma join_cons piece rest :
  rest ≠ [] → join (piece :: rest) = piece +:+ "/" +:+ join rest.
Proof. by destruct rest. Qed.

Lemma join_split s : join (split s) = s.
Proof.
  induction s as [|c s IH]; simpl; [done|].
  pose proof (split_not_nil s) as Hne.
  case_decide as Hc.
  - subst c. rewrite join_cons by done. by rewrite IH.
  - destruct (split s) as [|piece pieces]; [done|].
    destruct pieces as [|piece' pieces].
    + simpl in *. by rewrite IH.
    + rewrite join_cons in IH by done. rewrite join_cons by done.
      by rewrite String_app_cons, IH.
Qed.

Lemma join_snoc parts piece :
  parts ≠ [] → join (parts ++ [piece]) = join parts +:+ "/" +:+ piece.
Proof.
  induction parts as [|p parts IH]; [done|]. intros _.
  destruct parts as [|p' parts]; [done|].
  change ((p :: p' :: parts) ++ [piece]) with (p :: ((p' :: parts) ++ [piece])).
  rewrite join_cons by done. rewrite IH by done.
  rewrite (join_cons p (p' :: parts)) by done.
  by rewrite !string_app_assoc.
Qed.

Lemma split_pieces s : Forall (λ piece, contains "/" piece = false) (split s).
Proof.
  induction s as [|c s IH]; simpl; [by repeat constructor|].
  case_decide as Hc; [by constructor|].
  pose proof (split_not_nil s) as Hne.
  destruct (split s) as [|piece pieces]; [done|].
  apply Forall_cons in IH as [Hpiece Hpieces]. constructor; [|done].
  simpl. by rewrite bool_decide_eq_false_2.
Qed.

Lemma split_no_slash s : contains "/" s = false → split s = [s].
Proof.
  induction s as [|c s IH]; simpl; [done|].
  intros [Hc%bool_decide_eq_false Hs]%orb_false_iff.
  rewrite decide_False by done. by rewrite IH.
Qed.

Lemma split_last s : ∃ piece, last (split s) = Some piece ∧
                              split s = removelast (split s) ++ [piece].
Proof.
  destruct (last (split s)) as [piece|] eqn:Hlast.
  - exists piece. split; [done|].
    apply last_Some in Hlast as [parts ->]. by rewrite removelast_last.
  - apply last_None in Hlast. by destruct (split_not_nil s).
Qed.

(** X20.  Splitting a path at its slashes and joining the pieces gives the
    path back, and no piece holds a slash.  For a path without a slash the
    file name is the path and the directory is [./].  Whenever the file name
    differs from the path and the directory is not [./], the path is the
    directory, a slash and the file name.  A file name that holds a slash is
    the whole path (the path ends in a slash). *)
Theorem path_decomposes path :
  join (split path) = path ∧
  Forall (λ piece, contains "/" piece = false) (split path) ∧
  (contains "/" path = false →
   getFileName path = path ∧ getFileDirectory path = "./") ∧
  (getFileName path ≠ path → getFileDirectory path ≠ "./" →
   path = getFileDirectory path +:+ "/" +:+ getFileName path) ∧
  (contains "/" (getFileName path) = true → getFileName path = path).
Proof.
  split; [apply join_split|]. split; [apply split_pieces|].
  destruct (split_last path) as (piece & Hlast & Hsplit).
  pose proof (split_pieces path) as Hpieces.
  rewrite Hsplit in Hpieces. apply Forall_app in Hpieces as [_ Hpiece%Forall_inv].
  split; [|split].
  - intros Hnone. unfold getFileName, getFileDirectory.
    rewrite (split_no_slash _ Hnone). simpl. split; [|done].
    by destruct (JsString.truthy path).
  - unfold getFileName, getFileDirectory. rewrite Hlast.
    destruct (JsString.truthy piece); [|done]. intros _.
    destruct (JsString.truthy (join (removelast (split path)))) eqn:Hdir; [|done].
    intros _. rewrite <-join_snoc, <-Hsplit; [by rewrite join_split|].
    intros Hnil. by rewrite Hnil in Hdir.
  - unfold getFileName. rewrite Hlast.
    destruct (JsString.truthy piece); [|done]. congruence.
Qed.

Lemma path_decomposes_witness :
  let path := "Views/Home/Index.cshtml" in
  getFileName path = "Index.cshtml" ∧
  getFileDirectory path = "Views/Home" ∧
  path = getFileDirectory path +:+ "/" +:+ getFileName path.
Proof.
  intros path. split; [reflexivity|]. split; [reflexivity|].
  apply (proj1 (proj2 (proj2 (proj2 (path_decomposes path))))); discriminate.
Defined.

End PathPieces.

(** ** The signals and the store *)

Section SignalsAndStore.

Import System.

(** What a state shows of the store: the history signal is the stored list
    and the stored theme is the one in use. *)
Lemma mirror_boot ls :
  AppComponent.projectHistory (app (boot ls))
  = ProjectHistoryService.getProjects (localStorage (boot ls)) ∧
  LocalStorage.theme (localStorage (boot ls))
  = Some (if AppComponent.isDarkMode (app (boot ls)) then "dark" else "light").
Proof. done. Qed.

Lemma runAgentSimulation_mirror stage st :
  AppComponent.projectHistory (AppComponent.runAgentSimulation stage st)
  = AppComponent.projectHistory st ∧
  AppComponent.isDarkMode (AppComponent.runAgentSimulation stage st)
  = AppComponent.isDarkMode st.
Proof.
  unfold AppComponent.runAgentSimulation.
  destruct (AppComponent.getAgentById "team_leader"),
    (AppComponent.getAgentById "coder"),
    (AppComponent.getAgentById "frontend"),
    (AppComponent.getAgentById "database"); try done.
  do 6 (destruct stage as [|stage]; [done|]). done.
Qed.

Lemma loadProject_mirror projectId ls st :
  AppComponent.projectHistory (AppComponent.loadProject projectId ls st)
  = AppComponent.projectHistory st ∧
  AppComponent.isDarkMode (AppComponent.loadProject projectId ls st)
  = AppComponent.isDarkMode st.
Proof.
  unfold AppComponent.loadProject.
  by destruct (ProjectHistoryService.getProject projectId ls) as [[project|]|].
Qed.

Lemma deleteProject_mirror projectId ls st :
  AppComponent.projectHistory (AppComponent.deleteProject projectId ls st).1
  = ProjectHistoryService.getProjects (ProjectHistoryService.deleteProject projectId ls) ∧
  AppComponent.isDarkMode (AppComponent.deleteProject projectId ls st).1
  = AppComponent.isDarkMode st.
Proof.
  unfold AppComponent.deleteProject.
  by destruct (match AppComponent.activeProject _ with Some _ => _ | None => _ end).
Qed.

Lemma handleGenerateProject_mirror st :
  AppComponent.projectHistory (AppComponent.handleGenerateProject st).1
  = AppComponent.projectHistory st ∧
  AppComponent.isDarkMode (AppComponent.handleGenerateProject st).1
  = AppComponent.isDarkMode st.
Proof.
  unfold AppComponent.handleGenerateProject.
  destruct (AppComponent.isGenerationDisabled st); [done|].
  rewrite runAgentSimulation_start.
  by destruct (AppComponent.selectedFramework _).
Qed.

Lemma handleGenerateProject_settled_mirror result ls st :
  AppComponent.projectHistory (AppComponent.handleGenerateProject_settled result ls st).1
  = match result with
    | Return project =>
        ProjectHistoryService.getProjects (ProjectHistoryService.saveProject project ls)
    | Throw _ => AppComponent.projectHistory st
    end ∧
  AppComponent.isDarkMode (AppComponent.handleGenerateProject_settled result ls st).1
  = AppComponent.isDarkMode st.
Proof.
  unfold AppComponent.handleGenerateProject_settled.
  destruct result as [project|message]; [|done].
  by destruct (AppComponent.getAgentById "team_leader").
Qed.

Lemma handleModificationRequest_mirror st :
  AppComponent.projectHistory (AppComponent.handleModificationRequest st).1
  = AppComponent.projectHistory st ∧
  AppComponent.isDarkMode (AppComponent.handleModificationRequest st).1
  = AppComponent.isDarkMode st.
Proof.
  unfold AppComponent.handleModificationRequest.
  destruct (_ || _); [done|]. simpl.
  by destruct (AppComponent.activeProject st).
Qed.

Lemma handleModificationRequest_settled_mirror result ls st :
  AppComponent.projectHistory
    (AppComponent.handleModificationRequest_settled result ls st).1
  = match result with
    | Return project =>
        ProjectHistoryService.getProjects (ProjectHistoryService.saveProject project ls)
    | Throw _ => AppComponent.projectHistory st
    end ∧
  AppComponent.isDarkMode
    (AppComponent.handleModificationRequest_settled result ls st).1
  = AppComponent.isDarkMode st.
Proof.
  unfold AppComponent.handleModificationRequest_settled.
  destruct result as [project|message]; [|done].
  by destruct (AppComponent.or_null _); [destruct (negb _)|].
Qed.

Lemma saveProject_theme project ls :
  LocalStorage.theme (ProjectHistoryService.saveProject project ls)
  = LocalStorage.theme ls.
Proof.
  unfold ProjectHistoryService.saveProject.
  by destruct (ProjectHistoryService.getProjects ls).
Qed.

Lemma deleteProject_theme projectId ls :
  LocalStorage.theme (ProjectHistoryService.deleteProject projectId ls)
  = LocalStorage.theme ls.
Proof.
  unfold ProjectHistoryService.deleteProject.
  by destruct (ProjectHistoryService.getProjects ls).
Qed.

Lemma mirror_step e (s : System.t) :
  AppComponent.projectHistory (app s)
  = ProjectHistoryService.getProjects (localStorage s) →
  LocalStorage.theme (localStorage s)
  = Some (if AppComponent.isDarkMode (app s) then "dark" else "light") →
  AppComponent.projectHistory (app (step e s))
  = ProjectHistoryService.getProjects (localStorage (step e s)) ∧
  LocalStorage.theme (localStorage (step e s))
  = Some (if AppComponent.isDarkMode (app (step e s)) then "dark" else "light").
Proof.
  intros Hhistory Htheme.
  destruct e; unfold step; try done.
  - unfold with_app. cbn [app localStorage].
    by destruct state.
  - unfold with_app. cbn [app localStorage].
    destruct (loadProject_mirror projectId (localStorage s) (app s)) as [-> ->].
    done.
  - pose proof (deleteProject_mirror projectId (localStorage s) (app s)) as [Hh Hd].
    pose proof (deleteProject_storage projectId (localStorage s) (app s)) as Hls.
    destruct (AppComponent.deleteProject _ _ _) as [a ls]. simpl in *. subst ls.
    by rewrite Hh, Hd, deleteProject_theme.
  - destruct (AppComponent.isGenerationDisabled _); [done|].
    pose proof (handleGenerateProject_mirror (app s)) as [Hh Hd].
    destruct (AppComponent.handleGenerateProject _) as [a call]. simpl in *.
    by rewrite Hh, Hd.
  - destruct (generating s !! i) as [call|]; [|done].
    match goal with
    | |- context [AppComponent.handleGenerateProject_settled ?r ?ls ?st] =>
        pose proof (handleGenerateProject_settled_mirror r ls st) as [Hh Hd];
        pose proof (handleGenerateProject_settled_storage r ls st) as Hls;
        destruct (AppComponent.handleGenerateProject_settled r ls st) as [a ls'];
        destruct r
    end; simpl in *; subst ls'; rewrite Hh, Hd; [|done].
    by rewrite saveProject_theme.
  - pose proof (handleModificationRequest_mirror (app s)) as [Hh Hd].
    destruct (AppComponent.handleModificationRequest _) as [a call]. simpl in *.
    by rewrite Hh, Hd.
  - destruct (modifying s !! i) as [call|]; [|done].
    match goal with
    | |- context [AppComponent.handleModificationRequest_settled ?r ?ls ?st] =>
        pose proof (handleModificationRequest_settled_mirror r ls st) as [Hh Hd];
        pose proof (handleModificationRequest_settled_storage r ls st) as Hls;
        destruct (AppComponent.handleModificationRequest_settled r ls st) as [a ls'];
        destruct r
    end; simpl in *; subst ls'; rewrite Hh, Hd; [|done].
    by rewrite saveProject_theme.
  - destruct (simulations s !! i) as [stage|]; [|done].
    cbn [app localStorage].
    by destruct (runAgentSimulation_mirror stage (app s)) as [-> ->].
Qed.

(** X21.  In every state the application can reach, the history it shows is
    the list the store holds and the stored theme is the theme in use; so
    starting the application again on the store it left behind shows the
    same history in the same theme. *)
Theorem signals_mirror_the_store (s : System.t) :
  reachable s →
  AppComponent.projectHistory (app s)
  = ProjectHistoryService.getProjects (localStorage s) ∧
  LocalStorage.theme (localStorage s)
  = Some (if AppComponent.isDarkMode (app s) then "dark" else "light") ∧
  AppComponent.projectHistory (app (boot (localStorage s)))
  = AppComponent.projectHistory (app s) ∧
  AppComponent.isDarkMode (app (boot (localStorage s)))
  = AppComponent.isDarkMode (app s).
Proof.
  intros Hreach.
  assert (AppComponent.projectHistory (app s)
          = ProjectHistoryService.getProjects (localStorage s) ∧
          LocalStorage.theme (localStorage s)
          = Some (if AppComponent.isDarkMode (app s) then "dark" else "light"))
    as [Hhistory Htheme].
  { induction Hreach as [ls|e s _ [IH1 IH2]]; [apply mirror_boot|].
    by apply mirror_step. }
  split; [done|]. split; [done|]. split; [done|].
  unfold boot, AppComponent.constructor, AppComponent.loadTheme.
  cbn [app]. cbn [AppComponent.isDarkMode AppComponent.loadProjects
                  AppComponent.set_projectHistory AppComponent.set_isDarkMode].
  rewrite Htheme. by destruct (AppComponent.isDarkMode (app s)).
Qed.

Lemma signals_mirror_the_store_witness :
  let s :=
    run [ ToggleDarkMode; StartNewProjectFlow; InputPrompt Sample.blogPrompt;
          SelectFramework Sample.mvc; HandleGenerateProject;
          GenerateSettled 0 Sample.blogAnswer "id" ]
      (boot Sample.emptyStorage) in
  AppComponent.isDarkMode (app (boot (localStorage s))) = true ∧
  AppComponent.projectHistory (app (boot (localStorage s)))
  = LocalStorage.JsonArray [Sample.generated].
Proof.
  intros s.
  assert (reachable s) as Hreach by (repeat constructor).
  destruct (signals_mirror_the_store s Hreach) as (_ & _ & Hhistory & Hdark).
  split.
  - rewrite Hdark. vm_compute. reflexivity.
  - rewrite Hhistory. vm_compute. reflexivity.
Defined.

End SignalsAndStore.

(** ** The order in which the code viewer lists the paths *)

Section ListedPaths.

Lemma insert_index_Permutation n k l :
  JsObject.insert_index n k l ≡ₚ (n, k) :: l.
Proof.
  induction l as [|[m k'] l IH]; simpl; [done|].
  destruct (n <? m)%N; [done|]. rewrite IH. apply Permutation_swap.
Qed.

Lemma keys_Permutation (o : JsObject.t) : JsObject.keys o ≡ₚ o.*1.
Proof.
  unfold JsObject.keys. induction o as [|[k v] o IH]; simpl; [done|].
  destruct (JsObject.array_index k) as [n|].
  - rewrite insert_index_Permutation. simpl. by rewrite IH.
  - rewrite <-Permutation_middle. by rewrite IH.
Qed.

(** X22.  The code viewer lists the keys of the files mapping, each as often
    as the mapping has it, in ascending order; so it lists two mappings with
    the same keys alike, in whatever order their keys were created, and the
    first path it lists is below every key. *)
Theorem listed_paths_are_sorted (files files' : JsObject.t) :
  CodeViewerComponent.filePaths files ≡ₚ files.*1 ∧
  Sorted String.le (CodeViewerComponent.filePaths files) ∧
  (files.*1 ≡ₚ files'.*1 →
   CodeViewerComponent.filePaths files = CodeViewerComponent.filePaths files') ∧
  (∀ first k,
     head (CodeViewerComponent.filePaths files) = Some first → k ∈ files.*1 →
     String.le first k).
Proof.
  unfold CodeViewerComponent.filePaths.
  assert (merge_sort String.le (JsObject.keys files) ≡ₚ files.*1) as Hperm
    by by rewrite merge_sort_Permutation, keys_Permutation.
  split; [done|].
  split; [apply (Sorted_merge_sort _)|]. split.
  - intros Hsame. apply (Sorted_unique String.le).
    + apply (Sorted_merge_sort _).
    + apply (Sorted_merge_sort _).
    + by rewrite !merge_sort_Permutation, !keys_Permutation.
  - intros first k Hhead Hk. rewrite <-Hperm in Hk.
    pose proof (StronglySorted_merge_sort String.le (JsObject.keys files)) as Hsorted.
    destruct (merge_sort String.le (JsObject.keys files)) as [|x l]; [done|].
    injection Hhead as ->.
    apply elem_of_cons in Hk as [->|Hk]; [done|].
    apply StronglySorted_inv in Hsorted as [_ Hall].
    rewrite Forall_forall in Hall. by apply Hall.
Qed.

Lemma listed_paths_are_sorted_witness :
  CodeViewerComponent.filePaths [("b.cs", "1"); ("10", "3"); ("a.cs", "2")]
  = CodeViewerComponent.filePaths [("a.cs", "2"); ("b.cs", "1"); ("10", "3")] ∧
  CodeViewerComponent.filePaths [("b.cs", "1"); ("10", "3"); ("a.cs", "2")]
  = ["10"; "a.cs"; "b.cs"].
Proof.
  split; [|reflexivity].
  refine (proj1 (proj2 (proj2 (listed_paths_are_sorted
                                 [("b.cs", "1"); ("10", "3"); ("a.cs", "2")]
                                 [("a.cs", "2"); ("b.cs", "1"); ("10", "3")]))) _).
  simpl. symmetry. apply (Permutation_cons_append ["b.cs"; "10"] "a.cs").
Defined.

End ListedPaths.

(** ** The computed views *)

Section ComputedViews.

Import System.

Lemma prefix_split p s : String.prefix p s = true → ∃ rest, s = p +:+ rest.
Proof.
  revert s. induction p as [|a p IH]; intros s; simpl.
  - intros _. by exists s.
  - destruct s as [|b s]; [done|]. simpl.
    destruct (ascii_dec a b) as [->|]; [|done].
    intros (rest & ->)%IH. by exists rest.
Qed.

Lemma contains_app c s t : contains c (s +:+ t) = contains c s || contains c t.
Proof.
  induction s as [|a s IH]; [done|].
  rewrite String_app_cons. simpl. by rewrite IH, orb_assoc.
Qed.

Lemma replaceAll_without c pattern replacement s :
  contains c pattern = true → contains c s = false →
  Views.replaceAll pattern replacement 0 s = s.
Proof.
  intros Hpattern. induction s as [|a s IH]; [done|].
  intros Hs. cbn [Views.replaceAll].
  destruct (String.prefix pattern (String a s)) eqn:Hprefix.
  - apply prefix_split in Hprefix as [rest Hrest].
    rewrite Hrest, contains_app, Hpattern in Hs. done.
  - simpl in Hs. apply orb_false_iff in Hs as [_ Hs]. by rewrite IH.
Qed.

Lemma replaceAll_length pattern replacement skip s :
  String.length replacement ≤ String.length pattern →
  String.length (Views.replaceAll pattern replacement skip s)
    + skip `min` String.length s ≤ String.length s.
Proof.
  intros Hshorter. revert skip.
  induction s as [|a s IH]; intros skip; [simpl; lia|].
  cbn [Views.replaceAll]. destruct skip as [|skip].
  - destruct (String.prefix pattern (String a s)) eqn:Hprefix.
    + apply prefix_split in Hprefix as [rest Hrest].
      apply (f_equal String.length) in Hrest.
      rewrite string_app_length in Hrest. simpl in Hrest.
      rewrite string_app_length.
      specialize (IH (String.length pattern - 1)). simpl. lia.
    + specialize (IH 0). simpl in *. lia.
  - specialize (IH skip). simpl. lia.
Qed.

(** X23.  The rewrite of root-relative references leaves a content without
    the character [~] as it is, and never makes a content longer. *)
Theorem rewriteReferences_is_conservative content :
  (contains "~" content = false → Views.rewriteReferences content = content) ∧
  String.length (Views.rewriteReferences content) ≤ String.length content.
Proof.
  unfold Views.rewriteReferences. split.
  - intros Hnone.
    rewrite (replaceAll_without "~" _ _ content); [|done|done].
    by rewrite (replaceAll_without "~" _ _ content).
  - pose proof (replaceAll_length ("href=" +:+ JsString.dquote +:+ "~/")
                  ("href=" +:+ JsString.dquote) 0 content) as Hhref.
    pose proof (replaceAll_length ("src=" +:+ JsString.dquote +:+ "~/")
                  ("src=" +:+ JsString.dquote) 0
                  (Views.replaceAll ("href=" +:+ JsString.dquote +:+ "~/")
                     ("href=" +:+ JsString.dquote) 0 content)) as Hsrc.
    assert (∀ n, 0 `min` n = 0) as Hmin by (intros; lia).
    rewrite Hmin in Hhref, Hsrc.
    assert (String.length ("href=" +:+ JsString.dquote)
            ≤ String.length ("href=" +:+ JsString.dquote +:+ "~/")) as H1
      by (vm_compute; lia).
    assert (String.length ("src=" +:+ JsString.dquote)
            ≤ String.length ("src=" +:+ JsString.dquote +:+ "~/")) as H2
      by (vm_compute; lia).
    specialize (Hhref H1). specialize (Hsrc H2). lia.
Qed.

Lemma rewriteReferences_is_conservative_witness :
  Views.rewriteReferences "<h1>Blog</h1>" = "<h1>Blog</h1>".
Proof.
  exact (proj1 (rewriteReferences_is_conservative "<h1>Blog</h1>") eq_refl).
Defined.

Lemma generation_settled_selection (s : System.t) i call reply fresh_id project :
  generating s !! i = Some call →
  GeminiService.generateProject
    (AppComponent.GenerateCall.prompt call)
    (AppComponent.GenerateCall.framework call)
    (AppComponent.GenerateCall.features call) reply fresh_id = Return project →
  let st' := app (step (GenerateSettled i reply fresh_id) s) in
  AppComponent.activeProject st' = Some project ∧
  AppComponent.selectedFile st'
  = AppComponent.or_null (head (JsObject.keys (GeneratedProject.files project))) ∧
  AppComponent.selectedPreviewFile st'
  = AppComponent.or_null
      (head (List.filter AppComponent.isPreviewable
               (JsObject.keys (GeneratedProject.files project)))).
Proof.
  intros Hi Hgen st'. subst st'. unfold step. rewrite Hi, Hgen.
  unfold AppComponent.handleGenerateProject_settled.
  by destruct (AppComponent.getAgentById "team_leader").
Qed.

Lemma own_key_of_generated fs k :
  k ∈ JsObject.keys (GeminiService.filesDictionary fs) →
  k ≠ "" ∧
  ∃ v, (k, v) ∈ GeminiService.filesDictionary fs ∧ v ≠ "" ∧
       Views.read (GeminiService.filesDictionary fs) k = Some (Views.Text v).
Proof.
  intros Hk%elem_of_keys. apply list_elem_of_fmap in Hk as ([k' v] & Heq & Hkv).
  simpl in Heq. subst k'.
  pose proof Hkv as (pre & file & post & _ & (_ & _ & Hk & Hv & _) & _)%elem_of_filesDictionary.
  split; [done|]. exists v. split; [done|]. split; [done|].
  unfold Views.read.
  by rewrite (proj2 (get_elem_of _ k v (filesDictionary_NoDup fs)) Hkv).
Qed.

(** X24.  Right after a successful generation the code view is not empty: it
    shows the content, a non-empty text, that the project has under the
    first key of its files.  The preview shows the rewritten content of the
    first previewable key, or the placeholder when no key is previewable. *)
Theorem views_after_generation (s : System.t) i call reply fresh_id project :
  generating s !! i = Some call →
  GeminiService.generateProject
    (AppComponent.GenerateCall.prompt call)
    (AppComponent.GenerateCall.framework call)
    (AppComponent.GenerateCall.features call) reply fresh_id = Return project →
  let st' := app (step (GenerateSettled i reply fresh_id) s) in
  (∃ first content,
     head (JsObject.keys (GeneratedProject.files project)) = Some first ∧
     (first, content) ∈ GeneratedProject.files project ∧ content ≠ "" ∧
     Views.selectedFileContent st' = Some (Views.Text content)) ∧
  match head (List.filter AppComponent.isPreviewable
                (JsObject.keys (GeneratedProject.files project))) with
  | Some shown =>
      ∃ markup,
        (shown, markup) ∈ GeneratedProject.files project ∧
        Views.safePreviewContent st' = Return (Views.rewriteReferences markup)
  | None => Views.safePreviewContent st' = Return Views.placeholder
  end.
Proof.
  intros Hi Hgen st'.
  destruct (generation_settled_selection s i call reply fresh_id project Hi Hgen)
    as (Hactive & Hfile & Hpreview).
  fold st' in Hactive, Hfile, Hpreview.
  apply generateProject_Return, callGenerativeModel_Return in Hgen
    as (raw & fs & _ & _ & Hne & ->).
  cbn [GeneratedProject.files] in *.
  unfold Views.selectedFileContent, Views.safePreviewContent.
  rewrite Hactive, Hfile, Hpreview. cbn [GeneratedProject.files].
  split.
  - destruct (JsObject.keys (GeminiService.filesDictionary fs)) as [|first rest] eqn:Hkeys.
    { by apply keys_nil_iff in Hkeys. }
    destruct (own_key_of_generated fs first) as (Hfirst & content & Hin & Hcontent & Hread).
    { rewrite Hkeys. by left. }
    exists first, content. simpl.
    apply truthy_true in Hfirst. pose proof Hcontent as Htext%truthy_true.
    rewrite Hfirst. simpl. by rewrite ?Hfirst, Hread, Htext.
  - destruct (head (List.filter _ _)) as [shown|] eqn:Hhead; [|done].
    apply head_Some_elem_of, elem_of_List_filter in Hhead as [Hshown _].
    destruct (own_key_of_generated fs shown Hshown)
      as (Hnonempty & markup & Hin & Hmarkup & Hread).
    exists markup. split; [done|]. simpl.
    apply truthy_true in Hnonempty. apply truthy_true in Hmarkup.
    rewrite Hnonempty. simpl. by rewrite ?Hnonempty, Hread, Hmarkup.
Qed.

Lemma views_after_generation_witness :
  let s :=
    run [ StartNewProjectFlow; InputPrompt Sample.blogPrompt;
          SelectFramework Sample.mvc; HandleGenerateProject ]
      (boot Sample.emptyStorage) in
  let call :=
    {| AppComponent.GenerateCall.prompt := Sample.blogPrompt;
       AppComponent.GenerateCall.framework := Sample.mvc;
       AppComponent.GenerateCall.features := [] |} in
  let st' := app (step (GenerateSettled 0 Sample.blogAnswer "id") s) in
  generating s !! 0 = Some call ∧
  ∃ content, Views.selectedFileContent st' = Some (Views.Text content) ∧ content ≠ "".
Proof.
  intros s call st'.
  assert (generating s !! 0 = Some call) as Hcall by (vm_compute; reflexivity).
  split; [exact Hcall|].
  destruct (views_after_generation s 0 call Sample.blogAnswer "id" Sample.generated
              Hcall eq_refl) as [(first & content & _ & _ & Hcontent & Hview) _].
  exists content. split; [exact Hview|exact Hcontent].
Defined.

End ComputedViews.

(** ** The order of the keys of a built dictionary *)

Section KeyOrder.

Lemma named_keys_filter (o : JsObject.t) :
  JsObject.named_keys o
  = List.filter (λ k, bool_decide (JsObject.array_index k = None)) o.*1.
Proof.
  induction o as [|[k v] o IH]; simpl; [done|].
  destruct (JsObject.array_index k) as [n|]; simpl; [done|]. by rewrite IH.
Qed.

Lemma index_keys_indices (o : JsObject.t) :
  Forall (λ nk, JsObject.array_index nk.2 = Some nk.1) (JsObject.index_keys o).
Proof.
  induction o as [|[k v] o IH]; simpl; [constructor|].
  destruct (JsObject.array_index k) as [n|] eqn:Hk; [|done].
  apply Forall_forall. intros nk [->|Hin]%insert_index_elem_of; [done|].
  rewrite Forall_forall in IH. by apply IH.
Qed.

Lemma insert_index_Sorted n k l :
  Sorted (λ a b : N * string, (a.1 ≤ b.1)%N) l →
  Sorted (λ a b : N * string, (a.1 ≤ b.1)%N) (JsObject.insert_index n k l).
Proof.
  induction 1 as [|[m k'] l Hsorted IH Hhd]; simpl.
  - by repeat constructor.
  - destruct (n <? m)%N eqn:Hlt.
    + apply N.ltb_lt in Hlt. constructor; [by constructor|].
      constructor. simpl. lia.
    + apply N.ltb_ge in Hlt. constructor; [done|].
      destruct l as [|[m' k''] l]; simpl.
      * by constructor.
      * destruct (n <? m')%N; constructor; simpl; [done|].
        by apply HdRel_inv in Hhd.
Qed.

Lemma index_keys_Sorted (o : JsObject.t) :
  Sorted (λ a b : N * string, (a.1 ≤ b.1)%N) (JsObject.index_keys o).
Proof.
  induction o as [|[k v] o IH]; simpl; [constructor|].
  destruct (JsObject.array_index k); [|done]. by apply insert_index_Sorted.
Qed.

(** X9.  The properties of the dictionary built from an answer are created
    in the order in which the answer first lists the paths that are stored,
    each path once.  [Object.keys] of the dictionary is a rearrangement of
    these paths: first those that are array indices, in ascending numeric
    order, then the others in the order of their first occurrence; when no
    stored path is an array index it is exactly the order of first
    occurrence. *)
Theorem filesDictionary_key_order fs :
  let paths := first_occurrences (omap storedPath fs) in
  (GeminiService.filesDictionary fs).*1 = paths ∧
  JsObject.keys (GeminiService.filesDictionary fs) ≡ₚ paths ∧
  (Forall (λ k, JsObject.array_index k = None) paths →
   JsObject.keys (GeminiService.filesDictionary fs) = paths) ∧
  ∃ indices : list (N * string),
    JsObject.keys (GeminiService.filesDictionary fs) =
      indices.*2 ++
      List.filter (λ k, bool_decide (JsObject.array_index k = None)) paths ∧
    Forall (λ nk, JsObject.array_index nk.2 = Some nk.1) indices ∧
    Sorted (λ a b : N * string, (a.1 ≤ b.1)%N) indices.
Proof.
  intros paths.
  assert ((GeminiService.filesDictionary fs).*1 = paths) as Hcreated.
  { subst paths. induction fs as [|file fs IH] using rev_ind; [done|].
    rewrite filesDictionary_snoc, omap_app. simpl.
    destruct (storedPath file) as [k|] eqn:Hk; simpl.
    - apply storedPath_Some in Hk as [v Hst].
      rewrite (addFile_stores _ _ _ _ Hst), fmap_fst_put, first_occurrences_snoc, IH.
      destruct (decide (k ∈ first_occurrences (omap storedPath fs))) as [Hin|Hout].
      + rewrite decide_True; [done|]. by apply elem_of_first_occurrences.
      + rewrite decide_False; [done|]. by rewrite <-elem_of_first_occurrences.
    - rewrite addFile_skips by by apply storedPath_None.
      by rewrite app_nil_r. }
  split; [done|]. split; [by rewrite keys_Permutation, Hcreated|]. split.
  - intros Hnamed. rewrite <-Hcreated. apply keys_creation_order.
    rewrite <-Hcreated in Hnamed. by apply Forall_fmap in Hnamed.
  - exists (JsObject.index_keys (GeminiService.filesDictionary fs)).
    split; [|split; [apply index_keys_indices|apply index_keys_Sorted]].
    unfold JsObject.keys. by rewrite named_keys_filter, Hcreated.
Qed.

(** An answer that lists [b], then [10], then [9]. *)
Lemma filesDictionary_key_order_witness :
  let fs := [Sample.file "b" "x"; Sample.file "10" "y"; Sample.file "9" "z";
             Sample.file "b" "w"] in
  (GeminiService.filesDictionary fs).*1 = ["b"; "10"; "9"] ∧
  JsObject.keys (GeminiService.filesDictionary fs) = ["9"; "10"; "b"] ∧
  JsObject.keys (GeminiService.filesDictionary [Sample.file "b" "x"; Sample.file "a" "y"])
  = ["b"; "a"].
Proof.
  intros fs.
  split; [exact (proj1 (filesDictionary_key_order fs))|].
  split; [reflexivity|].
  refine (proj1 (proj2 (proj2 (filesDictionary_key_order
                                 [Sample.file "b" "x"; Sample.file "a" "y"]))) _).
  repeat constructor.
Defined.

End KeyOrder.
